(** * SDI claim adjudication: the rules engine of [sdi-api]

    A shallow embedding of [app/utils/rules.py] and
    [app/services/ledger_review.py], and the properties of the validation
    gate, the ledger scan, the policy pass over the charges and the payout
    clipping; then of [app/routers/adjudicate.py] and of the fallback
    parse of [app/routers/extract.py], which call them.

    Modelling conventions.
    - A Python [str] is a [string] of bytes; [lower], [strip], [splitlines]
      and the regular-expression classes [\s] and [\d] are the ASCII ones.
    - A Python [float] is an exact rational of [Q]: sums, differences and
      comparisons are the mathematical ones, [round(x, 2)] rounds the exact
      value to hundredths, ties to even.  Infinities and NaN are left out.
    - A [dict] is a [gmap string pyval]; [pyval] is the JSON-shaped part of
      Python's values.
    - An exception is a [Raise] in the [result] monad. *)

From Stdlib Require Import QArith Qround Qminmax Lqa ZArith Lia Ascii String.
From Stdlib Require Import Sorting.Sorted Sorting.Permutation.
From stdpp Require Import base option list gmap strings.

Open Scope string_scope.

(** ** Python strings *)

Module PyStr.

Definition code (c : ascii) : N := N_of_ascii c.

Definition is_upper (c : ascii) : bool :=
  ((65 <=? code c) && (code c <=? 90))%N.

Definition is_digit (c : ascii) : bool :=
  ((48 <=? code c) && (code c <=? 57))%N.

(** [str.isspace] on ASCII: TAB, LF, VT, FF, CR, FS, GS, RS, US, SPACE. *)
Definition is_space (c : ascii) : bool :=
  (((9 <=? code c) && (code c <=? 13))
   || ((28 <=? code c) && (code c <=? 32)))%N.

(** The line boundaries of [str.splitlines] on ASCII:
    LF, VT, FF, CR, FS, GS, RS. *)
Definition is_linebreak (c : ascii) : bool :=
  (((10 <=? code c) && (code c <=? 13))
   || ((28 <=? code c) && (code c <=? 30)))%N.

Definition lower_char (c : ascii) : ascii :=
  if is_upper c then ascii_of_N (code c + 32) else c.

(** [s.lower()] *)
Fixpoint lower (s : string) : string :=
  match s with
  | EmptyString => EmptyString
  | String c s' => String (lower_char c) (lower s')
  end.

Fixpoint rev_onto (s acc : string) : string :=
  match s with
  | EmptyString => acc
  | String c s' => rev_onto s' (String c acc)
  end.

Definition rev (s : string) : string := rev_onto s EmptyString.

Fixpoint lstrip (s : string) : string :=
  match s with
  | EmptyString => EmptyString
  | String c s' => if is_space c then lstrip s' else s
  end.

Definition rstrip (s : string) : string := rev (lstrip (rev s)).

(** [s.strip()] *)
Definition strip (s : string) : string := rstrip (lstrip s).

Definition is_empty (s : string) : bool :=
  match s with EmptyString => true | _ => false end.

(** [needle in hay] *)
Fixpoint contains (needle hay : string) : bool :=
  String.prefix needle hay
  || match hay with
     | EmptyString => false
     | String _ hay' => contains needle hay'
     end.

(** [any(k in s for k in needles)] *)
Definition any_in (needles : list string) (s : string) : bool :=
  existsb (fun k => contains k s) needles.

(** [s in (t1, ..., tn)] *)
Definition str_in (s : string) (ts : list string) : bool :=
  existsb (String.eqb s) ts.

(** [s.splitlines()]: [cur] is the line being read, [after_cr] tells that
    the previous character was a CR, whose LF belongs to the same
    boundary. *)
Fixpoint splitlines_from (cur : string) (after_cr : bool) (s : string)
  : list string :=
  match s with
  | EmptyString => if is_empty cur then [] else [cur]
  | String c s' =>
      if after_cr && Ascii.eqb c "010" then splitlines_from cur false s'
      else if is_linebreak c
           then cur :: splitlines_from EmptyString (Ascii.eqb c "013") s'
           else splitlines_from (cur ++ String c EmptyString) false s'
  end.

Definition splitlines (s : string) : list string :=
  splitlines_from EmptyString false s.

(** [re.sub(r"\s+", " ", s)]: [in_ws] tells that the run of blanks being
    read has already been replaced. *)
Fixpoint collapse_ws (in_ws : bool) (s : string) : string :=
  match s with
  | EmptyString => EmptyString
  | String c s' =>
      if is_space c
      then if in_ws then collapse_ws true s'
           else String " " (collapse_ws true s')
      else String c (collapse_ws false s')
  end.

(** A string sort for [sorted(list_of_str)]: insertion into a sorted list,
    equal elements keeping their order. *)
Fixpoint insert_sorted (x : string) (l : list string) : list string :=
  match l with
  | [] => [x]
  | y :: l' => if String.ltb x y then x :: l else y :: insert_sorted x l'
  end.

Definition sorted (l : list string) : list string :=
  fold_left (fun acc x => insert_sorted x acc) l [].

End PyStr.

(** ** Python values and exceptions *)

#[warnings="-register-all"]
Inductive pyval : Type :=
| VNone
| VBool (b : bool)
| VNum (q : Q)
| VStr (s : string)
| VList (l : list pyval)
| VDict (d : list (string * pyval)).

Inductive exn : Type := AttributeError | ValueError | TypeError.

Inductive result (A : Type) : Type :=
| Ok (a : A)
| Raise (e : exn).
Arguments Ok {A} a.
Arguments Raise {A} e.

#[global] Instance result_ret : MRet result := fun A a => Ok a.
#[global] Instance result_bind : MBind result := fun A B f m =>
  match m with
  | Ok a => f a
  | Raise e => Raise e
  end.

Definition Qltb (a b : Q) : bool := negb (Qle_bool b a).

(** [min(a, b)] and [max(a, b)] of two numbers: the first argument wins a
    tie. *)
Definition py_min (a b : Q) : Q := if Qltb b a then b else a.
Definition py_max (a b : Q) : Q := if Qltb a b then b else a.

(** [round(x)]: to the nearest integer, ties to the even one. *)
Definition round_half_even (x : Q) : Z :=
  let f := Qfloor x in
  match (x - inject_Z f ?= 1 # 2)%Q with
  | Lt => f
  | Gt => (f + 1)%Z
  | Eq => if Z.even f then f else (f + 1)%Z
  end.

(** [round(x, 2)] *)
Definition round2 (x : Q) : Q := Qred (round_half_even (x * 100)%Q # 100).

(** [bool(v)] *)
Definition truthy (v : pyval) : bool :=
  match v with
  | VNone => false
  | VBool b => b
  | VNum q => negb (Qeq_bool q 0)
  | VStr s => negb (PyStr.is_empty s)
  | VList l => match l with [] => false | _ => true end
  | VDict d => match d with [] => false | _ => true end
  end.

(** [v or d] *)
Definition py_or (v d : pyval) : pyval := if truthy v then v else d.

(** [d.get(k, dflt)] and [d.get(k)] *)
Definition get (d : gmap string pyval) (k : string) (dflt : pyval) : pyval :=
  default dflt (d !! k).
Definition get_none (d : gmap string pyval) (k : string) : pyval :=
  get d k VNone.

(** [v.lower()]: only a [str] has the method. *)
Definition py_lower (v : pyval) : result string :=
  match v with
  | VStr s => Ok (PyStr.lower s)
  | _ => Raise AttributeError
  end.

(** [.lower().strip()] on a value *)
Definition py_lower_strip (v : pyval) : result string :=
  s ← py_lower v; mret (PyStr.strip s).

(** A (label, amount, reason) tuple of the approved and excluded lists.  The
    label is a value: the excluded tuple of a paid charge carries the
    description field as it was found. *)
Definition entry : Type := pyval * Q * string.

Definition entry_label (e : entry) : pyval := e.1.1.
Definition entry_amount (e : entry) : Q := e.1.2.
Definition entry_reason (e : entry) : string := e.2.

(** [sum(a[1] for a in l)] *)
Definition sum_amounts (l : list entry) : Q :=
  fold_left (fun acc e => (acc + entry_amount e)%Q) l 0%Q.

(** A decimal reading of a numeric string, [digits] or [digits.digits] with
    an optional sign, for the closed examples: the part of [float(str)] they
    use. *)
Module Decimal.

Definition digit_val (c : ascii) : Z := (Z.of_N (PyStr.code c) - 48)%Z.

Fixpoint all_digits (s : string) : bool :=
  match s with
  | EmptyString => true
  | String c s' => PyStr.is_digit c && all_digits s'
  end.

Fixpoint digits_val (acc : Z) (s : string) : Z :=
  match s with
  | EmptyString => acc
  | String c s' => digits_val (10 * acc + digit_val c)%Z s'
  end.

Fixpoint split_dot (s : string) : string * option string :=
  match s with
  | EmptyString => (EmptyString, None)
  | String c s' =>
      if Ascii.eqb c "." then (EmptyString, Some s')
      else let '(a, b) := split_dot s' in (String c a, b)
  end.

Definition unsigned (s : string) : option Q :=
  match split_dot s with
  | (i, None) =>
      if PyStr.is_empty i || negb (all_digits i) then None
      else Some (inject_Z (digits_val 0 i))
  | (i, Some f) =>
      if (PyStr.is_empty i && PyStr.is_empty f)
         || negb (all_digits i) || negb (all_digits f)
      then None
      else Some (inject_Z (digits_val 0 i)
                 + inject_Z (digits_val 0 f)
                   / inject_Z (10 ^ Z.of_nat (String.length f)))%Q
  end.

Definition float_of_str (s : string) : option Q :=
  match PyStr.strip s with
  | String "-" s' => Qopp <$> unsigned s'
  | String "+" s' => unsigned s'
  | s' => unsigned s'
  end.

(** [str(v)] of a value that is not a [str], on the values the examples
    use. *)
Definition str_of (v : pyval) : string :=
  match v with
  | VNone => "None"
  | VBool true => "True"
  | VBool false => "False"
  | VStr s => s
  | _ => "?"
  end.

End Decimal.

(** ** [app/utils/rules.py] *)

Module Rules.

(** *** Documents gate *)

Definition REQ_DOCS : list string :=
  ["lease_addendum"; "lease_agreement"; "notification_to_tenant";
   "tenant_ledger"].

Definition validate_gate (documents_present : gmap string bool)
    (ledger : gmap string pyval) : bool * gmap string pyval :=
  let missing :=
    PyStr.sorted
      (List.filter (fun d => negb (default false (documents_present !! d)))
         REQ_DOCS) in
  let first_rent :=
    truthy (get ledger "first_month_rent_paid" (VBool false)) in
  let first_sdi :=
    truthy (get ledger "first_month_sdi_premium_paid" (VBool false)) in
  let approved :=
    (length missing =? 0)%nat && first_rent && first_sdi in
  let details : gmap string pyval :=
    <["Status" := VStr (if approved then "Approved" else "Declined")]>
    (<["Missing documents" := VList (VStr <$> missing)]>
    (<["First Month SDI Premium Paid Evidence" :=
         get ledger "first_month_sdi_premium_paid_evidence" (VStr "")]>
    (<["First Month SDI Premium Paid" := VBool first_sdi]>
    (<["First Month Paid Evidence" :=
         get ledger "first_month_rent_evidence" (VStr "")]>
    (<["First Month Paid" := VBool first_rent]> ∅))))) in
  (approved, details).

(** *** Policy helpers *)

Definition DAMAGE_HINTS : list string :=
  ["stain"; "hole"; "burn"; "tear"; "ripple"; "gouge"; "scratch"; "soiled";
   "excessive"; "ruin"; "broken"; "damage"; "beyond wear"; "heavy odor";
   "pet urine"].

Definition UTIL_SYNONYMS : list string :=
  ["utility"; "utilities"; "water"; "sewer"; "gas"; "electric"; "power"].
Definition REKEY_SYNONYMS : list string :=
  ["rekey"; "locksmith"; "lock change"; "change locks"].
Definition LANDSCAPE_SYNONYMS : list string :=
  ["landscaping"; "lawn"; "yard"; "grounds"].

Section Builtins.

(** [float(s)] of a [str] ([None] is a [ValueError]) and [str(v)] of a
    value that is not a [str]: the two builtins the module calls on
    values it does not produce itself. *)
Variable float_of_str : string -> option Q.
Variable str_of : pyval -> string.

(** [float(v)] *)
Definition py_float (v : pyval) : result Q :=
  match v with
  | VNone => Raise TypeError
  | VBool b => Ok (if b then 1 else 0)%Q
  | VNum q => Ok q
  | VStr s =>
      match float_of_str s with
      | Some q => Ok q
      | None => Raise ValueError
      end
  | VList _ | VDict _ => Raise TypeError
  end.

(** The text of [v] inside an f-string, [f"{v}"]. *)
Definition fmt (v : pyval) : string :=
  match v with
  | VStr s => s
  | _ => str_of v
  end.

Definition _looks_beyond_wear (desc : pyval) : result bool :=
  d ← py_lower (py_or desc (VStr ""));
  mret (PyStr.any_in DAMAGE_HINTS d).

Definition _is_util (cat : string) (desc : pyval) : bool :=
  let s := PyStr.lower (cat ++ " " ++ fmt desc) in
  PyStr.any_in UTIL_SYNONYMS s.

Definition _is_rekey (cat : string) (desc : pyval) : bool :=
  let s := PyStr.lower (cat ++ " " ++ fmt desc) in
  PyStr.any_in REKEY_SYNONYMS s.

Definition _is_landscape (cat : string) (desc : pyval) : bool :=
  let s := PyStr.lower (cat ++ " " ++ fmt desc) in
  PyStr.any_in LANDSCAPE_SYNONYMS s.

(** *** Core policy *)

(** The running state of the loop of [apply_policy_rules]. *)
Record acc : Type := Acc {
  approved : list entry;
  excluded : list entry;
  landscaping_used : Q;
  rent_used : Q
}.

Definition approve (st : acc) (e : entry) : acc :=
  Acc (approved st ++ [e]) (excluded st)
      (landscaping_used st) (rent_used st).

Definition exclude (st : acc) (e : entry) : acc :=
  Acc (approved st) (excluded st ++ [e])
      (landscaping_used st) (rent_used st).

Definition add_landscaping (st : acc) (cap : Q) : acc :=
  Acc (approved st) (excluded st)
      (landscaping_used st + cap)%Q (rent_used st).

Definition add_rent (st : acc) (cap : Q) : acc :=
  Acc (approved st) (excluded st)
      (landscaping_used st) (rent_used st + cap)%Q.

Definition include_only_unpaid (c : gmap string pyval) : result bool :=
  s ← py_lower (get c "status" (VStr ""));
  mret (PyStr.str_in s ["unpaid"; "overdue"]).

(** The four fields read at lines 82-85. *)
Definition charge_cat (c : gmap string pyval) : result string :=
  py_lower_strip (py_or (get_none c "category") (VStr "")).
Definition charge_desc (c : gmap string pyval) : pyval :=
  py_or (get c "description" (VStr "")) (VStr "").
Definition charge_amt (c : gmap string pyval) : result Q :=
  py_float (py_or (get c "amount" (VNum 0)) (VNum 0)).
Definition charge_wear (c : gmap string pyval) : result string :=
  py_lower_strip (py_or (get_none c "wear") (VStr "")).

(** The tuples of lines 88 and 148. *)
Definition HARD_EXCLUSIONS : list string :=
  ["non_refundable_fee"; "benefit_program"; "pet_damage"; "lawn_vacant"].
Definition LEASE_BREAK : list string :=
  ["lease_break"; "relisting_fee"; "lease_break_fee"].

(** Lines 95-101: the category after the synonyms. *)
Definition normalize_category (cat : string) (desc : pyval) : string :=
  if _is_rekey cat desc then "rekey"
  else if _is_landscape cat desc then "landscaping"
  else if _is_util cat desc then "unpaid_utilities"
  else cat.

Definition label (prefix : string) (desc : pyval) : pyval :=
  VStr (prefix ++ " – " ++ fmt desc).

(** Lines 103-169: the branch taken for the normalized category. *)
Definition dispatch (monthly_rent : Q) (c : gmap string pyval)
    (cat : string) (desc : pyval) (amt : Q) (wear : string) (st : acc)
  : result acc :=
  if String.eqb cat "cleaning" then
    beyond ← (if String.eqb wear "beyond" then mret true
              else if negb (PyStr.is_empty wear) then mret false
              else _looks_beyond_wear desc);
    if beyond : bool
    then mret (approve st (label "Cleaning" desc, amt,
                           "Beyond normal wear and tear"))
    else mret (exclude st (desc, amt, "Unspecified/normal wear"))
  else if String.eqb cat "rekey" then
    mret (approve st (label "Rekey" desc, amt, "Move-out rekey"))
  else if String.eqb cat "landscaping" then
    let cap := py_max 0 (py_min amt (500 - landscaping_used st)) in
    if Qltb 0 cap then
      let st := approve st (label "Landscaping" desc, cap,
                            "Capped at $500") in
      let st := if Qltb cap amt
                then exclude st (desc, (amt - cap)%Q, "Over $500 cap")
                else st in
      mret (add_landscaping st cap)
    else mret (exclude st (desc, amt, "Over $500 cap"))
  else if PyStr.str_in cat ["utilities"; "unpaid_utilities"] then
    mret (approve st (label "Unpaid Utilities" desc, amt, "Covered"))
  else if String.eqb cat "unpaid_rent" then
    let cap := py_max 0 (py_min amt (monthly_rent - rent_used st)) in
    if Qltb 0 cap then
      let st := approve st (label "Unpaid Rent" desc, cap,
                            "Capped at one month rent") in
      let st := if Qltb cap amt
                then exclude st (desc, (amt - cap)%Q,
                                 "Over one month rent")
                else st in
      mret (add_rent st cap)
    else mret (exclude st (desc, amt, "Over one month rent"))
  else if PyStr.str_in cat LEASE_BREAK then
    let accelerated :=
      truthy (get c "accelerated_moveout" (VBool false)) in
    if accelerated then
      mret (approve st (label "Lease Break Fee (Accelerated)" desc, amt,
                        "Exception: accelerated move-out"))
    else
      let cap := py_min amt monthly_rent in
      let st := approve st (label "Lease Break Fee" desc, cap,
                            "Capped at one month rent") in
      mret (if Qltb cap amt
            then exclude st (desc, (amt - cap)%Q, "Over one month rent")
            else st)
  else if String.eqb cat "prorated_rent" then
    let linked := truthy (get c "linked_to_occupancy" (VBool false)) in
    if linked then
      mret (approve st (label "Prorated Rent" desc, amt,
                        "Linked to occupancy/lease obligations"))
    else mret (exclude st (desc, amt, "Exclude unless clearly linked"))
  else mret (exclude st (desc, amt, "Unknown category (exclude)")).

(** Lines 77-169: the body of the loop for one charge. *)
Definition process_charge (monthly_rent : Q) (st : acc)
    (c : gmap string pyval) : result acc :=
  unpaid ← include_only_unpaid c;
  if negb unpaid then
    amt ← charge_amt c;
    mret (exclude st (get c "description" (VStr ""), amt,
                      "Paid/Not overdue"))
  else
    cat ← charge_cat c;
    let desc := charge_desc c in
    amt ← charge_amt c;
    wear ← charge_wear c;
    if PyStr.str_in cat HARD_EXCLUSIONS then
      mret (exclude st (desc, amt, "Policy exclusion"))
    else if PyStr.str_in cat ["cleaning"; "normal_wear"]
            && String.eqb wear "normal" then
      mret (exclude st (desc, amt, "Normal wear and tear"))
    else
      dispatch monthly_rent c (normalize_category cat desc)
               desc amt wear st.

Fixpoint run (monthly_rent : Q) (st : acc)
    (charges : list (gmap string pyval)) : result acc :=
  match charges with
  | [] => Ok st
  | c :: rest =>
      st' ← process_charge monthly_rent st c;
      run monthly_rent st' rest
  end.

Definition init : acc := Acc [] [] 0 0.

Definition apply_policy_rules (charges : list (gmap string pyval))
    (monthly_rent : Q) : result (list entry * list entry * Q) :=
  st ← run monthly_rent init charges;
  mret (approved st, excluded st, round2 (sum_amounts (approved st))).

(** What a charge brings to the dispatch when it gets there: the
    category after the synonyms, the description, the amount and the
    wear.  [None] when the charge is paid, is excluded at lines 88-93, or
    has a field that raises. *)
Definition normalized (c : gmap string pyval)
  : option (string * pyval * Q * string) :=
  match include_only_unpaid c, charge_cat c, charge_amt c,
        charge_wear c with
  | Ok true, Ok cat, Ok amt, Ok wear =>
      if PyStr.str_in cat HARD_EXCLUSIONS
         || (PyStr.str_in cat ["cleaning"; "normal_wear"]
             && String.eqb wear "normal")
      then None
      else Some (normalize_category cat (charge_desc c),
                 charge_desc c, amt, wear)
  | _, _, _, _ => None
  end.

(** The category a charge is dispatched on, if any. *)
Definition dispatched_as (c : gmap string pyval) (cats : list string)
  : bool :=
  match normalized c with
  | Some (cat, _, _, _) => PyStr.str_in cat cats
  | None => false
  end.

(** The amount a charge is dispatched with, 0 if it is not. *)
Definition dispatched_amount (c : gmap string pyval) : Q :=
  match normalized c with
  | Some (_, _, amt, _) => amt
  | None => 0
  end.

(** A field that is absent, falsy or a [str]: what [(v or "").lower()]
    accepts. *)
Definition str_or_falsy (v : pyval) : bool :=
  match v with
  | VStr _ => true
  | _ => negb (truthy v)
  end.

(** An amount [float(v or 0)] accepts. *)
Definition amount_ok (v : pyval) : bool :=
  match py_float (py_or v (VNum 0)) with
  | Ok _ => true
  | Raise _ => false
  end.

(** A charge whose fields have the documented types where they are
    present: [status] a [str]; [category], [wear] and [description] a
    [str] or a falsy value; [amount] missing, falsy or numeric. *)
Definition well_formed (c : gmap string pyval) : bool :=
  match c !! "status" with
  | None | Some (VStr _) => true
  | _ => false
  end
  && str_or_falsy (get_none c "category")
  && str_or_falsy (get_none c "wear")
  && str_or_falsy (get c "description" (VStr ""))
  && amount_ok (get c "amount" (VNum 0)).

End Builtins.

(** [max_benefit] is a float or [None]. *)
Definition or_zero (max_benefit : option Q) : Q :=
  match max_benefit with
  | Some q => if Qeq_bool q 0 then 0 else q
  | None => 0
  end.

Definition finalize_payout (total_approved : Q) (max_benefit : option Q)
  : Q :=
  round2 (py_min total_approved (or_zero max_benefit)).

End Rules.

(** ** [app/services/ledger_review.py] *)

Module LedgerReview.

Definition REQUIRED_FILES : list string :=
  ["lease_addendum"; "lease_agreement"; "notification_to_tenant";
   "tenant_ledger"].

Definition RENT_HINTS : list string :=
  ["rent"; "base rent"; "monthly rent"; "1st month rent";
   "first month rent"].
Definition SDI_HINTS : list string :=
  ["sdi"; "security deposit insurance"; "deposit insurance premium";
   "sdi premium"].
Definition PAID_HINTS : list string :=
  ["paid"; "received"; "collected"; "posted"; "credit"].

(** *** The pattern [_MONEY],
    [\$?\s?\d{1,3}(?:,\d{3})*(?:\.\d{2})?] *)

(** [\d{1,n}], greedy: the digits read and the rest. *)
Fixpoint take_digits (n : nat) (s : string) : string * string :=
  match n, s with
  | S n', String c s' =>
      if PyStr.is_digit c
      then let '(d, r) := take_digits n' s' in (String c d, r)
      else (EmptyString, s)
  | _, _ => (EmptyString, s)
  end.

(** [(?:,\d{3})*], greedy. *)
Fixpoint take_groups (s : string) : string * string :=
  match s with
  | String "," (String a (String b (String c r))) =>
      if PyStr.is_digit a && PyStr.is_digit b && PyStr.is_digit c
      then let '(g, r') := take_groups r in
           (String "," (String a (String b (String c g))), r')
      else (EmptyString, s)
  | _ => (EmptyString, s)
  end.

(** [(?:\.\d{2})?] *)
Definition take_cents (s : string) : string :=
  match s with
  | String "." (String a (String b _)) =>
      if PyStr.is_digit a && PyStr.is_digit b
      then String "." (String a (String b EmptyString))
      else EmptyString
  | _ => EmptyString
  end.

(** A match of the pattern at the start of [s].  Everything after the
    first digit is optional, so the greedy choice for [\$?] and [\s?]
    either leads to a match or no other choice does. *)
Definition money_at (s : string) : option string :=
  let '(p1, r1) :=
    match s with
    | String "$" r => ("$", r)
    | _ => (EmptyString, s)
    end in
  let '(p2, r2) :=
    match r1 with
    | String c r =>
        if PyStr.is_space c then (String c EmptyString, r)
        else (EmptyString, r1)
    | EmptyString => (EmptyString, r1)
    end in
  let '(d, r3) := take_digits 3 r2 in
  if PyStr.is_empty d then None
  else let '(g, r4) := take_groups r3 in
       Some (p1 ++ p2 ++ d ++ g ++ take_cents r4).

(** [_MONEY.search(line)], the text of the leftmost match. *)
Fixpoint _search_money (line : string) : option string :=
  match money_at line with
  | Some m => Some m
  | None =>
      match line with
      | EmptyString => None
      | String _ line' => _search_money line'
      end
  end.

Definition _normalize_text (s : string) : string :=
  PyStr.strip (PyStr.collapse_ws false s).

Definition _line_matches (line : string) (needles : list string) : bool :=
  let L := PyStr.lower line in
  PyStr.any_in needles L.

(** [bool(_search_money(line))] *)
Definition has_money (line : string) : bool :=
  match _search_money line with
  | Some m => negb (PyStr.is_empty m)
  | None => false
  end.

(** *** The scan of the ledger *)

(** The four locals of [extract_ledger_flags]. *)
Record flags : Type := Flags {
  rent_paid : bool;
  rent_ev : string;
  sdi_paid : bool;
  sdi_ev : string
}.

(** [[l.strip() for l in text.splitlines() if l.strip()]] *)
Definition ledger_lines (text : string) : list string :=
  PyStr.strip <$>
    List.filter (fun l => negb (PyStr.is_empty (PyStr.strip l)))
      (PyStr.splitlines text).

(** Lines 58-67: one line of the first loop. *)
Definition strict_step (line : string) (st : flags) : flags :=
  let has_money := has_money line in
  let paid_mention := _line_matches line PAID_HINTS in
  let st :=
    if negb (rent_paid st) && _line_matches line RENT_HINTS
       && (has_money || paid_mention)
    then Flags true (_normalize_text line) (sdi_paid st) (sdi_ev st)
    else st in
  if negb (sdi_paid st) && _line_matches line SDI_HINTS
     && (has_money || paid_mention)
  then Flags (rent_paid st) (rent_ev st) true (_normalize_text line)
  else st.

(** Lines 57-70: the first loop, left by [break] once both are found. *)
Fixpoint strict_scan (lines : list string) (st : flags) : flags :=
  match lines with
  | [] => st
  | line :: rest =>
      let st' := strict_step line st in
      if rent_paid st' && sdi_paid st' then st'
      else strict_scan rest st'
  end.

(** Lines 73-77 and 80-84: the first line with one of the needles. *)
Fixpoint first_hint (needles : list string) (lines : list string)
  : option string :=
  match lines with
  | [] => None
  | line :: rest =>
      if _line_matches line needles then Some line
      else first_hint needles rest
  end.

Definition fallback_rent (lines : list string) (st : flags) : flags :=
  if negb (rent_paid st) then
    match first_hint RENT_HINTS lines with
    | Some line =>
        Flags true (_normalize_text line) (sdi_paid st) (sdi_ev st)
    | None => st
    end
  else st.

Definition fallback_sdi (lines : list string) (st : flags) : flags :=
  if negb (sdi_paid st) then
    match first_hint SDI_HINTS lines with
    | Some line =>
        Flags (rent_paid st) (rent_ev st) true (_normalize_text line)
    | None => st
    end
  else st.

Definition scan (lines : list string) : flags :=
  fallback_sdi lines
    (fallback_rent lines
       (strict_scan lines (Flags false EmptyString false EmptyString))).

Definition flags_dict (st : flags) : gmap string pyval :=
  <["first_month_sdi_premium_paid_evidence" := VStr (sdi_ev st)]>
  (<["first_month_sdi_premium_paid" := VBool (sdi_paid st)]>
  (<["first_month_rent_evidence" := VStr (rent_ev st)]>
  (<["first_month_rent_paid" := VBool (rent_paid st)]> ∅))).

(** [ledger_text] is a [str] or [None]; [lease_start_date] is not read. *)
Definition extract_ledger_flags (ledger_text : option string)
    (lease_start_date : option string) : gmap string pyval :=
  let text := default EmptyString ledger_text in
  flags_dict (scan (ledger_lines text)).

(** *** Validation gate *)

Definition REQ_DOCS : list string := REQUIRED_FILES.

Definition validate_gate (documents_present : gmap string bool)
    (ledger : gmap string pyval) : bool * gmap string pyval :=
  let missing :=
    PyStr.sorted
      (List.filter (fun d => negb (default false (documents_present !! d)))
         REQ_DOCS) in
  let first_rent :=
    truthy (get ledger "first_month_rent_paid" (VBool false)) in
  let first_sdi :=
    truthy (get ledger "first_month_sdi_premium_paid" (VBool false)) in
  let approved :=
    (length missing =? 0)%nat && first_rent && first_sdi in
  let details : gmap string pyval :=
    <["Status" := VStr (if approved then "Approved" else "Declined")]>
    (<["Missing documents" := VList (VStr <$> missing)]>
    (<["First Month SDI Premium Paid Evidence" :=
         get ledger "first_month_sdi_premium_paid_evidence" (VStr "")]>
    (<["First Month SDI Premium Paid" := VBool first_sdi]>
    (<["First Month Paid Evidence" :=
         get ledger "first_month_rent_evidence" (VStr "")]>
    (<["First Month Paid" := VBool first_rent]> ∅))))) in
  (approved, details).

End LedgerReview.

(** ** The ledger scan as the specification words it

    Two independent searches per kind of evidence: the first line with a
    hint and a corroboration, else the first line with a hint. *)

Module LedgerSpec.

Import LedgerReview.

(** A hint phrase together with a currency-shaped token or a payment
    word. *)
Definition corroborated (needles : list string) (line : string) : bool :=
  _line_matches line needles
  && (has_money line || _line_matches line PAID_HINTS).

Definition mentions (needles : list string) (line : string) : bool :=
  _line_matches line needles.

Definition evidence_line (needles : list string) (lines : list string)
  : option string :=
  match List.find (corroborated needles) lines with
  | Some line => Some line
  | None => List.find (mentions needles) lines
  end.

Definition found (o : option string) : bool :=
  match o with Some _ => true | None => false end.

Definition evidence (o : option string) : string :=
  match o with Some line => _normalize_text line | None => EmptyString end.

Definition two_phase (lines : list string) : flags :=
  let r := evidence_line RENT_HINTS lines in
  let s := evidence_line SDI_HINTS lines in
  Flags (found r) (evidence r) (found s) (evidence s).

End LedgerSpec.

(** ** Vocabulary of the statements *)

(** Every tuple of [l] carries the reason [r]. *)
Definition reasons (r : string) (l : list entry) : Prop :=
  Forall (fun e => entry_reason e = r) l.

(** Every tuple of [l] has a positive amount. *)
Definition positive (l : list entry) : Prop :=
  Forall (fun e => (0 < entry_amount e)%Q) l.

(** Lexicographic order on strings. *)
Definition str_le (a b : string) : Prop := String.leb a b = true.

(** [not documents_present.get(d, False)] *)
Definition absent (documents_present : gmap string bool) (d : string)
  : bool :=
  negb (default false (documents_present !! d)).

(** [bool(ledger.get(k, False))] *)
Definition flag (ledger : gmap string pyval) (k : string) : bool :=
  truthy (get ledger k (VBool false)).

(** The strict loop of the ledger scan from any state: a kind already found
    keeps its evidence, another takes the line [r], respectively [s]. *)
Definition merge (st : LedgerReview.flags) (r s : option string)
  : LedgerReview.flags :=
  LedgerReview.Flags
    (LedgerReview.rent_paid st || LedgerSpec.found r)
    (if LedgerReview.rent_paid st then LedgerReview.rent_ev st
     else match r with
          | Some line => LedgerReview._normalize_text line
          | None => LedgerReview.rent_ev st
          end)
    (LedgerReview.sdi_paid st || LedgerSpec.found s)
    (if LedgerReview.sdi_paid st then LedgerReview.sdi_ev st
     else match s with
          | Some line => LedgerReview._normalize_text line
          | None => LedgerReview.sdi_ev st
          end).

(** A string of blanks. *)
Fixpoint all_space (s : string) : bool :=
  match s with
  | EmptyString => true
  | String c s' => PyStr.is_space c && all_space s'
  end.

(** The first and the last character of [k] are not blank: the shape of
    every hint phrase. *)
Definition tight (k : string) : bool :=
  match k, PyStr.rev k with
  | String c _, String d _ =>
      negb (PyStr.is_space c) && negb (PyStr.is_space d)
  | _, _ => false
  end.

Section Vocabulary.

Variable float_of_str : string -> option Q.
Variable str_of : pyval -> string.

(** An unpaid or overdue charge that reaches the dispatch as a landscaping
    charge, with a non-negative amount. *)
Definition landscaping_charge (c : gmap string pyval) : Prop :=
  exists desc amt wear,
    Rules.normalized float_of_str str_of c
    = Some ("landscaping", desc, amt, wear)
    /\ (0 <= amt)%Q.

(** The sum of the amounts the charges are dispatched with. *)
Definition total_dispatched (cs : list (gmap string pyval)) : Q :=
  fold_right
    (fun c s => (Rules.dispatched_amount float_of_str str_of c + s)%Q)
    0%Q cs.

(** The charges dispatched as unpaid rent. *)
Definition rent_charges (cs : list (gmap string pyval))
  : list (gmap string pyval) :=
  List.filter
    (fun c => Rules.dispatched_as float_of_str str_of c ["unpaid_rent"]) cs.

End Vocabulary.

(** ** Inputs of the closed examples *)

Module Examples.

Definition charge (fields : list (string * pyval)) : gmap string pyval :=
  list_to_map fields.

Definition mow : gmap string pyval :=
  charge [("category", VStr "landscaping"); ("description", VStr "mow");
          ("amount", VNum 300); ("status", VStr "unpaid")].

Definition trim : gmap string pyval :=
  charge [("category", VStr "Grounds "); ("description", VStr "hedges");
          ("amount", VNum 350); ("status", VStr "Overdue")].

Definition rekey_fraction : gmap string pyval :=
  charge [("category", VStr "rekey"); ("description", VStr "lock");
          ("amount", VNum (6 # 1000)); ("status", VStr "unpaid")].

Definition rekey_text_amount : gmap string pyval :=
  charge [("category", VStr "rekey"); ("description", VStr "lock");
          ("amount", VStr "N/A"); ("status", VStr "unpaid")].

Definition rekey_no_amount : gmap string pyval :=
  charge [("category", VStr "rekey"); ("description", VStr "lock");
          ("status", VStr "unpaid")].

Definition pet_lawn : gmap string pyval :=
  charge [("category", VStr "pet_damage");
          ("description", VStr "rekey, lawn and water after the dog");
          ("amount", VNum 120); ("status", VStr "unpaid")].

Definition worn_yard : gmap string pyval :=
  charge [("category", VStr "cleaning");
          ("description", VStr "yard sweep"); ("amount", VNum 80);
          ("status", VStr "overdue"); ("wear", VStr "Normal")].

Definition relisting : gmap string pyval :=
  charge [("category", VStr "relisting_fee");
          ("description", VStr "new listing"); ("amount", VNum 1500);
          ("status", VStr "unpaid")].

Definition early_exit : gmap string pyval :=
  charge [("category", VStr "lease_break");
          ("description", VStr "early exit"); ("amount", VNum 2500);
          ("status", VStr "unpaid");
          ("accelerated_moveout", VBool true)].

Definition july_rent : gmap string pyval :=
  charge [("category", VStr "unpaid_rent");
          ("description", VStr "July"); ("amount", VNum 700);
          ("status", VStr "unpaid")].

Definition august_rent : gmap string pyval :=
  charge [("category", VStr "unpaid_rent");
          ("description", VStr "August"); ("amount", VNum 700);
          ("status", VStr "unpaid")].

Definition all_documents : gmap string bool :=
  list_to_map [("lease_addendum", true); ("lease_agreement", true);
               ("notification_to_tenant", true); ("tenant_ledger", true)].

Definition paid_ledger : gmap string pyval :=
  charge [("first_month_rent_paid", VBool true);
          ("first_month_sdi_premium_paid", VBool true)].

End Examples.

(** ** Vocabulary of the further statements *)

(** The tuples of [l] that carry the reason [r]. *)
Definition with_reason (r : string) (l : list entry) : list entry :=
  List.filter (fun e => String.eqb (entry_reason e) r) l.

(** The tuple a paid charge is excluded with, for the amount [amt]. *)
Definition paid_entry (c : gmap string pyval) (amt : Q) : entry :=
  (get c "description" (VStr ""), amt, "Paid/Not overdue").

Section Vocabulary2.

Variable float_of_str : string -> option Q.
Variable str_of : pyval -> string.

(** An unpaid or overdue charge that reaches the dispatch as an unpaid_rent
    charge, with a non-negative amount. *)
Definition rent_charge (c : gmap string pyval) : Prop :=
  exists desc amt wear,
    Rules.normalized float_of_str str_of c
    = Some ("unpaid_rent", desc, amt, wear)
    /\ (0 <= amt)%Q.

(** The amounts of the charges, as [float(c.get("amount", 0) or 0)] reads
    them. *)
Definition amounts_read (cs : list (gmap string pyval)) (amts : list Q)
  : Prop :=
  Forall2 (fun c a => Rules.charge_amt float_of_str c = Ok a) cs amts.

End Vocabulary2.

(** A charge whose status is not unpaid or overdue. *)
Definition settled (c : gmap string pyval) : bool :=
  match Rules.include_only_unpaid c with
  | Ok false => true
  | _ => false
  end.

(** [sum(l)] of numbers. *)
Definition Qsum (l : list Q) : Q := fold_right Qplus 0%Q l.

(** What processing some charges does to the state of the loop: the tuples
    [na] and [ne] appended to the two lists and their amounts against the
    amount [amt] of the charges, the number of tuples per charge ([n]
    charges), and the use of the landscaping cap. *)
Definition pass_effect (n : nat) (amt : Q) (st st' : Rules.acc)
    (na ne : list entry) : Prop :=
  Rules.approved st' = (Rules.approved st ++ na)%list
  /\ Rules.excluded st' = (Rules.excluded st ++ ne)%list
  /\ (sum_amounts na + sum_amounts ne == amt)%Q
  /\ (length na <= n)%nat /\ (length ne <= n)%nat
  /\ (n <= length na + length ne)%nat
  /\ (sum_amounts (with_reason "Capped at $500" na)
      == Rules.landscaping_used st' - Rules.landscaping_used st)%Q
  /\ positive (with_reason "Capped at $500" na)
  /\ ((0 <= Rules.landscaping_used st <= 500)%Q ->
      (0 <= Rules.landscaping_used st' <= 500)%Q).

(** A digit somewhere in [s]. *)
Fixpoint has_digit (s : string) : bool :=
  match s with
  | EmptyString => false
  | String c s' => PyStr.is_digit c || has_digit s'
  end.

(** ** The rest of [app/services/ledger_review.py] *)

Module Review.

Import LedgerReview.

Definition OPTIONAL_FILES : list string :=
  ["invoice"; "claim_evaluation_report"].

Definition detect_documents_present (input_filenames : list string)
  : gmap string bool :=
  let names : gset string :=
    list_to_set ((fun n => PyStr.strip (PyStr.lower n)) <$> input_filenames) in
  list_to_map
    ((fun k => (k, bool_decide (k ∈ names)))
       <$> (REQUIRED_FILES ++ OPTIONAL_FILES)%list).

(** [d[k]]: [None] is a [KeyError]. *)
Definition getitem (d : gmap string pyval) (k : string) : option pyval :=
  d !! k.

Definition as_str (v : pyval) : option string :=
  match v with VStr s => Some s | _ => None end.

Fixpoint chars (s : string) : list string :=
  match s with
  | EmptyString => []
  | String c s' => String c EmptyString :: chars s'
  end.

(** [sep.join(v)]: the elements of a list, the characters of a [str] or
    the keys of a [dict]; [None] is a [TypeError]. *)
Definition join (sep : string) (v : pyval) : option string :=
  match v with
  | VList l => String.concat sep <$> mapM as_str l
  | VStr s => Some (String.concat sep (chars s))
  | VDict d => Some (String.concat sep (d.*1))
  | _ => None
  end.

(** [v == s] for a [str] [s]. *)
Definition eq_str (v : pyval) (s : string) : bool :=
  match v with VStr t => String.eqb t s | _ => false end.

Definition NEWLINE : string := String "010" EmptyString.

Section Builtins.

(** [str(v)] of a value that is not a [str]. *)
Variable str_of : pyval -> string.

Definition format_gate_result (details : gmap string pyval)
    (summary : string) : string :=
  String.concat NEWLINE
    ["• First Month Paid: "
       ++ Rules.fmt str_of (get details "First Month Paid" (VBool false));
     "• First Month Paid Evidence: "
       ++ Rules.fmt str_of (get details "First Month Paid Evidence" (VStr ""));
     "• First Month SDI Premium Paid: "
       ++ Rules.fmt str_of
            (get details "First Month SDI Premium Paid" (VBool false));
     "• First Month SDI Premium Paid Evidence: "
       ++ Rules.fmt str_of
            (get details "First Month SDI Premium Paid Evidence" (VStr ""));
     "• Missing documents: "
       ++ Rules.fmt str_of (get details "Missing documents" (VList []));
     "• Status: "
     ++ Rules.fmt str_of (get details "Status" (VStr "Declined"));
     "• Summary of decision: " ++ summary].

(** Lines 148-161: the summary of the decision. *)
Definition decision_summary (details : gmap string pyval) : option string :=
  status ← getitem details "Status";
  if eq_str status "Approved" then
    Some ("All required documents are present. "
          ++ "First-month rent and SDI premium were confirmed in the "
          ++ "tenant ledger.")
  else
    missing ← getitem details "Missing documents";
    r1 ← (if truthy missing
          then (fun s => ["Missing required file(s): " ++ s])
                 <$> join ", " missing
          else Some []);
    paid ← getitem details "First Month Paid";
    let r2 := if negb (truthy paid)
              then ["First-month rent not found in ledger."] else [] in
    sdi ← getitem details "First Month SDI Premium Paid";
    let r3 := if negb (truthy sdi)
              then ["First-month SDI premium not found in ledger."]
              else [] in
    let reasons := (r1 ++ r2 ++ r3)%list in
    Some (match reasons with
          | [] => "One or more approval conditions were not met."
          | _ => String.concat " " reasons
          end).

(** [tenant_ledger_pdf_bytes] is not read. *)
Definition review_inputs_and_format_output (input_filenames : list string)
    (tenant_ledger_text : option string)
    (tenant_ledger_pdf_bytes : option string)
    (lease_start_date : option string)
  : option (bool * gmap string pyval * string) :=
  let docs_present := detect_documents_present input_filenames in
  let ledger_text := default EmptyString tenant_ledger_text in
  let ledger_flags :=
    extract_ledger_flags (Some ledger_text) lease_start_date in
  let '(approved, details) := validate_gate docs_present ledger_flags in
  summary ← decision_summary details;
  let formatted := format_gate_result details summary in
  Some (approved, details, formatted).

End Builtins.

End Review.

(** ** [app/routers/adjudicate.py]

    The request is the validated [AdjudicateRequest] of [app/schemas.py]:
    its fields have their declared types, [Optional] ones may be [None],
    and a charge keeps the extra keys it came with. *)

Module Adjudicate.

Record date : Type := Date { year : Z; month : Z; day : Z }.

Record DocumentsPresent : Type := {
  lease_addendum : bool;
  lease_agreement : bool;
  notification_to_tenant : bool;
  tenant_ledger : bool;
  invoice : option bool;
  claim_evaluation_report : option bool
}.

Record LedgerChecks : Type := {
  first_month_rent_paid : bool;
  first_month_rent_evidence : option string;
  first_month_sdi_premium_paid : bool;
  first_month_sdi_premium_paid_evidence : option string
}.

Record ChargeItem : Type := {
  category : string;
  description : option string;
  amount : Q;
  status : string;
  wear : option string;
  source : option string;
  extra : gmap string pyval
}.

Record AdjudicateRequest : Type := {
  tenant_name : option string;
  property_address : option string;
  monthly_rent : Q;
  max_benefit : Q;
  deposit_amount : option Q;
  jurisdiction : option string;
  lease_state : option string;
  move_out_date : option date;
  deposit_received_date : option date;
  payout_issue_date : option date;
  documents_present : DocumentsPresent;
  ledger_checks : LedgerChecks;
  charges : list ChargeItem
}.

Definition opt_str (o : option string) : pyval :=
  match o with Some s => VStr s | None => VNone end.

Definition opt_bool (o : option bool) : pyval :=
  match o with Some b => VBool b | None => VNone end.

(** [documents_present.dict().items()], in the order of the fields. *)
Definition documents_items (d : DocumentsPresent) : list (string * pyval) :=
  [("lease_addendum", VBool (lease_addendum d));
   ("lease_agreement", VBool (lease_agreement d));
   ("notification_to_tenant", VBool (notification_to_tenant d));
   ("tenant_ledger", VBool (tenant_ledger d));
   ("invoice", opt_bool (invoice d));
   ("claim_evaluation_report", opt_bool (claim_evaluation_report d))].

(** [documents_present.dict()] as the gate reads it: the keys whose value
    is a [bool]. *)
Definition documents_dict (d : DocumentsPresent) : gmap string bool :=
  list_to_map
    (omap (fun kv => match kv.2 with
                     | VBool b => Some (kv.1, b)
                     | _ => None
                     end) (documents_items d)).

(** [ledger_checks.dict()] *)
Definition ledger_dict (l : LedgerChecks) : gmap string pyval :=
  list_to_map
    [("first_month_rent_paid", VBool (first_month_rent_paid l));
     ("first_month_rent_evidence", opt_str (first_month_rent_evidence l));
     ("first_month_sdi_premium_paid",
      VBool (first_month_sdi_premium_paid l));
     ("first_month_sdi_premium_paid_evidence",
      opt_str (first_month_sdi_premium_paid_evidence l))].

(** [c.dict()]: the declared fields and the extra keys. *)
Definition charge_dict (c : ChargeItem) : gmap string pyval :=
  <["category" := VStr (category c)]>
  (<["description" := opt_str (description c)]>
  (<["amount" := VNum (amount c)]>
  (<["status" := VStr (status c)]>
  (<["wear" := opt_str (wear c)]>
  (<["source" := opt_str (source c)]> (extra c)))))).

Definition REQUIRED_FOR_FINAL : list string :=
  ["deposit_amount"; "move_out_date"; "jurisdiction"].

(** The dict [payout_readiness] returns. *)
Record readiness : Type := Readiness {
  ready : bool;
  missing : list string;
  effective_jurisdiction : option string
}.

(** [a or b] on two optional strings. *)
Definition str_or (a b : option string) : option string :=
  match a with
  | Some s => if PyStr.is_empty s then b else a
  | None => b
  end.

Definition payout_readiness (payload : AdjudicateRequest) : readiness :=
  let effective_jurisdiction :=
    str_or (jurisdiction payload) (lease_state payload) in
  let deposit_amount := deposit_amount payload in
  let move_out_date := move_out_date payload in
  let missing : list string := [] in
  let missing :=
    if negb (truthy (from_option VNum VNone deposit_amount))
    then (missing ++ ["deposit_amount"])%list else missing in
  let missing :=
    if negb (bool_decide (is_Some move_out_date))
    then (missing ++ ["move_out_date"])%list else missing in
  let missing :=
    if negb (truthy (opt_str effective_jurisdiction))
    then (missing ++ ["jurisdiction"])%list else missing in
  Readiness (length missing =? 0)%nat missing effective_jurisdiction.

(** The dict under "output_template"; a charge tuple stands for its dict
    of item, amount and reason. *)
Record output_template : Type := Template {
  Tenant_Name : option string;
  Assessment_Status : string;
  Property_Address : option string;
  Monthly_Rent : Q;
  Submitted_Documents : list string;
  Approved_Charges : list entry;
  Excluded_Charges : list entry;
  Total_Approved_Charges : Q;
  Final_Payout_Based_on_Coverage : Q
}.

(** The dict [adjudicate] returns; [jurisdiction_used] is [None] when the
    key is absent. *)
Record response : Type := Response {
  validation : gmap string pyval;
  final_payout_available : bool;
  missing_fields : list string;
  template : output_template;
  jurisdiction_used : option (option string);
  summary_of_decision : string
}.

Section Builtins.

Variable float_of_str : string -> option Q.
Variable str_of : pyval -> string.

Definition adjudicate (payload : AdjudicateRequest) : result response :=
  let '(ok, validation) :=
    Rules.validate_gate (documents_dict (documents_present payload))
      (ledger_dict (ledger_checks payload)) in
  let submitted_docs :=
    (List.filter (fun kv => truthy kv.2)
       (documents_items (documents_present payload))).*1 in
  if negb ok then
    mret (Response validation false []
            (Template (tenant_name payload) "Declined"
               (property_address payload) (monthly_rent payload)
               submitted_docs [] [] 0 0)
            None "Required gate(s) failed. Declined per policy.")
  else
    let charges_list := charge_dict <$> charges payload in
    '(approved, excluded, total) ←
      Rules.apply_policy_rules float_of_str str_of charges_list
        (monthly_rent payload);
    let readiness := payout_readiness payload in
    if negb (ready readiness) then
      mret (Response validation false (missing readiness)
              (Template (tenant_name payload) "Approved"
                 (property_address payload) (monthly_rent payload)
                 submitted_docs approved excluded total 0)
              None
              ("Final payout not available: missing required fields — "
               ++ String.concat ", " (missing readiness)
               ++ ". Only estimated payout may be shown."))
    else
      let final_payout :=
        Rules.finalize_payout total (Some (max_benefit payload)) in
      mret (Response validation true []
              (Template (tenant_name payload) "Approved"
                 (property_address payload) (monthly_rent payload)
                 submitted_docs approved excluded total final_payout)
              (Some (effective_jurisdiction readiness))
              "Policy rules applied with caps; payout limited by Max Benefit.").

End Builtins.

End Adjudicate.

(** ** [app/routers/extract.py]: the fallback parse *)

Module Extract.

(** *** The pattern [_money_token],
    [\d{1,3}(?:,\d{3})*(?:\.\d{2})?] *)

(** A match of the pattern at the start of [s]: the pattern of
    [LedgerReview._MONEY] without its optional prefix. *)
Definition money_token_at (s : string) : option string :=
  let '(d, r) := LedgerReview.take_digits 3 s in
  if PyStr.is_empty d then None
  else let '(g, r') := LedgerReview.take_groups r in
       Some (d ++ g ++ LedgerReview.take_cents r').

(** The two characters before the next one: [before] after [c]. *)
Definition slide (before : string) (c : ascii) : string :=
  match before with
  | String _ (String b EmptyString) => String b (String c EmptyString)
  | _ => before ++ String c EmptyString
  end.

(** [_money_token.finditer(s)]: the matches from left to right, none
    overlapping another.  Each match [m] is given as
    [(s[max(0, m.start()-2): m.start()+1], m.group())].  [skip] counts the
    characters still inside the last match, [before] holds the two
    characters before the position read (fewer at the start). *)
Fixpoint finditer (skip : nat) (before : string) (s : string)
  : list (string * string) :=
  match s with
  | EmptyString => []
  | String c s' =>
      match skip with
      | S k => finditer k (slide before c) s'
      | O =>
          match money_token_at s with
          | Some token =>
              (before ++ String c EmptyString, token)
              :: finditer (String.length token - 1) (slide before c) s'
          | None => finditer 0 (slide before c) s'
          end
      end
  end.

(** [token.replace(',', '')] *)
Fixpoint remove_commas (s : string) : string :=
  match s with
  | EmptyString => EmptyString
  | String c s' =>
      if Ascii.eqb c "," then remove_commas s' else String c (remove_commas s')
  end.

(** The body of the loop of [_iter_amounts_money_only] on one match: the
    value yielded, if any.  [float] reads the token as a decimal literal;
    [None] from it is the [ValueError] branch. *)
Definition amount_of_match (m : string * string) : option Q :=
  let '(window, token) := m in
  let has_decimal := PyStr.contains "." token in
  let has_dollar := PyStr.contains "$" window in
  if negb (has_decimal || has_dollar) then None
  else
    match Decimal.float_of_str (remove_commas token) with
    | None => None
    | Some val => if Qle_bool val 0 then None else Some val
    end.

(** [list(_iter_amounts_money_only(line))] *)
Definition _iter_amounts_money_only (line : string) : list Q :=
  omap amount_of_match (finditer 0 EmptyString line).

Definition _guess_category (line : string) : string :=
  let s := PyStr.lower line in
  if PyStr.any_in ["rekey"; "lock"; "key"] s then "rekey"
  else if PyStr.any_in ["carpet"; "clean"; "trash"; "wipe"; "deep clean"] s
  then "cleaning"
  else if PyStr.any_in ["lawn"; "yard"; "mulch"; "sod"; "landscap"] s
  then "landscaping"
  else if PyStr.any_in ["utility"; "water"; "electric"; "gas"; "power"] s
  then "utilities"
  else if PyStr.contains "rent" s then "unpaid_rent"
  else if PyStr.contains "lease break" s || PyStr.contains "relist" s
  then "lease_break"
  else if PyStr.any_in
            ["late fee"; "convenience fee"; "administrative fee";
             "admin fee"; "coordination fee";
             "maintenance coordination fee"] s
  then "non_refundable_fee"
  else if PyStr.contains "animal fee" s || PyStr.contains "pet fee" s
  then "non_refundable_fee"
  else if PyStr.contains "pet" s then "pet_damage"
  else if PyStr.contains "wear" s && PyStr.contains "normal" s
  then "normal_wear"
  else "unknown".

(** [s[:n]] *)
Fixpoint slice_to (n : nat) (s : string) : string :=
  match n, s with
  | S n', String c s' => String c (slice_to n' s')
  | _, _ => EmptyString
  end.

(** The state of the fallback parse: [fallback_charges] and
    [fallback_meta["deposit_amount"]]. *)
Record fallback : Type := Fallback {
  fallback_charges : list (gmap string pyval);
  deposit_amount : pyval
}.

(** The dict appended for the amount [a] of a line. *)
Definition fallback_charge (cat line : string) (wear : pyval)
    (filename : string) (a : Q) : gmap string pyval :=
  list_to_map
    [("category", VStr cat); ("description", VStr (slice_to 140 line));
     ("amount", VNum a); ("status", VStr "unpaid"); ("wear", wear);
     ("source", VStr filename)].

(** The body of the inner loop, lines 126-160, for one line of the
    document [filename]. *)
Definition fallback_line (filename : string) (st : fallback)
    (raw_line : string) : fallback :=
  let line := PyStr.strip raw_line in
  if PyStr.is_empty line then st
  else
    let lw := PyStr.lower line in
    if PyStr.contains "deposit" lw then
      let amts := _iter_amounts_money_only line in
      match amts, deposit_amount st with
      | a :: _, VNone => Fallback (fallback_charges st) (VNum a)
      | _, _ =>
          if PyStr.contains "one month" lw && PyStr.contains "rent" lw
          then Fallback (fallback_charges st) (VStr "ONE_MONTH_RENT")
          else st
      end
    else
      let amts := _iter_amounts_money_only line in
      match amts with
      | [] => st
      | _ =>
          let cat := _guess_category line in
          let wear :=
            if PyStr.contains "normal wear" lw then VStr "normal"
            else if PyStr.any_in ["stain"; "hole"; "broken"; "damage"] lw
                 then VStr "beyond"
                 else VNone in
          Fallback
            (fallback_charges st
             ++ (fallback_charge cat line wear filename <$> amts))%list
            (deposit_amount st)
      end.

(** The loops of lines 121-160 over [docs], each a file name and its
    text. *)
Definition fallback_parse (docs : list (string * string)) : fallback :=
  fold_left
    (fun st d => fold_left (fallback_line d.1) (PyStr.splitlines d.2) st)
    docs (Fallback [] VNone).

(** [response["charges_fallback"]] *)
Definition charges_fallback (docs : list (string * string))
  : list (gmap string pyval) :=
  take 200 (fallback_charges (fallback_parse docs)).

End Extract.

(** ** Further example inputs *)

Module Cases.
Import Adjudicate.

Definition paid_cleaning : gmap string pyval :=
  Examples.charge [("category", VStr "cleaning");
                   ("description", VStr "move-out clean");
                   ("amount", VNum 90); ("status", VStr "Paid")].

Definition no_status : gmap string pyval :=
  Examples.charge [("category", VStr "rekey"); ("amount", VStr "45.5")].

Definition rent_lock_change : gmap string pyval :=
  Examples.charge [("category", VStr "unpaid_rent");
                   ("description", VStr "Lock change billed with rent");
                   ("amount", VNum 180); ("status", VStr "overdue")].

Definition yard : ChargeItem :=
  {| category := "landscaping"; description := Some "yard";
     amount := 600; status := "unpaid"; wear := None; source := None;
     extra := ∅ |}.

Definition locks : ChargeItem :=
  {| category := "rekey"; description := Some "locks";
     amount := 80; status := "unpaid"; wear := None; source := None;
     extra := ∅ |}.

Definition request : AdjudicateRequest :=
  {| tenant_name := Some "T. Tenant";
     property_address := Some "1 Main St";
     monthly_rent := 1000; max_benefit := 500;
     deposit_amount := Some 1000%Q;
     jurisdiction := None; lease_state := Some "TX";
     move_out_date := Some (Date 2025 6 30);
     deposit_received_date := None; payout_issue_date := None;
     documents_present :=
       {| lease_addendum := true; lease_agreement := true;
          notification_to_tenant := true; tenant_ledger := true;
          invoice := Some false; claim_evaluation_report := Some false |};
     ledger_checks :=
       {| first_month_rent_paid := true;
          first_month_rent_evidence := Some "rent paid";
          first_month_sdi_premium_paid := true;
          first_month_sdi_premium_paid_evidence := Some "sdi paid" |};
     charges := [yard; locks] |}.

(** A move-out statement of three lines. *)
Definition statement : string :=
  "Security deposit: $1,500.00"
  ++ String "010" ("Rekey front door $85.00"
  ++ String "010" "Unit 12 lawn care 1500").

Definition rekey_line : gmap string pyval :=
  Extract.fallback_charge "rekey" "Rekey front door $85.00" VNone
    "statement.pdf" 85.00%Q.

End Cases.

(** * Proofs *)

Section Numbers.
Local Open Scope Q_scope.

Lemma Qltb_lt (a b : Q) : Qltb a b = true <-> a < b.
Proof.
  unfold Qltb. rewrite negb_true_iff. split.
  - intros H. apply Qnot_le_lt. intros Hle.
    apply Qle_bool_iff in Hle. congruence.
  - intros H. destruct (Qle_bool b a) eqn:E; [|done].
    apply Qle_bool_iff in E. lra.
Qed.

Lemma Qltb_ge (a b : Q) : Qltb a b = false <-> b <= a.
Proof.
  unfold Qltb. rewrite negb_false_iff. apply Qle_bool_iff.
Qed.

Lemma Qltb_reflect (a b : Q) : reflect (a < b) (Qltb a b).
Proof.
  destruct (Qltb a b) eqn:E; constructor.
  - by apply Qltb_lt.
  - apply Qltb_ge in E. lra.
Qed.

Lemma py_min_spec (a b : Q) :
  (b < a /\ py_min a b = b) \/ (a <= b /\ py_min a b = a).
Proof.
  unfold py_min. destruct (Qltb_reflect b a); [left|right]; split; auto; lra.
Qed.

Lemma py_max_spec (a b : Q) :
  (a < b /\ py_max a b = b) \/ (b <= a /\ py_max a b = a).
Proof.
  unfold py_max. destruct (Qltb_reflect a b); [left|right]; split; auto; lra.
Qed.

Lemma py_min_Qmin (a b : Q) : py_min a b == Qmin a b.
Proof.
  destruct (py_min_spec a b) as [[H ->]|[H ->]].
  - rewrite Q.min_r; lra.
  - rewrite Q.min_l; lra.
Qed.

Lemma round_half_even_near (x : Q) :
  x - (1 # 2) <= inject_Z (round_half_even x) <= x + (1 # 2).
Proof.
  unfold round_half_even.
  pose proof (Qfloor_le x) as Hlo.
  pose proof (Qlt_floor x) as Hhi.
  rewrite inject_Z_plus in Hhi. change (inject_Z 1) with 1 in Hhi.
  destruct (Qcompare_spec (x - inject_Z (Qfloor x)) (1 # 2));
    try destruct (Z.even (Qfloor x)); rewrite ?inject_Z_plus;
    change (inject_Z 1) with 1; lra.
Qed.

Lemma round2_eq (x : Q) :
  round2 x == inject_Z (round_half_even (x * 100)) / 100.
Proof.
  unfold round2. rewrite Qred_correct. apply Qmake_Qdiv.
Qed.

Lemma round2_near (x : Q) :
  x - (1 # 200) <= round2 x <= x + (1 # 200).
Proof.
  rewrite round2_eq.
  pose proof (round_half_even_near (x * 100)) as H.
  set (r := inject_Z (round_half_even (x * 100))) in *.
  split.
  - apply Qle_shift_div_l; lra.
  - apply Qle_shift_div_r; lra.
Qed.


Lemma round_half_even_range (x : Q) :
  (Qfloor x <= round_half_even x <= Qfloor x + 1)%Z.
Proof.
  unfold round_half_even.
  destruct (x - inject_Z (Qfloor x) ?= 1 # 2);
    [destruct (Z.even (Qfloor x))| |]; lia.
Qed.

Lemma round_half_even_comp (x y : Q) :
  x == y -> round_half_even x = round_half_even y.
Proof.
  intros E. unfold round_half_even.
  rewrite (Qfloor_comp x y E).
  assert (x - inject_Z (Qfloor y) == y - inject_Z (Qfloor y)) as E'
    by (apply Qplus_comp; [exact E | reflexivity]).
  by rewrite (Qcompare_comp _ _ E' _ _ (Qeq_refl (1 # 2))).
Qed.

Lemma round_half_even_mono (x y : Q) :
  x <= y -> (round_half_even x <= round_half_even y)%Z.
Proof.
  intros Hxy.
  pose proof (Qfloor_resp_le _ _ Hxy) as Hf.
  destruct (Z.eq_dec (Qfloor x) (Qfloor y)) as [E|N].
  - unfold round_half_even. rewrite E.
    destruct (Qcompare_spec (x - inject_Z (Qfloor y)) (1 # 2));
      destruct (Qcompare_spec (y - inject_Z (Qfloor y)) (1 # 2));
      try destruct (Z.even (Qfloor y)); try lia; exfalso; lra.
  - pose proof (round_half_even_range x). pose proof (round_half_even_range y).
    lia.
Qed.

Lemma round_half_even_inject (z : Z) : round_half_even (inject_Z z) = z.
Proof.
  unfold round_half_even. rewrite Qfloor_Z.
  destruct (Qcompare_spec (inject_Z z - inject_Z z) (1 # 2)); auto; lra.
Qed.

Lemma round2_comp (x y : Q) : x == y -> round2 x = round2 y.
Proof.
  intros E. unfold round2.
  rewrite (round_half_even_comp (x * 100) (y * 100)); [done|].
  apply Qmult_comp; [exact E | reflexivity].
Qed.

Lemma round2_mono (x y : Q) : x <= y -> round2 x <= round2 y.
Proof.
  intros H. unfold round2. rewrite !Qred_correct.
  assert (round_half_even (x * 100) <= round_half_even (y * 100))%Z as Hz
    by (apply round_half_even_mono; lra).
  unfold Qle. simpl. lia.
Qed.

(** An amount in whole cents is its own rounding. *)
Lemma round2_cents (z : Z) : round2 (z # 100) == z # 100.
Proof.
  unfold round2. rewrite Qred_correct.
  rewrite (round_half_even_comp ((z # 100) * 100) (inject_Z z)).
  - by rewrite round_half_even_inject.
  - unfold Qeq, Qmult, inject_Z. simpl. lia.
Qed.


Lemma py_min_cases (a b : Q) :
  (b < a /\ py_min a b == b) \/ (a <= b /\ py_min a b == a).
Proof.
  destruct (py_min_spec a b) as [[? ->]|[? ->]]; [left|right]; split;
    auto; reflexivity.
Qed.

Lemma py_max_cases (a b : Q) :
  (a < b /\ py_max a b == b) \/ (b <= a /\ py_max a b == a).
Proof.
  destruct (py_max_spec a b) as [[? ->]|[? ->]]; [left|right]; split;
    auto; reflexivity.
Qed.

End Numbers.

(** Linear arithmetic over [Q] with [min] and [max]: every [min] or [max]
    is replaced by a variable and the two cases of its specification. *)
Ltac name_minmax :=
  repeat match goal with
  | |- context [py_min ?a ?b] =>
      pose proof (py_min_cases a b); generalize dependent (py_min a b); intros
  | |- context [py_max ?a ?b] =>
      pose proof (py_max_cases a b); generalize dependent (py_max a b); intros
  | |- context [Qmin ?a ?b] =>
      pose proof (Q.min_spec a b); generalize dependent (Qmin a b); intros
  | _ : context [py_min ?a ?b] |- _ =>
      pose proof (py_min_cases a b); generalize dependent (py_min a b); intros
  | _ : context [py_max ?a ?b] |- _ =>
      pose proof (py_max_cases a b); generalize dependent (py_max a b); intros
  | _ : context [Qmin ?a ?b] |- _ =>
      pose proof (Q.min_spec a b); generalize dependent (Qmin a b); intros
  end.

Ltac minmax_lra :=
  name_minmax;
  repeat match goal with
  | H : (_ /\ _) \/ (_ /\ _) |- _ => destruct H as [[? ?]|[? ?]]
  end;
  lra.

Arguments PyStr.str_in : simpl never.
Arguments PyStr.any_in : simpl never.
Arguments String.eqb : simpl never.

Section Policy.
Import Rules.
Variable float_of_str : string -> option Q.
Variable str_of : pyval -> string.
Local Open Scope Q_scope.

Local Abbreviation process := (process_charge float_of_str str_of).
Local Abbreviation norm := (normalized float_of_str str_of).
Local Abbreviation disp := (dispatch str_of).
Local Abbreviation runp := (run float_of_str str_of).
Local Abbreviation lcharge := (landscaping_charge float_of_str str_of).
Local Abbreviation total := (total_dispatched float_of_str str_of).
Local Abbreviation rent_only := (rent_charges float_of_str str_of).

Lemma bind_Ok {A B} (m : result A) (f : A -> result B) (b : B) :
  m ≫= f = Ok b <-> exists a, m = Ok a /\ f a = Ok b.
Proof.
  destruct m; simpl; split.
  - eauto.
  - by intros (? & [= ->] & ?).
  - done.
  - by intros (? & ? & ?).
Qed.

Lemma process_normalized rent st c cat desc amt wear :
  norm c = Some (cat, desc, amt, wear) ->
  process rent st c = disp rent c cat desc amt wear st.
Proof.
  unfold normalized, process_charge.
  destruct (include_only_unpaid c) as [[]|]; try done.
  destruct (charge_cat c) as [cat0|]; try done.
  destruct (charge_amt _ c) as [a|]; try done.
  destruct (charge_wear c) as [w|]; try done.
  simpl.
  destruct (PyStr.str_in cat0 HARD_EXCLUSIONS); try done.
  destruct (PyStr.str_in cat0 ["cleaning"; "normal_wear"]
            && (w =? "normal")%string); try done.
  simpl. intros H. by simplify_eq.
Qed.

Lemma process_not_normalized rent st st' c :
  norm c = None -> process rent st c = Ok st' ->
  exists e, st' = exclude st e.
Proof.
  unfold normalized, process_charge.
  destruct (include_only_unpaid c) as [[]|]; simpl; try done.
  - destruct (charge_cat c) as [cat0|]; simpl; try done.
    destruct (charge_amt _ c) as [a|]; simpl; try done.
    destruct (charge_wear c) as [w|]; simpl; try done.
    destruct (PyStr.str_in cat0 HARD_EXCLUSIONS); simpl.
    { intros _ [= <-]. eauto. }
    destruct (PyStr.str_in cat0 ["cleaning"; "normal_wear"]
              && (w =? "normal")%string); simpl; try done.
    intros _ [= <-]. eauto.
  - destruct (charge_amt _ c) as [a|]; simpl; try done.
    intros _ [= <-]. eauto.
Qed.

Lemma sum_amounts_snoc l e :
  sum_amounts (l ++ [e]) = sum_amounts l + entry_amount e.
Proof. unfold sum_amounts. by rewrite fold_left_app. Qed.

Lemma sum_amounts_from l x :
  fold_left (fun acc e => acc + entry_amount e) l x
  == x + sum_amounts l.
Proof.
  unfold sum_amounts. revert x.
  induction l as [|e l IH]; intros x; simpl.
  - lra.
  - rewrite (IH (x + entry_amount e)), (IH (0 + entry_amount e)). lra.
Qed.

Lemma sum_amounts_app l1 l2 :
  sum_amounts (l1 ++ l2) == sum_amounts l1 + sum_amounts l2.
Proof.
  unfold sum_amounts at 1. rewrite fold_left_app.
  apply sum_amounts_from.
Qed.

(** *** The capped categories *)


(** One step of a branch with a running cap: what is appended to the two
    lists and how much of the cap is used. *)
Lemma capped_step (room amt : Q) (st : acc) (la : pyval) (desc : pyval)
    (ra re : string) (use : acc -> Q -> acc) (cap : Q) :
  cap = py_max 0 (py_min amt room) ->
  exists na ne,
    (if Qltb 0 cap
     then
       let st1 := approve st (la, cap, ra) in
       let st2 := if Qltb cap amt
                  then exclude st1 (desc, amt - cap, re) else st1 in
       use st2 cap
     else exclude st (desc, amt, re))
    = (if Qltb 0 cap
       then use (Acc (approved st ++ na) (excluded st ++ ne)
                     (landscaping_used st) (rent_used st)) cap
       else Acc (approved st ++ na) (excluded st ++ ne)
                (landscaping_used st) (rent_used st))
    /\ reasons ra na /\ reasons re ne /\ positive na
    /\ sum_amounts na == cap /\ sum_amounts ne == amt - cap
    /\ (room <= 0 -> na = [] /\ ne = [(desc, amt, re)]).
Proof.
  intros Hcap. unfold reasons, positive.
  destruct (Qltb_reflect 0 cap) as [Hpos|Hnpos].
  - assert (0 < room) as Hroom by (subst cap; minmax_lra).
    destruct (Qltb_reflect cap amt) as [Hlt|Hge].
    + exists [(la, cap, ra)], [(desc, amt - cap, re)].
      split_and!; try done; try (by repeat constructor);
        try (by rewrite app_nil_r);
        try (unfold sum_amounts, entry_amount; cbn [fold_left fst snd]; lra);
        try (repeat constructor; simpl; lra);
        try (intros ?; exfalso; lra).
    + exists [(la, cap, ra)], [].
      assert (amt == cap) by (subst cap; minmax_lra).
      split_and!; try done; try (by repeat constructor);
        try (by rewrite app_nil_r);
        try (unfold sum_amounts, entry_amount; cbn [fold_left fst snd]; lra);
        try (repeat constructor; simpl; lra);
        try (intros ?; exfalso; lra).
  - exists [], [(desc, amt, re)].
    assert (cap == 0) by (subst cap; minmax_lra).
    split_and!; try done; try (by repeat constructor);
        try (by rewrite app_nil_r);
        try (unfold sum_amounts, entry_amount; cbn [fold_left fst snd]; lra);
        try (repeat constructor; simpl; lra);
        try (intros ?; exfalso; lra).
Qed.

Lemma process_landscaping rent st c desc amt wear :
  norm c = Some ("landscaping", desc, amt, wear) ->
  let cap := py_max 0 (py_min amt (500 - landscaping_used st)) in
  exists st' na ne,
    process rent st c = Ok st'
    /\ approved st' = (approved st ++ na)%list
    /\ excluded st' = (excluded st ++ ne)%list
    /\ rent_used st' = rent_used st
    /\ landscaping_used st' == landscaping_used st + cap
    /\ reasons "Capped at $500" na /\ reasons "Over $500 cap" ne
    /\ positive na
    /\ sum_amounts na == cap /\ sum_amounts ne == amt - cap
    /\ (500 - landscaping_used st <= 0 ->
        na = [] /\ ne = [(desc, amt, "Over $500 cap")]).
Proof.
  intros Hn cap. rewrite (process_normalized _ _ _ _ _ _ _ Hn).
  destruct (capped_step (500 - landscaping_used st) amt st
              (label str_of "Landscaping" desc) desc
              "Capped at $500" "Over $500 cap" add_landscaping cap eq_refl)
    as (na & ne & E & Hra & Hre & Hpos & Hsa & Hse & Hroom).
  assert (disp rent c "landscaping" desc amt wear st
          = if Qltb 0 cap
            then Ok (add_landscaping
                       (if Qltb cap amt
                        then exclude
                               (approve st (label str_of "Landscaping" desc,
                                            cap, "Capped at $500"))
                               (desc, amt - cap, "Over $500 cap")
                        else approve st (label str_of "Landscaping" desc,
                                         cap, "Capped at $500")) cap)
            else Ok (exclude st (desc, amt, "Over $500 cap"))) as ->
    by reflexivity.
  cbv zeta in E.
  destruct (Qltb_reflect 0 cap) as [Hc|Hc]; rewrite E;
    eexists _, na, ne; (split; [reflexivity|]);
    cbn [approved excluded rent_used landscaping_used add_landscaping];
    split_and!; try done.
  assert (cap == 0) by (subst cap; minmax_lra). lra.
Qed.

Lemma process_unpaid_rent rent st c desc amt wear :
  norm c = Some ("unpaid_rent", desc, amt, wear) ->
  let cap := py_max 0 (py_min amt (rent - rent_used st)) in
  exists st' na ne,
    process rent st c = Ok st'
    /\ approved st' = (approved st ++ na)%list
    /\ excluded st' = (excluded st ++ ne)%list
    /\ landscaping_used st' = landscaping_used st
    /\ rent_used st' = (if Qltb 0 cap then rent_used st + cap
                        else rent_used st)
    /\ reasons "Capped at one month rent" na
    /\ reasons "Over one month rent" ne
    /\ positive na
    /\ sum_amounts na == cap /\ sum_amounts ne == amt - cap
    /\ (rent - rent_used st <= 0 ->
        na = [] /\ ne = [(desc, amt, "Over one month rent")]).
Proof.
  intros Hn cap. rewrite (process_normalized _ _ _ _ _ _ _ Hn).
  destruct (capped_step (rent - rent_used st) amt st
              (label str_of "Unpaid Rent" desc) desc
              "Capped at one month rent" "Over one month rent"
              add_rent cap eq_refl)
    as (na & ne & E & Hra & Hre & Hpos & Hsa & Hse & Hroom).
  assert (disp rent c "unpaid_rent" desc amt wear st
          = if Qltb 0 cap
            then Ok (add_rent
                       (if Qltb cap amt
                        then exclude
                               (approve st (label str_of "Unpaid Rent" desc,
                                            cap, "Capped at one month rent"))
                               (desc, amt - cap, "Over one month rent")
                        else approve st (label str_of "Unpaid Rent" desc,
                                         cap, "Capped at one month rent"))
                       cap)
            else Ok (exclude st (desc, amt, "Over one month rent"))) as ->
    by reflexivity.
  cbv zeta in E.
  destruct (Qltb_reflect 0 cap) as [Hc|Hc]; rewrite E;
    eexists _, na, ne; (split; [reflexivity|]);
    cbn [approved excluded rent_used landscaping_used add_rent];
    split_and!; done.
Qed.

(** *** C1: the landscaping cap *)


Lemma total_dispatched_nonneg cs :
  Forall lcharge cs -> 0 <= total cs.
Proof.
  induction 1 as [|c cs (desc & amt & wear & Hn & Ha) _ IH]; simpl; [lra|].
  unfold dispatched_amount. rewrite Hn. lra.
Qed.

Lemma total_dispatched_perm cs cs' :
  Permutation cs cs' -> total cs == total cs'.
Proof.
  induction 1; simpl; lra.
Qed.

Lemma run_landscaping rent cs : forall st,
  Forall lcharge cs ->
  0 <= landscaping_used st <= 500 ->
  exists st' na ne,
    runp rent st cs = Ok st'
    /\ approved st' = (approved st ++ na)%list
    /\ excluded st' = (excluded st ++ ne)%list
    /\ rent_used st' = rent_used st
    /\ landscaping_used st'
       == Qmin (landscaping_used st + total cs) 500
    /\ reasons "Capped at $500" na /\ reasons "Over $500 cap" ne
    /\ positive na
    /\ sum_amounts na
       == Qmin (landscaping_used st + total cs) 500
          - landscaping_used st
    /\ sum_amounts na + sum_amounts ne == total cs.
Proof.
  induction cs as [|c cs IH]; intros st Hall Hu.
  - exists st, [], []. simpl. rewrite !app_nil_r.
    split_and!; try done; try (by constructor);
      unfold sum_amounts; simpl; minmax_lra.
  - apply Forall_cons in Hall as [(desc & amt & wear & Hn & Ha) Hall].
    destruct (process_landscaping rent st c desc amt wear Hn)
      as (st1 & na1 & ne1 & Hp & Hap1 & Hex1 & Hr1 & Hl1 & Hra1 & Hre1
          & Hpos1 & Hsa1 & Hse1 & _).
    pose proof (total_dispatched_nonneg cs Hall) as HS.
    assert (0 <= landscaping_used st1 <= 500) as Hu1
      by (split; minmax_lra).
    destruct (IH st1 Hall Hu1)
      as (st' & na2 & ne2 & Hrun & Hap2 & Hex2 & Hr2 & Hl2 & Hra2 & Hre2
          & Hpos2 & Hsa2 & Hse2).
    exists st', (na1 ++ na2)%list, (ne1 ++ ne2)%list.
    simpl. rewrite Hp. simpl.
    assert (dispatched_amount float_of_str str_of c = amt) as ->
      by (unfold dispatched_amount; by rewrite Hn).
    split_and!; try done.
    + by rewrite Hap2, Hap1, app_assoc.
    + by rewrite Hex2, Hex1, app_assoc.
    + congruence.
    + minmax_lra.
    + by apply Forall_app.
    + by apply Forall_app.
    + by apply Forall_app.
    + rewrite sum_amounts_app. minmax_lra.
    + rewrite !sum_amounts_app. minmax_lra.
Qed.

(** *** C5, C9: rent and lease-break charges *)

Lemma str_in_cons s t ts :
  PyStr.str_in s (t :: ts) = (s =? t)%string || PyStr.str_in s ts.
Proof. reflexivity. Qed.

Lemma dispatch_rent_frame rent c cat desc amt wear st st' :
  disp rent c cat desc amt wear st = Ok st' ->
  (cat =? "unpaid_rent")%string = false ->
  rent_used st' = rent_used st.
Proof.
  unfold dispatch. intros H Hcat. rewrite Hcat in H.
  repeat (cbv [mret result_ret mbind result_bind] in H;
          match type of H with
          | context [if ?b then _ else _] => destruct b
          | context [_looks_beyond_wear ?d] =>
              destruct (_looks_beyond_wear d)
          end);
    cbv [mret result_ret mbind result_bind] in H; try discriminate;
    by simplify_eq.
Qed.

Lemma process_rent_frame rent c st st' :
  process rent st c = Ok st' ->
  dispatched_as float_of_str str_of c ["unpaid_rent"] = false ->
  rent_used st' = rent_used st.
Proof.
  intros Hp. unfold dispatched_as.
  destruct (norm c) as [[[[cat desc] amt] wear]|] eqn:Hn.
  - rewrite (process_normalized _ _ _ _ _ _ _ Hn) in Hp.
    rewrite str_in_cons, orb_false_r. eauto using dispatch_rent_frame.
  - intros _. destruct (process_not_normalized _ _ _ _ Hn Hp) as [e ->].
    done.
Qed.

Lemma run_rent_only rent cs : forall st st' st2,
  runp rent st cs = Ok st' ->
  rent_used st2 = rent_used st ->
  exists st2',
    runp rent st2 (rent_only cs) = Ok st2'
    /\ rent_used st2' = rent_used st'.
Proof.
  unfold rent_charges.
  induction cs as [|c cs IH]; intros st st' st2 Hrun Hst; simpl in *.
  - simplify_eq. eauto.
  - apply bind_Ok in Hrun as (st1 & Hp & Hrun).
    destruct (dispatched_as float_of_str str_of c ["unpaid_rent"]) eqn:Hd.
    + unfold dispatched_as in Hd.
      destruct (norm c) as [[[[cat desc] amt] wear]|] eqn:Hn; [|done].
      rewrite str_in_cons, orb_false_r in Hd.
      apply String.eqb_eq in Hd. subst cat.
      destruct (process_unpaid_rent rent st c desc amt wear Hn)
        as (s1 & _ & _ & Hp1 & _ & _ & _ & Hr1 & _).
      destruct (process_unpaid_rent rent st2 c desc amt wear Hn)
        as (s2 & _ & _ & Hp2 & _ & _ & _ & Hr2 & _).
      rewrite Hp in Hp1. simplify_eq. simpl. rewrite Hp2. simpl.
      apply (IH _ _ _ Hrun). rewrite Hr1, Hr2, Hst. done.
    + apply (IH _ _ _ Hrun).
      rewrite Hst. symmetry. eauto using process_rent_frame.
Qed.

Lemma process_lease_break rent st c cat desc amt wear :
  norm c = Some (cat, desc, amt, wear) ->
  PyStr.str_in cat LEASE_BREAK = true ->
  exists st',
    process rent st c = Ok st'
    /\ rent_used st' = rent_used st
    /\ landscaping_used st' = landscaping_used st
    /\ (if truthy (get c "accelerated_moveout" (VBool false))
        then
          approved st'
          = (approved st
             ++ [(label str_of "Lease Break Fee (Accelerated)" desc, amt,
                  "Exception: accelerated move-out")])%list
          /\ excluded st' = excluded st
        else
          let cap := py_min amt rent in
          approved st'
          = (approved st
             ++ [(label str_of "Lease Break Fee" desc, cap,
                  "Capped at one month rent")])%list
          /\ excluded st'
             = (excluded st
                ++ if Qltb cap amt
                   then [(desc, amt - cap, "Over one month rent")]
                   else [])%list).
Proof.
  intros Hn Hcat. rewrite (process_normalized _ _ _ _ _ _ _ Hn).
  unfold LEASE_BREAK in Hcat. rewrite !str_in_cons in Hcat.
  assert (cat = "lease_break" \/ cat = "relisting_fee"
          \/ cat = "lease_break_fee") as Hc.
  { repeat (apply orb_true_iff in Hcat as [Hcat|Hcat]);
      try apply String.eqb_eq in Hcat; auto. discriminate. }
  assert (disp rent c cat desc amt wear st
          = if truthy (get c "accelerated_moveout" (VBool false))
            then Ok (approve st
                       (label str_of "Lease Break Fee (Accelerated)" desc,
                        amt, "Exception: accelerated move-out"))
            else Ok (let cap := py_min amt rent in
                     let st1 := approve st (label str_of "Lease Break Fee"
                                              desc, cap,
                                            "Capped at one month rent") in
                     if Qltb cap amt
                     then exclude st1 (desc, amt - cap,
                                       "Over one month rent")
                     else st1)) as ->
    by (destruct Hc as [->|[->| ->]]; reflexivity).
  destruct (truthy (get c "accelerated_moveout" (VBool false)));
    eexists; (split; [reflexivity|]); cbv zeta.
  - done.
  - destruct (Qltb (py_min amt rent) amt); simpl; rewrite ?app_nil_r; done.
Qed.

(** *** C3: which inputs raise *)

Lemma str_or_falsy_lower v :
  str_or_falsy v = true ->
  exists s, py_or v (VStr "") = VStr s.
Proof.
  unfold py_or. destruct v; simpl; intros H; eauto;
    try (apply negb_true_iff in H; simpl in H; rewrite H; eauto).
  destruct (negb (PyStr.is_empty s)); eauto.
Qed.

Lemma dispatch_total rent c cat s amt wear st :
  exists st', disp rent c cat (VStr s) amt wear st = Ok st'.
Proof.
  unfold dispatch, _looks_beyond_wear, py_or, py_lower.
  repeat (cbv [mret result_ret mbind result_bind];
          match goal with
          | |- context [if ?b then _ else _] => destruct b
          end);
    cbv [mret result_ret mbind result_bind]; eauto.
Qed.

Lemma process_well_formed rent st c :
  well_formed float_of_str c = true -> exists st', process rent st c = Ok st'.
Proof.
  unfold well_formed. rewrite !andb_true_iff.
  intros ((((Hs & Hc) & Hw) & Hd) & Ha).
  unfold process_charge, include_only_unpaid, charge_cat, charge_wear,
    charge_amt, charge_desc, py_lower_strip.
  assert (exists s, get c "status" (VStr "") = VStr s) as [s ->].
  { unfold get. destruct (c !! "status") as [[]|]; simpl; eauto; done. }
  destruct (str_or_falsy_lower _ Hc) as [sc ->].
  destruct (str_or_falsy_lower _ Hw) as [sw ->].
  destruct (str_or_falsy_lower _ Hd) as [sd ->].
  unfold amount_ok in Ha.
  destruct (py_float float_of_str (py_or (get c "amount" (VNum 0)) (VNum 0)))
    as [a|]; [|done].
  repeat (cbv [py_lower mret result_ret mbind result_bind];
          match goal with
          | |- context [if ?b then _ else _] => destruct b
          end);
    cbv [py_lower mret result_ret mbind result_bind];
    eauto using dispatch_total.
Qed.

Lemma run_well_formed rent cs : forall st,
  Forall (fun c => well_formed float_of_str c = true) cs ->
  exists st', runp rent st cs = Ok st'.
Proof.
  induction cs as [|c cs IH]; intros st Hall; simpl; [eauto|].
  apply Forall_cons in Hall as [Hc Hall].
  destruct (process_well_formed rent st c Hc) as [st1 ->]. simpl. eauto.
Qed.

Lemma process_amount_raises rent st c e :
  charge_amt float_of_str c = Raise e ->
  exists e', process rent st c = Raise e'.
Proof.
  intros Ha. unfold process_charge. rewrite Ha.
  destruct (include_only_unpaid c) as [[]|]; simpl; eauto.
  destruct (charge_cat c); simpl; eauto.
Qed.

Lemma run_amount_raises rent cs c e : forall st,
  c ∈ cs ->
  charge_amt float_of_str c = Raise e ->
  exists e', runp rent st cs = Raise e'.
Proof.
  induction cs as [|c0 cs IH]; intros st Hin Ha.
  - by apply elem_of_nil in Hin.
  - simpl. apply elem_of_cons in Hin as [<-|Hin].
    + destruct (process_amount_raises rent st c e Ha) as [e' ->].
      simpl. eauto.
    + destruct (process rent st c0) as [st1|e1]; simpl; eauto.
Qed.

Lemma charge_amt_falsy c :
  truthy (get c "amount" (VNum 0)) = false ->
  charge_amt float_of_str c = Ok 0.
Proof.
  intros H. unfold charge_amt, py_or. by rewrite H.
Qed.

(** *** The claims on the policy pass *)

Local Abbreviation apply := (apply_policy_rules float_of_str str_of).

Lemma apply_run cs rent st :
  runp rent init cs = Ok st ->
  apply cs rent
  = Ok (approved st, excluded st, round2 (sum_amounts (approved st))).
Proof. intros H. unfold apply_policy_rules. by rewrite H. Qed.


(** C2 (amended).  Whenever [apply_policy_rules] returns,
    [total_approved] is [round(sum of the approved amounts, 2)]: it lies
    within half a cent of that sum, on either side, and equals it when the
    sum is a whole number of cents. *)
Theorem total_approved_rounds (cs : list (gmap string pyval))
    (monthly_rent : Q) (appr excl : list entry) (total_approved : Q) :
  apply cs monthly_rent = Ok (appr, excl, total_approved) ->
  total_approved = round2 (sum_amounts appr)
  /\ sum_amounts appr - (1 # 200) <= total_approved
     <= sum_amounts appr + (1 # 200)
  /\ forall cents : Z,
       sum_amounts appr == cents # 100 ->
       total_approved == sum_amounts appr.
Proof.
  unfold apply_policy_rules. intros H.
  apply bind_Ok in H as (st & _ & H).
  cbv [mret result_ret] in H. simplify_eq.
  split_and!; [done | apply round2_near | apply round2_near |].
  intros cents Hc. rewrite (round2_comp _ _ Hc), Hc. apply round2_cents.
Qed.

(** C3 (amended).  A charge whose amount field is missing, [None] or
    otherwise falsy has amount 0.  On a list of well-formed charges
    (status a string when present; category, wear and description strings
    or falsy; amount missing, falsy, or accepted by [float]) the call
    returns normally.  A charge whose amount [float] rejects makes the
    call raise. *)
Theorem amount_coercion (cs : list (gmap string pyval)) (monthly_rent : Q) :
  (forall c, truthy (get c "amount" (VNum 0)) = false ->
             charge_amt float_of_str c = Ok 0)
  /\ (Forall (fun c => well_formed float_of_str c = true) cs ->
      exists r, apply cs monthly_rent = Ok r)
  /\ (forall c e, c ∈ cs -> charge_amt float_of_str c = Raise e ->
      exists e', apply cs monthly_rent = Raise e').
Proof.
  split_and!.
  - apply charge_amt_falsy.
  - intros Hall.
    destruct (run_well_formed monthly_rent cs init Hall) as [st Hrun].
    rewrite (apply_run _ _ _ Hrun). eauto.
  - intros c e Hin Ha.
    destruct (run_amount_raises monthly_rent cs c e init Hin Ha)
      as [e' Hrun].
    exists e'. unfold apply_policy_rules. by rewrite Hrun.
Qed.


(** C5.  Lease-break charges and the rent cap.  (1) Processing a charge
    dispatched as lease_break, relisting_fee or lease_break_fee returns
    normally and leaves [rent_used] and [landscaping_used] as they were;
    with [accelerated_moveout] true it appends one approved tuple, the full
    amount with reason "Exception: accelerated move-out", and excludes
    nothing.  (2) After any prefix of charges, [rent_used] is what the
    unpaid_rent charges of the prefix alone leave.  (3) An unpaid_rent
    charge is capped at [max(0, min(amount, monthly_rent - rent_used))]. *)
Theorem lease_break_leaves_rent_cap (monthly_rent : Q) :
  (forall st c cat desc amt wear,
     norm c = Some (cat, desc, amt, wear) ->
     PyStr.str_in cat LEASE_BREAK = true ->
     exists st',
       process monthly_rent st c = Ok st'
       /\ rent_used st' = rent_used st
       /\ landscaping_used st' = landscaping_used st
       /\ (truthy (get c "accelerated_moveout" (VBool false)) = true ->
           approved st'
           = (approved st
              ++ [(label str_of "Lease Break Fee (Accelerated)" desc, amt,
                   "Exception: accelerated move-out")])%list
           /\ excluded st' = excluded st))
  /\ (forall pre st,
        runp monthly_rent init pre = Ok st ->
        exists st2,
          runp monthly_rent init (rent_charges float_of_str str_of pre)
          = Ok st2
          /\ rent_used st2 = rent_used st)
  /\ (forall st c desc amt wear,
        norm c = Some ("unpaid_rent", desc, amt, wear) ->
        let cap := py_max 0 (py_min amt (monthly_rent - rent_used st)) in
        exists st' na ne,
          process monthly_rent st c = Ok st'
          /\ approved st' = (approved st ++ na)%list
          /\ excluded st' = (excluded st ++ ne)%list
          /\ reasons "Capped at one month rent" na
          /\ reasons "Over one month rent" ne
          /\ sum_amounts na == cap
          /\ sum_amounts ne == amt - cap
          /\ rent_used st' == rent_used st + cap).
Proof.
  split_and!.
  - intros st c cat desc amt wear Hn Hcat.
    destruct (process_lease_break monthly_rent st c cat desc amt wear
                Hn Hcat) as (st' & Hp & Hr & Hl & Hacc).
    exists st'. split_and!; try done. intros Ht. by rewrite Ht in Hacc.
  - intros pre st Hrun. by apply (run_rent_only _ _ _ _ _ Hrun).
  - intros st c desc amt wear Hn cap.
    destruct (process_unpaid_rent monthly_rent st c desc amt wear Hn)
      as (st' & na & ne & Hp & Hap & Hex & _ & Hr & Hra & Hre & _ & Hsa
          & Hse & _).
    exists st', na, ne. split_and!; try done.
    rewrite Hr. fold cap.
    destruct (Qltb_reflect 0 cap); [lra|].
    assert (cap == 0) by (subst cap; minmax_lra). lra.
Qed.

(** C9.  The lease-break cap has no floor.  An unpaid or overdue charge
    dispatched as lease_break, relisting_fee or lease_break_fee without
    [accelerated_moveout] always appends one approved tuple, of amount
    [min(amount, monthly_rent)] and reason "Capped at one month rent"; the
    amount is at most 0 when [monthly_rent] is.  The landscaping and
    unpaid_rent branches approve positive amounts only, and exclude the
    full amount, approving nothing, once the remaining cap is 0 or less. *)
Theorem lease_break_cap_unfloored (monthly_rent : Q) (st : acc)
    (c : gmap string pyval) (cat : string) (desc : pyval) (amt : Q)
    (wear : string) :
  norm c = Some (cat, desc, amt, wear) ->
  (PyStr.str_in cat LEASE_BREAK = true ->
   truthy (get c "accelerated_moveout" (VBool false)) = false ->
   exists st',
     process monthly_rent st c = Ok st'
     /\ approved st'
        = (approved st
           ++ [(label str_of "Lease Break Fee" desc,
                py_min amt monthly_rent, "Capped at one month rent")])%list
     /\ py_min amt monthly_rent == Qmin amt monthly_rent
     /\ (monthly_rent <= 0 -> py_min amt monthly_rent <= 0))
  /\ (cat = "landscaping" ->
      exists st' na ne,
        process monthly_rent st c = Ok st'
        /\ approved st' = (approved st ++ na)%list
        /\ excluded st' = (excluded st ++ ne)%list
        /\ positive na
        /\ (500 - landscaping_used st <= 0 ->
            na = [] /\ ne = [(desc, amt, "Over $500 cap")]))
  /\ (cat = "unpaid_rent" ->
      exists st' na ne,
        process monthly_rent st c = Ok st'
        /\ approved st' = (approved st ++ na)%list
        /\ excluded st' = (excluded st ++ ne)%list
        /\ positive na
        /\ (monthly_rent - rent_used st <= 0 ->
            na = [] /\ ne = [(desc, amt, "Over one month rent")])).
Proof.
  intros Hn. split_and!.
  - intros Hcat Hacc.
    destruct (process_lease_break monthly_rent st c cat desc amt wear
                Hn Hcat) as (st' & Hp & _ & _ & H).
    rewrite Hacc in H. cbv zeta in H. destruct H as [Hap _].
    exists st'. split_and!; try done.
    + apply py_min_Qmin.
    + intros Hr. minmax_lra.
  - intros ->.
    destruct (process_landscaping monthly_rent st c desc amt wear Hn)
      as (st' & na & ne & Hp & Hap & Hex & _ & _ & _ & _ & Hpos & _ & _
          & Hroom).
    by exists st', na, ne.
  - intros ->.
    destruct (process_unpaid_rent monthly_rent st c desc amt wear Hn)
      as (st' & na & ne & Hp & Hap & Hex & _ & _ & _ & _ & Hpos & _ & _
          & Hroom).
    by exists st', na, ne.
Qed.

End Policy.


(** ** The documents gate *)

Section Gate.


Lemma ltb_false_le x y : String.ltb x y = false -> str_le y x.
Proof.
  unfold String.ltb, str_le, String.leb. rewrite (String.compare_antisym x y).
  by destruct (String.compare y x).
Qed.

Lemma ltb_true_le x y : String.ltb x y = true -> str_le x y.
Proof.
  unfold String.ltb, str_le, String.leb. by destruct (String.compare x y).
Qed.

Lemma insert_sorted_perm x l : Permutation (x :: l) (PyStr.insert_sorted x l).
Proof.
  induction l as [|y l IH]; simpl; [done|].
  destruct (String.ltb x y); [done|].
  rewrite <- IH. apply perm_swap.
Qed.

Lemma insert_sorted_HdRel a x l :
  str_le a x -> HdRel str_le a l -> HdRel str_le a (PyStr.insert_sorted x l).
Proof.
  intros Hax Hal. destruct l as [|y l]; simpl.
  - by constructor.
  - destruct (String.ltb x y); constructor; auto. by inversion Hal.
Qed.

Lemma insert_sorted_Sorted x l :
  Sorted str_le l -> Sorted str_le (PyStr.insert_sorted x l).
Proof.
  induction 1 as [|y l Hs IH Hhd]; simpl.
  - by repeat constructor.
  - destruct (String.ltb x y) eqn:E.
    + constructor; [by constructor|]. constructor. by apply ltb_true_le.
    + constructor; [done|].
      apply insert_sorted_HdRel; [by apply ltb_false_le | done].
Qed.

Lemma sorted_from l : forall acc,
  Sorted str_le acc ->
  Sorted str_le (fold_left (fun acc x => PyStr.insert_sorted x acc) l acc)
  /\ Permutation (l ++ acc)
       (fold_left (fun acc x => PyStr.insert_sorted x acc) l acc).
Proof.
  induction l as [|x l IH]; intros acc Hacc; simpl; [done|].
  destruct (IH (PyStr.insert_sorted x acc)) as [Hs Hp].
  { by apply insert_sorted_Sorted. }
  split; [done|]. rewrite <- Hp, <- insert_sorted_perm.
  by rewrite Permutation_middle.
Qed.

Lemma sorted_Sorted l : Sorted str_le (PyStr.sorted l).
Proof. apply sorted_from. constructor. Qed.

Lemma sorted_perm l : Permutation l (PyStr.sorted l).
Proof.
  destruct (sorted_from l []) as [_ Hp]; [constructor|].
  by rewrite app_nil_r in Hp.
Qed.


Lemma gate_missing (docs : gmap string bool) :
  let missing := PyStr.sorted (List.filter (absent docs) Rules.REQ_DOCS) in
  Sorted str_le missing
  /\ (forall d,
        d ∈ missing <-> d ∈ Rules.REQ_DOCS /\ docs !! d ≠ Some true)
  /\ ((length missing =? 0)%nat = true
      <-> forall d, d ∈ Rules.REQ_DOCS -> docs !! d = Some true).
Proof.
  intros missing.
  assert (forall d, d ∈ missing
                    <-> d ∈ Rules.REQ_DOCS /\ docs !! d ≠ Some true) as Hm.
  { intros d. unfold missing. rewrite <- (sorted_perm _).
    rewrite !list_elem_of_In, filter_In. unfold absent.
    destruct (docs !! d) as [[]|]; simpl; split; intros [? ?]; split;
      auto; try congruence; try discriminate. }
  split_and!; [apply sorted_Sorted | done |].
  rewrite Nat.eqb_eq. split.
  - intros Hl d Hd. destruct missing as [|m ms] eqn:E; [|done].
    destruct (docs !! d) as [[]|] eqn:Ed; [done| |];
      (exfalso; apply (not_elem_of_nil d), Hm; split; [done|congruence]).
  - intros Hall. destruct missing as [|m ms] eqn:E; [done|].
    exfalso. destruct (Hm m) as [[Hin Hne] _]; [by left|]. by apply Hne, Hall.
Qed.


End Gate.


(** ** Trimming and searching strings *)

Section Strings.
Import PyStr.

Lemma str_app_cons c (s t : string) : String c s ++ t = String c (s ++ t).
Proof. reflexivity. Qed.

Lemma str_app_nil_r (s : string) : s ++ "" = s.
Proof.
  induction s as [|c s IH]; [done|]. by rewrite str_app_cons, IH.
Qed.

Lemma str_app_assoc (a b c : string) : (a ++ b) ++ c = a ++ (b ++ c).
Proof.
  induction a as [|x a IH]; [done|]. by rewrite !str_app_cons, IH.
Qed.

Lemma str_rev_onto_app (s acc : string) : rev_onto s acc = rev s ++ acc.
Proof.
  unfold rev. revert acc.
  induction s as [|c s IH]; intros acc; simpl; [done|].
  by rewrite (IH (String c acc)), (IH (String c "")), str_app_assoc.
Qed.

Lemma str_rev_cons c s : rev (String c s) = rev s ++ String c "".
Proof. unfold rev at 1. simpl. apply str_rev_onto_app. Qed.

Lemma str_rev_app (a b : string) : rev (a ++ b) = rev b ++ rev a.
Proof.
  induction a as [|c a IH].
  - by rewrite str_app_nil_r.
  - by rewrite str_app_cons, !str_rev_cons, IH, str_app_assoc.
Qed.

Lemma str_rev_involutive (s : string) : rev (rev s) = s.
Proof.
  induction s as [|c s IH]; [done|].
  by rewrite str_rev_cons, str_rev_app, IH.
Qed.

Lemma all_space_app (a b : string) :
  all_space (a ++ b) = all_space a && all_space b.
Proof.
  induction a as [|c a IH]; [done|].
  rewrite str_app_cons. simpl. by rewrite IH, andb_assoc.
Qed.

Lemma all_space_rev (s : string) : all_space (rev s) = all_space s.
Proof.
  induction s as [|c s IH]; [done|].
  rewrite str_rev_cons, all_space_app, IH. simpl.
  rewrite andb_true_r. apply andb_comm.
Qed.

Lemma lstrip_split (s : string) :
  exists w, s = w ++ lstrip s /\ all_space w = true.
Proof.
  induction s as [|c s (w & Hs & Hw)]; simpl.
  - by exists "".
  - destruct (is_space c) eqn:E.
    + exists (String c w). rewrite str_app_cons. simpl.
      by rewrite <- Hs, E, Hw.
    + by exists "".
Qed.

Lemma rstrip_split (s : string) :
  exists w, s = rstrip s ++ w /\ all_space w = true.
Proof.
  destruct (lstrip_split (rev s)) as (w & Hs & Hw).
  exists (rev w). split.
  - unfold rstrip. rewrite <- str_rev_app, <- Hs.
    by rewrite str_rev_involutive.
  - by rewrite all_space_rev.
Qed.

Lemma strip_split (s : string) :
  exists w1 w2,
    s = w1 ++ strip s ++ w2 /\ all_space w1 = true /\ all_space w2 = true.
Proof.
  destruct (lstrip_split s) as (w1 & Hs & Hw1).
  destruct (rstrip_split (lstrip s)) as (w2 & Hs2 & Hw2).
  exists w1, w2. split_and!; try done.
  unfold strip. by rewrite <- Hs2.
Qed.

Lemma str_prefix_app (k s : string) :
  String.prefix k s = true <-> exists b, s = k ++ b.
Proof.
  revert s. induction k as [|c k IH]; intros s.
  - destruct s; simpl; split; eauto.
  - setoid_rewrite str_app_cons. destruct s as [|d s]; simpl.
    + split; [done|]. by intros (b & ?).
    + destruct (ascii_dec c d) as [->|Hne].
      * rewrite IH. split; intros (b & Hb); exists b; congruence.
      * split; [done|]. intros (b & Hb). congruence.
Qed.

Lemma contains_app (k s : string) :
  contains k s = true <-> exists a b, s = a ++ k ++ b.
Proof.
  induction s as [|c s IH].
  - split.
    + destruct k; [|done]. by exists "", "".
    + intros (a & b & Hab). destruct a; [|done]. by destruct k.
  - cbn [contains]. rewrite orb_true_iff, IH, str_prefix_app. split.
    + intros [(b & Hb)|(a & b & Hab)].
      * by exists "", b.
      * exists (String c a), b. by rewrite str_app_cons, Hab.
    + intros (a & b & Hab). destruct a as [|d a].
      * left. by exists b.
      * right. exists a, b. rewrite str_app_cons in Hab. congruence.
Qed.

Lemma lower_app (a b : string) : lower (a ++ b) = lower a ++ lower b.
Proof.
  induction a as [|c a IH]; [done|].
  rewrite !str_app_cons. simpl. by rewrite IH.
Qed.

Lemma is_space_lower_char c : is_space (lower_char c) = is_space c.
Proof.
  destruct c as [[] [] [] [] [] [] [] []]; reflexivity.
Qed.

Lemma all_space_lower s : all_space (lower s) = all_space s.
Proof.
  induction s as [|c s IH]; simpl; [done|].
  by rewrite is_space_lower_char, IH.
Qed.

(** A phrase that begins with a character that is not blank does not
    begin inside leading blanks. *)
Lemma contains_skip_blanks (k w s : string) c k' :
  k = String c k' -> is_space c = false -> all_space w = true ->
  contains k (w ++ s) = true -> contains k s = true.
Proof.
  intros -> Hc. induction w as [|d w IH]; [done|].
  rewrite str_app_cons. simpl.
  intros [Hd Hw]%andb_true_iff.
  destruct (ascii_dec c d) as [->|Hne]; [congruence|].
  simpl. intros H. by apply IH.
Qed.

Lemma contains_rev (k s : string) : contains (rev k) (rev s) = contains k s.
Proof.
  apply eq_true_iff_eq. rewrite !contains_app. split.
  - intros (a & b & Hab). exists (rev b), (rev a).
    rewrite <- (str_rev_involutive s), Hab, !str_rev_app, str_rev_involutive.
    by rewrite str_app_assoc.
  - intros (a & b & ->). exists (rev b), (rev a).
    by rewrite !str_rev_app, str_app_assoc.
Qed.

Lemma tight_inv k :
  tight k = true ->
  exists c k' d k'',
    k = String c k' /\ is_space c = false
    /\ rev k = String d k'' /\ is_space d = false.
Proof.
  unfold tight. destruct k as [|c k']; [done|].
  destruct (rev (String c k')) as [|d k'']; [done|].
  intros [Hc Hd]%andb_true_iff.
  exists c, k', d, k''. by rewrite <- !negb_true_iff.
Qed.

Lemma contains_strip (k s : string) :
  tight k = true -> contains k (strip s) = contains k s.
Proof.
  intros (c & k' & d & k'' & Hk & Hc & Hr & Hd)%tight_inv.
  destruct (strip_split s) as (w1 & w2 & Hs & Hw1 & Hw2).
  apply eq_true_iff_eq. split.
  - rewrite !contains_app. intros (a & b & Hab).
    exists (w1 ++ a), (b ++ w2). rewrite Hs at 1. rewrite Hab.
    by rewrite !str_app_assoc.
  - rewrite Hs at 1. intros H.
    apply (contains_skip_blanks _ _ _ _ _ Hk Hc Hw1) in H.
    rewrite <- contains_rev, str_rev_app in H.
    apply (contains_skip_blanks _ _ _ _ _ Hr Hd) in H;
      [|by rewrite all_space_rev].
    by rewrite contains_rev in H.
Qed.

Lemma lower_rev s : lower (rev s) = rev (lower s).
Proof.
  induction s as [|c s IH]; [done|].
  cbn [lower]. by rewrite !str_rev_cons, lower_app, IH.
Qed.

Lemma lstrip_lower s : lstrip (lower s) = lower (lstrip s).
Proof.
  induction s as [|c s IH]; simpl; [done|].
  rewrite is_space_lower_char. by destruct (is_space c).
Qed.

Lemma strip_lower s : strip (lower s) = lower (strip s).
Proof.
  unfold strip, rstrip.
  by rewrite lstrip_lower, <- lower_rev, lstrip_lower, lower_rev.
Qed.

End Strings.

(** ** The ledger scan *)

Section Ledger.
Import LedgerReview LedgerSpec.


Lemma strict_step_corroborated line st :
  strict_step line st
  = merge st (if corroborated RENT_HINTS line then Some line else None)
             (if corroborated SDI_HINTS line then Some line else None).
Proof.
  unfold strict_step, merge, corroborated. cbv zeta.
  generalize (_line_matches line RENT_HINTS) (_line_matches line SDI_HINTS)
    (has_money line || _line_matches line PAID_HINTS).
  intros [] [] []; destruct st as [[] re [] se]; reflexivity.
Qed.

Lemma strict_scan_merge lines : forall st,
  strict_scan lines st
  = merge st (List.find (corroborated RENT_HINTS) lines)
             (List.find (corroborated SDI_HINTS) lines).
Proof.
  induction lines as [|line rest IH]; intros st.
  - destruct st as [[] ? [] ?]; reflexivity.
  - cbn [strict_scan List.find]. rewrite strict_step_corroborated, IH.
    generalize (List.find (corroborated RENT_HINTS) rest)
      (List.find (corroborated SDI_HINTS) rest)
      (corroborated RENT_HINTS line) (corroborated SDI_HINTS line).
    intros [?|] [?|] [] []; destruct st as [[] re [] se]; reflexivity.
Qed.

Lemma first_hint_find needles lines :
  first_hint needles lines = List.find (mentions needles) lines.
Proof.
  induction lines as [|line rest IH]; simpl; [done|].
  unfold mentions at 1. by destruct (_line_matches line needles).
Qed.

Lemma scan_two_phase lines : scan lines = two_phase lines.
Proof.
  unfold scan, two_phase, evidence_line, fallback_rent, fallback_sdi.
  rewrite strict_scan_merge, !first_hint_find.
  generalize (List.find (corroborated RENT_HINTS) lines)
    (List.find (corroborated SDI_HINTS) lines)
    (List.find (mentions RENT_HINTS) lines)
    (List.find (mentions SDI_HINTS) lines).
  intros [?|] [?|] [?|] [?|]; reflexivity.
Qed.

Lemma strict_scan_done lines st :
  rent_paid st && sdi_paid st = true -> strict_scan lines st = st.
Proof.
  intros H. rewrite strict_scan_merge.
  destruct st as [[] ? [] ?]; try discriminate. reflexivity.
Qed.

Lemma strict_scan_stops l1 l2 : forall st,
  rent_paid (strict_scan l1 st) && sdi_paid (strict_scan l1 st) = true ->
  strict_scan (l1 ++ l2) st = strict_scan l1 st.
Proof.
  induction l1 as [|line rest IH]; intros st H.
  - by apply strict_scan_done.
  - cbn [strict_scan app] in *.
    destruct (rent_paid (strict_step line st)
              && sdi_paid (strict_step line st)); [done|]. by apply IH.
Qed.

Lemma corroborated_mentions needles line :
  corroborated needles line = true -> mentions needles line = true.
Proof. unfold corroborated, mentions. by intros [? _]%andb_true_iff. Qed.

Lemma found_evidence_line needles lines :
  found (evidence_line needles lines) = existsb (mentions needles) lines.
Proof.
  unfold evidence_line.
  destruct (List.find (corroborated needles) lines) as [line|] eqn:E.
  - apply find_some in E as [Hin Hc]. symmetry. apply existsb_exists.
    eauto using corroborated_mentions.
  - clear E. induction lines as [|line rest IH]; simpl; [done|].
    by destruct (mentions needles line).
Qed.


Lemma any_in_strip needles s :
  forallb tight needles = true ->
  PyStr.any_in needles (PyStr.lower (PyStr.strip s))
  = PyStr.any_in needles (PyStr.lower s).
Proof.
  intros Ht. rewrite <- strip_lower. unfold PyStr.any_in.
  induction needles as [|k ks IH]; [done|].
  cbn [forallb existsb] in *. apply andb_true_iff in Ht as [Hk Hks].
  by rewrite contains_strip, IH.
Qed.

Lemma any_in_nonblank needles s :
  forallb tight needles = true ->
  PyStr.any_in needles (PyStr.lower s) = true ->
  PyStr.is_empty (PyStr.strip s) = false.
Proof.
  intros Ht. rewrite <- (any_in_strip _ _ Ht).
  destruct (PyStr.strip s) as [|c t]; [|done].
  unfold PyStr.any_in. intros (k & Hk & Hc)%existsb_exists.
  rewrite forallb_forall in Ht. specialize (Ht k Hk).
  destruct k; [done|]. discriminate Hc.
Qed.

Lemma mentions_lines needles text :
  forallb tight needles = true ->
  existsb (mentions needles) (ledger_lines text) = true
  <-> exists line k,
        line ∈ PyStr.splitlines text /\ PyStr.strip line ≠ ""
        /\ k ∈ needles /\ PyStr.contains k (PyStr.lower line) = true.
Proof.
  intros Ht. unfold ledger_lines. rewrite existsb_exists. split.
  - intros (t & Hin & Hm).
    apply list_elem_of_In, list_elem_of_fmap in Hin as (line & -> & Hin).
    apply list_elem_of_In, filter_In in Hin as [Hin Hne].
    unfold mentions, _line_matches in Hm. rewrite (any_in_strip _ _ Ht) in Hm.
    apply existsb_exists in Hm as (k & Hk & Hc).
    exists line, k. rewrite !list_elem_of_In. split_and!; try done.
    intros E. by rewrite E in Hne.
  - intros (line & k & Hin & Hne & Hk & Hc).
    assert (PyStr.any_in needles (PyStr.lower line) = true) as Hany.
    { apply existsb_exists. exists k. by rewrite <- list_elem_of_In. }
    exists (PyStr.strip line). split.
    + apply list_elem_of_In, list_elem_of_fmap. exists line. split; [done|].
      apply list_elem_of_In, filter_In. rewrite <- list_elem_of_In.
      split; [done|]. by rewrite (any_in_nonblank _ _ Ht Hany).
    + unfold mentions, _line_matches. by rewrite (any_in_strip _ _ Ht).
Qed.

(** C10.  The flags ignore the corroboration.  [first_month_rent_paid] is
    true exactly when a non-blank line of the text contains a rent hint
    phrase in its lower-cased form, and [first_month_sdi_premium_paid]
    exactly when one contains an SDI hint phrase. *)
Theorem ledger_flags_hint_only (ledger_text lease_start_date : option string) :
  let lines := PyStr.splitlines (default EmptyString ledger_text) in
  let d := extract_ledger_flags ledger_text lease_start_date in
  (exists b, d !! "first_month_rent_paid" = Some (VBool b)
             /\ (b = true
                 <-> exists line k,
                       line ∈ lines /\ PyStr.strip line ≠ ""
                       /\ k ∈ RENT_HINTS
                       /\ PyStr.contains k (PyStr.lower line) = true))
  /\ (exists b, d !! "first_month_sdi_premium_paid" = Some (VBool b)
                /\ (b = true
                    <-> exists line k,
                          line ∈ lines /\ PyStr.strip line ≠ ""
                          /\ k ∈ SDI_HINTS
                          /\ PyStr.contains k (PyStr.lower line) = true)).
Proof.
  intros lines d.
  unfold d, extract_ledger_flags. rewrite scan_two_phase.
  set (trimmed := ledger_lines (default EmptyString ledger_text)).
  split.
  - exists (found (evidence_line RENT_HINTS trimmed)). split.
    + unfold flags_dict, two_phase. cbv zeta. cbn [rent_paid].
      rewrite !lookup_insert_ne by done. by rewrite lookup_insert_eq.
    + rewrite found_evidence_line. by apply mentions_lines.
  - exists (found (evidence_line SDI_HINTS trimmed)). split.
    + unfold flags_dict, two_phase. cbv zeta. cbn [sdi_paid].
      rewrite !lookup_insert_ne by done. by rewrite lookup_insert_eq.
    + rewrite found_evidence_line. by apply mentions_lines.
Qed.

End Ledger.

(** ** The payout *)

Section Payout.
Local Open Scope Q_scope.

(** C8.  [finalize_payout] is [round(min(total_approved, max_benefit), 2)]
    with an absent [max_benefit] read as 0; a negative [max_benefit] caps
    the payout at its own rounding, which is at most 0; and
    [finalize_payout(1200, 1000) = 1000],
    [finalize_payout(800, 1000) = 800]. *)
Theorem finalize_payout_clips (total_approved : Q) (max_benefit : option Q) :
  Rules.finalize_payout total_approved max_benefit
  = round2 (Qmin total_approved (default 0 max_benefit))
  /\ (forall q, q < 0 ->
        Rules.finalize_payout total_approved (Some q) <= round2 q
        /\ round2 q <= 0
        /\ (q <= total_approved ->
            Rules.finalize_payout total_approved (Some q) = round2 q))
  /\ Rules.finalize_payout 1200 (Some 1000) = 1000
  /\ Rules.finalize_payout 800 (Some 1000) = 800
  /\ Rules.finalize_payout 100 (Some (-50)) = -50.
Proof.
  assert (forall mb, Rules.or_zero mb == default 0 mb) as Hz.
  { intros [q|]; simpl; [|reflexivity].
    destruct (Qeq_bool q 0) eqn:E; [|reflexivity].
    apply Qeq_bool_iff in E. by rewrite E. }
  split_and!; try reflexivity.
  - unfold Rules.finalize_payout. apply round2_comp.
    rewrite py_min_Qmin. pose proof (Hz max_benefit).
    destruct max_benefit; simpl in *; minmax_lra.
  - intros q Hq. pose proof (Hz (Some q)) as Hq0. simpl default in Hq0.
    unfold Rules.finalize_payout. split_and!.
    + apply round2_mono. minmax_lra.
    + change 0 with (round2 0). apply round2_mono. lra.
    + intros Hle. apply round2_comp. minmax_lra.
Qed.

End Payout.


(** ** Closed instances *)

Section Instances.
Import Examples.
Local Open Scope Q_scope.

Local Abbreviation apply_rules :=
  (Rules.apply_policy_rules Decimal.float_of_str Decimal.str_of).
Local Abbreviation process_one :=
  (Rules.process_charge Decimal.float_of_str Decimal.str_of).
Local Abbreviation normalized_as :=
  (Rules.normalized Decimal.float_of_str Decimal.str_of).


(** Against C2 as first stated: a rekey charge of 0.006 is approved in
    full and [total_approved] is 0.01, above the sum of the approved
    amounts. *)
Lemma total_approved_exceeds_sum :
  apply_rules [rekey_fraction] 1000
  = Ok ([(VStr "Rekey – lock", 6 # 1000, "Move-out rekey")], [], 1 # 100)
  /\ sum_amounts [(VStr "Rekey – lock", 6 # 1000, "Move-out rekey")]
     < 1 # 100.
Proof. split; [by vm_compute | by vm_compute]. Qed.

(** The same charge: 0.01 is the rounding of 0.006. *)
Lemma total_approved_rounds_witness :
  apply_rules [rekey_fraction] 1000
  = Ok ([(VStr "Rekey – lock", 6 # 1000, "Move-out rekey")], [], 1 # 100)
  /\ 1 # 100
     = round2 (sum_amounts
                 [(VStr "Rekey – lock", 6 # 1000, "Move-out rekey")]).
Proof.
  assert (apply_rules [rekey_fraction] 1000
          = Ok ([(VStr "Rekey – lock", 6 # 1000, "Move-out rekey")], [],
                1 # 100)) as H by (by vm_compute).
  split; [exact H|].
  exact (proj1 (total_approved_rounds Decimal.float_of_str Decimal.str_of
                  [rekey_fraction] 1000 _ _ _ H)).
Defined.

(** Against C3 as first stated: the amount "N/A" is not a number and the
    call raises [ValueError]. *)
Lemma non_numeric_amount_raises :
  rekey_text_amount !! "amount" = Some (VStr "N/A")
  /\ Decimal.float_of_str "N/A" = None
  /\ apply_rules [rekey_text_amount] 1000 = Raise ValueError.
Proof. split_and!; by vm_compute. Qed.

(** A rekey charge without an amount, then a landscaping charge: the
    amount is 0 and the call returns. *)
Lemma amount_coercion_witness :
  Forall (fun c => Rules.well_formed Decimal.float_of_str c = true)
    [rekey_no_amount; mow]
  /\ Rules.charge_amt Decimal.float_of_str rekey_no_amount = Ok 0
  /\ exists r, apply_rules [rekey_no_amount; mow] 1000 = Ok r.
Proof.
  assert (Forall (fun c => Rules.well_formed Decimal.float_of_str c = true)
            [rekey_no_amount; mow]) as Hall
    by (repeat constructor; by vm_compute).
  destruct (amount_coercion Decimal.float_of_str Decimal.str_of
              [rekey_no_amount; mow] 1000) as (Hzero & Hok & _).
  split_and!; [exact Hall | apply Hzero; by vm_compute | exact (Hok Hall)].
Defined.


(** An accelerated lease break of 2500 against a monthly rent of 1000:
    approved in full, [rent_used] as it was. *)
Lemma lease_break_leaves_rent_cap_witness :
  normalized_as early_exit
  = Some ("lease_break", VStr "early exit", 2500, EmptyString)
  /\ exists st',
       process_one 1000 Rules.init early_exit = Ok st'
       /\ Rules.rent_used st' = Rules.rent_used Rules.init
       /\ Rules.approved st'
          = [(VStr "Lease Break Fee (Accelerated) – early exit", 2500,
              "Exception: accelerated move-out")].
Proof.
  assert (normalized_as early_exit
          = Some ("lease_break", VStr "early exit", 2500, EmptyString))
    as Hn by (by vm_compute).
  split; [exact Hn|].
  destruct (proj1 (lease_break_leaves_rent_cap Decimal.float_of_str
                     Decimal.str_of 1000)
              Rules.init early_exit _ _ _ _ Hn eq_refl)
    as (st' & Hp & Hr & _ & Hacc).
  exists st'. split_and!; [exact Hp | exact Hr |].
  exact (proj1 (Hacc eq_refl)).
Defined.

(** A relisting fee of 1500 against a monthly rent of 0: an approved
    tuple of amount 0. *)
Lemma lease_break_cap_unfloored_witness :
  normalized_as relisting
  = Some ("relisting_fee", VStr "new listing", 1500, EmptyString)
  /\ exists st',
       process_one 0 Rules.init relisting = Ok st'
       /\ Rules.approved st'
          = [(VStr "Lease Break Fee – new listing", py_min 1500 0,
              "Capped at one month rent")]
       /\ py_min 1500 0 <= 0.
Proof.
  assert (normalized_as relisting
          = Some ("relisting_fee", VStr "new listing", 1500, EmptyString))
    as Hn by (by vm_compute).
  split; [exact Hn|].
  destruct (proj1 (lease_break_cap_unfloored Decimal.float_of_str
                     Decimal.str_of 0 Rules.init relisting _ _ _ _ Hn)
              eq_refl eq_refl)
    as (st' & Hp & Hap & _ & Hle).
  exists st'. split_and!; [exact Hp | exact Hap |].
  apply Hle. lra.
Defined.

(** The end-to-end example of the specification. *)
Example carpet_stain :
  apply_rules
    [charge [("category", VStr "cleaning");
             ("description", VStr "carpet stain"); ("amount", VNum 300);
             ("status", VStr "unpaid"); ("wear", VNone)]] 1000
  = Ok ([(VStr "Cleaning – carpet stain", 300,
          "Beyond normal wear and tear")], [], 300).
Proof. by vm_compute. Qed.

(** 700 of rent, a relisting fee, an accelerated lease break, 700 of rent
    again, against a monthly rent of 1000: the second rent charge is capped
    at the 300 the first one left. *)
Example rent_and_lease_break :
  apply_rules [july_rent; relisting; early_exit; august_rent] 1000
  = Ok ([(VStr "Unpaid Rent – July", 700, "Capped at one month rent");
         (VStr "Lease Break Fee – new listing", 1000,
          "Capped at one month rent");
         (VStr "Lease Break Fee (Accelerated) – early exit", 2500,
          "Exception: accelerated move-out");
         (VStr "Unpaid Rent – August", 300, "Capped at one month rent")],
        [(VStr "new listing", 500, "Over one month rent");
         (VStr "August", 400, "Over one month rent")],
        4500).
Proof. by vm_compute. Qed.

(** The gate on a complete file. *)
Example gate_complete :
  (Rules.validate_gate all_documents paid_ledger).1 = true
  /\ (Rules.validate_gate all_documents paid_ledger).2
     !! "Missing documents" = Some (VList []).
Proof. split; by vm_compute. Qed.

(** The gate on a file without its addendum and its ledger. *)
Example gate_incomplete :
  (Rules.validate_gate
     (<["notification_to_tenant" := true]>
        (<["lease_agreement" := true]> ∅)) paid_ledger).2
  !! "Missing documents"
  = Some (VList [VStr "lease_addendum"; VStr "tenant_ledger"]).
Proof. by vm_compute. Qed.

End Instances.

(** * Further properties *)

(** As [minmax_lra], with [Qmax]. *)
Ltac name_max :=
  repeat match goal with
  | |- context [Qmax ?a ?b] =>
      pose proof (Q.max_spec a b); generalize dependent (Qmax a b); intros
  | _ : context [Qmax ?a ?b] |- _ =>
      pose proof (Q.max_spec a b); generalize dependent (Qmax a b); intros
  end.

Ltac max_lra := name_max; minmax_lra.

(** Case analysis on a step that returned: every test of the body is
    decided and the state is the one of the branch. *)
Ltac branch H :=
  repeat (cbv [mret result_ret mbind result_bind] in H;
          match type of H with
          | context [if ?b then _ else _] => destruct b eqn:?
          | context [Rules._looks_beyond_wear ?d] =>
              destruct (Rules._looks_beyond_wear d)
          end);
  cbv [mret result_ret mbind result_bind] in H;
  try discriminate; simplify_eq.

Ltac q_tests :=
  repeat match goal with
  | H : Qltb _ _ = true |- _ => apply Qltb_lt in H
  | H : Qltb _ _ = false |- _ => apply Qltb_ge in H
  end.

Section Pass.
Import Rules.
Variable float_of_str : string -> option Q.
Variable str_of : pyval -> string.
Local Open Scope Q_scope.

Local Abbreviation process := (process_charge float_of_str str_of).
Local Abbreviation norm := (normalized float_of_str str_of).
Local Abbreviation disp := (dispatch str_of).
Local Abbreviation runp := (run float_of_str str_of).
Local Abbreviation apply := (apply_policy_rules float_of_str str_of).

Ltac effect :=
  eexists _, _; unfold pass_effect;
  cbn [approved excluded landscaping_used rent_used approve exclude
       add_landscaping add_rent];
  split_and!;
  [ first [reflexivity | symmetry; apply app_nil_r]
  | first [reflexivity | symmetry; apply app_nil_r]
  | .. ];
  unfold positive, with_reason, sum_amounts, entry_amount, entry_reason;
  cbn;
  repeat match goal with
  | |- context [String.eqb ?a ?b] =>
      let v := eval vm_compute in (String.eqb a b) in
      change (String.eqb a b) with v
  end;
  cbn; q_tests;
  try lia; try (repeat constructor; cbn; minmax_lra); try minmax_lra.

Lemma dispatch_effect rent c cat desc amt wear st st' :
  disp rent c cat desc amt wear st = Ok st' ->
  exists na ne, pass_effect 1 amt st st' na ne.
Proof.
  unfold dispatch. intros H. branch H; effect.
Qed.

Lemma process_effect rent c st st' :
  process rent st c = Ok st' ->
  exists amt,
    charge_amt float_of_str c = Ok amt
    /\ exists na ne, pass_effect 1 amt st st' na ne.
Proof.
  unfold process_charge. intros H.
  destruct (include_only_unpaid c) as [[]|]; try discriminate;
    cbn in H.
  - destruct (charge_cat c) as [cat|]; try discriminate; cbn in H.
    destruct (charge_amt float_of_str c) as [amt|]; try discriminate.
    cbn in H.
    destruct (charge_wear c) as [wear|]; try discriminate; cbn in H.
    exists amt. split; [done|].
    destruct (PyStr.str_in cat HARD_EXCLUSIONS).
    { branch H. effect. }
    destruct (PyStr.str_in cat ["cleaning"; "normal_wear"]
              && (wear =? "normal")%string).
    { branch H. effect. }
    apply (dispatch_effect _ _ _ _ _ _ _ _ H).
  - destruct (charge_amt float_of_str c) as [amt|]; try discriminate.
    cbn in H. branch H. exists amt. split; [done|]. effect.
Qed.

Lemma with_reason_app r l1 l2 :
  with_reason r (l1 ++ l2) = (with_reason r l1 ++ with_reason r l2)%list.
Proof. unfold with_reason. apply List.filter_app. Qed.

Lemma pass_effect_nil st : pass_effect 0 0 st st [] [].
Proof.
  unfold pass_effect. rewrite !app_nil_r. cbn.
  split_and!; try done; try lra. constructor.
Qed.

Lemma pass_effect_seq n1 n2 a1 a2 st st1 st2 na1 ne1 na2 ne2 :
  pass_effect n1 a1 st st1 na1 ne1 ->
  pass_effect n2 a2 st1 st2 na2 ne2 ->
  pass_effect (n1 + n2) (a1 + a2) st st2 (na1 ++ na2) (ne1 ++ ne2).
Proof.
  unfold pass_effect.
  intros (Ha1 & He1 & Hs1 & Hla1 & Hle1 & Hl1 & Hr1 & Hp1 & Hc1)
         (Ha2 & He2 & Hs2 & Hla2 & Hle2 & Hl2 & Hr2 & Hp2 & Hc2).
  rewrite !length_app, !with_reason_app, !sum_amounts_app.
  split_and!; try lia; try lra; try tauto.
  - by rewrite Ha2, Ha1, app_assoc.
  - by rewrite He2, He1, app_assoc.
  - by apply Forall_app.
Qed.

Lemma run_effect rent cs : forall st st',
  runp rent st cs = Ok st' ->
  exists amts na ne,
    amounts_read float_of_str cs amts
    /\ pass_effect (length cs) (Qsum amts) st st' na ne.
Proof.
  induction cs as [|c cs IH]; intros st st' H; cbn in H.
  - simplify_eq. exists [], [], []. split; [constructor|].
    apply pass_effect_nil.
  - apply bind_Ok in H as (st1 & Hp & Hrun).
    destruct (process_effect _ _ _ _ Hp) as (amt & Ha & na1 & ne1 & He1).
    destruct (IH _ _ Hrun) as (amts & na2 & ne2 & Hread & He2).
    exists (amt :: amts), (na1 ++ na2)%list, (ne1 ++ ne2)%list.
    split; [by constructor|].
    apply (pass_effect_seq 1 (length cs) amt (Qsum amts) _ _ _ _ _ _ _
             He1 He2).
Qed.


Lemma apply_Ok cs rent a e t :
  apply cs rent = Ok (a, e, t) ->
  exists st, runp rent init cs = Ok st /\ a = approved st /\ e = excluded st.
Proof.
  unfold apply_policy_rules. intros H.
  apply bind_Ok in H as (st & Hrun & H).
  cbv [mret result_ret] in H. simplify_eq. eauto.
Qed.

Lemma run_app rent cs1 cs2 : forall st,
  runp rent st (cs1 ++ cs2)
  = runp rent st cs1 ≫= fun st1 => runp rent st1 cs2.
Proof.
  induction cs1 as [|c cs1 IH]; intros st; cbn; [done|].
  destruct (process rent st c) as [st1|]; cbn; [apply IH | done].
Qed.


(** X2.  One decision per charge, split at most once.  Whenever
    [apply_policy_rules] returns, a charge has put at most one tuple in
    each list and at least one in all. *)
Theorem tuples_per_charge (cs : list (gmap string pyval)) (monthly_rent : Q)
    (appr excl : list entry) (total_approved : Q) :
  apply cs monthly_rent = Ok (appr, excl, total_approved) ->
  (length appr <= length cs)%nat
  /\ (length excl <= length cs)%nat
  /\ (length cs <= length appr + length excl)%nat.
Proof.
  intros (st & Hrun & -> & ->)%apply_Ok.
  destruct (run_effect _ _ _ _ Hrun)
    as (amts & na & ne & _ & Ha & He & _ & H1 & H2 & H3 & _).
  cbn in Ha, He. by subst na ne.
Qed.

(** X3.  The landscaping cap holds on every list.  Whatever the charges,
    their order and their amounts, the approved tuples with reason
    "Capped at $500" have positive amounts that sum to 500 at most. *)
Theorem cap_on_every_list (cs : list (gmap string pyval))
    (monthly_rent : Q) (appr excl : list entry) (total_approved : Q) :
  apply cs monthly_rent = Ok (appr, excl, total_approved) ->
  positive (with_reason "Capped at $500" appr)
  /\ sum_amounts (with_reason "Capped at $500" appr) <= 500.
Proof.
  intros (st & Hrun & -> & ->)%apply_Ok.
  destruct (run_effect _ _ _ _ Hrun)
    as (amts & na & ne & _ & Ha & _ & _ & _ & _ & _ & Hr & Hp & Hc).
  cbn in Ha, Hr, Hc. subst na. split; [done|].
  assert (0 <= landscaping_used st <= 500) by (apply Hc; lra). lra.
Qed.

(** X4.  Later charges do not revise earlier decisions.  If the call
    returns on a list, it returns on every prefix of it, and the approved
    and excluded tuples of the prefix open the lists of the whole. *)
Theorem decisions_are_final (cs1 cs2 : list (gmap string pyval))
    (monthly_rent : Q) (appr excl : list entry) (total_approved : Q) :
  apply (cs1 ++ cs2) monthly_rent = Ok (appr, excl, total_approved) ->
  exists appr1 excl1 total1,
    apply cs1 monthly_rent = Ok (appr1, excl1, total1)
    /\ appr1 `prefix_of` appr /\ excl1 `prefix_of` excl.
Proof.
  intros (st & Hrun & -> & ->)%apply_Ok.
  rewrite run_app in Hrun. apply bind_Ok in Hrun as (st1 & Hrun1 & Hrun2).
  destruct (run_effect _ _ _ _ Hrun2)
    as (amts & na & ne & _ & Ha & He & _).
  exists (approved st1), (excluded st1), (round2 (sum_amounts (approved st1))).
  split_and!.
  - unfold apply_policy_rules. by rewrite Hrun1.
  - exists na. done.
  - exists ne. done.
Qed.

(** X5.  Paid charges.  A list of charges none of which is unpaid or
    overdue (a missing status counts) is excluded whole: nothing is
    approved, the total is 0, and each charge gives one tuple, its
    description field as found and its amount with reason
    "Paid/Not overdue"; category and wear are not read. *)
Theorem paid_charges_excluded (cs : list (gmap string pyval))
    (amts : list Q) (monthly_rent : Q) :
  Forall (fun c => include_only_unpaid c = Ok false) cs ->
  amounts_read float_of_str cs amts ->
  apply cs monthly_rent = Ok ([], zip_with paid_entry cs amts, 0).
Proof.
  intros Hpaid Hread. unfold apply_policy_rules.
  assert (forall st,
            runp monthly_rent st cs
            = Ok (Acc (approved st)
                      (excluded st ++ zip_with paid_entry cs amts)
                      (landscaping_used st) (rent_used st))) as Hrun.
  { induction Hread as [|c a cs amts Hc Hread IH]; intros st.
    - cbn. rewrite app_nil_r. by destruct st.
    - apply Forall_cons in Hpaid as [Hp Hpaid]. cbn.
      unfold process_charge. rewrite Hp, Hc. cbn.
      rewrite (IH Hpaid). cbn. by rewrite <- app_assoc. }
  rewrite Hrun. reflexivity.
Qed.

Lemma run_rent rent cs : forall st,
  Forall (rent_charge float_of_str str_of) cs ->
  0 <= rent_used st ->
  exists st' na ne,
    runp rent st cs = Ok st'
    /\ approved st' = (approved st ++ na)%list
    /\ excluded st' = (excluded st ++ ne)%list
    /\ landscaping_used st' = landscaping_used st
    /\ rent_used st'
       == Qmax (rent_used st)
               (Qmin (rent_used st + total_dispatched float_of_str str_of cs)
                     rent)
    /\ reasons "Capped at one month rent" na
    /\ reasons "Over one month rent" ne
    /\ sum_amounts na == rent_used st' - rent_used st
    /\ sum_amounts na + sum_amounts ne
       == total_dispatched float_of_str str_of cs.
Proof.
  induction cs as [|c cs IH]; intros st Hall Hu.
  - exists st, [], []. cbn. rewrite !app_nil_r.
    split_and!; try done; try (by constructor);
      unfold sum_amounts; cbn; max_lra.
  - apply Forall_cons in Hall as [(desc & amt & wear & Hn & Ha) Hall].
    destruct (process_unpaid_rent float_of_str str_of rent st c desc amt
                wear Hn)
      as (st1 & na1 & ne1 & Hp & Hap1 & Hex1 & Hl1 & Hr1 & Hra1 & Hre1
          & _ & Hsa1 & Hse1 & _).
    cbv zeta in Hr1, Hsa1, Hse1.
    assert (rent_used st1
            == rent_used st
               + py_max 0 (py_min amt (rent - rent_used st))) as Hr1'.
    { rewrite Hr1.
      destruct (Qltb_reflect 0 (py_max 0 (py_min amt (rent - rent_used st))));
        [reflexivity | minmax_lra]. }
    clear Hr1.
    assert (0 <= total_dispatched float_of_str str_of cs) as HS.
    { clear -Hall. induction Hall as [|c cs (d & a & w & Hn & Ha) _ IH];
        simpl; [lra|]. unfold dispatched_amount. rewrite Hn. lra. }
    assert (0 <= rent_used st1) as Hu1 by minmax_lra.
    destruct (IH st1 Hall Hu1)
      as (st' & na2 & ne2 & Hrun & Hap2 & Hex2 & Hl2 & Hr2 & Hra2 & Hre2
          & Hsa2 & Hse2).
    exists st', (na1 ++ na2)%list, (ne1 ++ ne2)%list.
    simpl. rewrite Hp. simpl.
    assert (dispatched_amount float_of_str str_of c = amt) as ->
      by (unfold dispatched_amount; by rewrite Hn).
    split_and!; try done.
    + by rewrite Hap2, Hap1, app_assoc.
    + by rewrite Hex2, Hex1, app_assoc.
    + congruence.
    + max_lra.
    + by apply Forall_app.
    + by apply Forall_app.
    + rewrite sum_amounts_app. lra.
    + rewrite !sum_amounts_app. lra.
Qed.


(** X7.  A rekey synonym wins.  An unpaid or overdue charge that passes
    the exclusions of lines 88-93 and whose category and description, put
    together and lower-cased, contain "rekey", "locksmith", "lock change"
    or "change locks" is approved in full with reason "Move-out rekey",
    whatever its category, its wear and the caps already used, and uses
    none of the two caps. *)
Theorem rekey_synonym_wins (monthly_rent : Q) (st : acc)
    (c : gmap string pyval) (cat : string) (amt : Q) (wear : string) :
  include_only_unpaid c = Ok true ->
  charge_cat c = Ok cat ->
  charge_amt float_of_str c = Ok amt ->
  charge_wear c = Ok wear ->
  PyStr.str_in cat HARD_EXCLUSIONS = false ->
  PyStr.str_in cat ["cleaning"; "normal_wear"]
  && (wear =? "normal")%string = false ->
  PyStr.any_in REKEY_SYNONYMS
    (PyStr.lower (cat ++ " " ++ fmt str_of (charge_desc c))) = true ->
  process monthly_rent st c
  = Ok (Acc (approved st
             ++ [(label str_of "Rekey" (charge_desc c), amt,
                  "Move-out rekey")])
            (excluded st) (landscaping_used st) (rent_used st)).
Proof.
  intros Hs Hc Ha Hw Hh Hn Hk. unfold process_charge.
  rewrite Hs, Hc, Ha, Hw. cbn. rewrite Hh, Hn.
  unfold normalize_category, _is_rekey. cbv zeta. rewrite Hk.
  reflexivity.
Qed.

End Pass.

Section Reasons.
Import Rules.
Variable float_of_str : string -> option Q.
Variable str_of : pyval -> string.
Local Open Scope Q_scope.

Local Abbreviation process := (process_charge float_of_str str_of).
Local Abbreviation runp := (run float_of_str str_of).
Local Abbreviation paid := (with_reason "Paid/Not overdue").

(** The tuples a step appends, and those among them with the reason
    "Paid/Not overdue". *)
Ltac appended :=
  eexists _, _;
  cbn [approved excluded landscaping_used rent_used approve exclude
       add_landscaping add_rent];
  split_and!;
  [ first [reflexivity | symmetry; apply app_nil_r]
  | first [reflexivity | symmetry; apply app_nil_r]
  | .. ];
  unfold with_reason, entry_reason; cbn;
  repeat match goal with
  | |- context [String.eqb ?a ?b] =>
      let v := eval vm_compute in (String.eqb a b) in
      change (String.eqb a b) with v
  end;
  reflexivity.

Lemma dispatch_paid rent c cat desc amt wear st st' :
  dispatch str_of rent c cat desc amt wear st = Ok st' ->
  exists na ne,
    approved st' = (approved st ++ na)%list
    /\ excluded st' = (excluded st ++ ne)%list
    /\ paid na = [] /\ paid ne = [].
Proof.
  unfold dispatch. intros H. branch H; appended.
Qed.

Lemma process_paid rent c st st' :
  process rent st c = Ok st' ->
  exists na ne,
    approved st' = (approved st ++ na)%list
    /\ excluded st' = (excluded st ++ ne)%list
    /\ paid na = []
    /\ length (paid ne) = length (List.filter settled [c]).
Proof.
  unfold process_charge, settled. cbn [List.filter]. intros H.
  destruct (include_only_unpaid c) as [[]|]; try discriminate;
    cbn in H.
  - destruct (charge_cat c) as [cat|]; try discriminate; cbn in H.
    destruct (charge_amt float_of_str c) as [amt|]; try discriminate.
    cbn in H.
    destruct (charge_wear c) as [wear|]; try discriminate; cbn in H.
    destruct (PyStr.str_in cat HARD_EXCLUSIONS).
    { branch H. appended. }
    destruct (PyStr.str_in cat ["cleaning"; "normal_wear"]
              && (wear =? "normal")%string).
    { branch H. appended. }
    destruct (dispatch_paid _ _ _ _ _ _ _ _ H) as (na & ne & ? & ? & ? & E).
    exists na, ne. by rewrite E.
  - destruct (charge_amt float_of_str c) as [amt|]; try discriminate.
    cbn in H. branch H. appended.
Qed.

Lemma run_paid rent cs : forall st st',
  runp rent st cs = Ok st' ->
  exists na ne,
    approved st' = (approved st ++ na)%list
    /\ excluded st' = (excluded st ++ ne)%list
    /\ paid na = []
    /\ length (paid ne) = length (List.filter settled cs).
Proof.
  induction cs as [|c cs IH]; intros st st' H; cbn [run] in H.
  - cbv [mret result_ret] in H. simplify_eq. exists [], [].
    by rewrite !app_nil_r.
  - apply bind_Ok in H as (st1 & Hp & Hrun).
    destruct (process_paid _ _ _ _ Hp) as (na1 & ne1 & Ha1 & He1 & Hp1 & Hl1).
    destruct (IH _ _ Hrun) as (na2 & ne2 & Ha2 & He2 & Hp2 & Hl2).
    exists (na1 ++ na2)%list, (ne1 ++ ne2)%list.
    rewrite !with_reason_app, Hp1, Hp2, length_app, Hl1, Hl2.
    split_and!; try done.
    + by rewrite Ha2, Ha1, app_assoc.
    + by rewrite He2, He1, app_assoc.
    + cbn [List.filter]. by destruct (settled c).
Qed.

(** X8.  Who is excluded as paid.  Whenever [apply_policy_rules]
    returns, no approved tuple has the reason "Paid/Not overdue", and the
    excluded tuples with that reason are as many as the charges whose
    status is not unpaid or overdue. *)
Theorem paid_reason_marks_paid (cs : list (gmap string pyval))
    (monthly_rent : Q) (appr excl : list entry) (total_approved : Q) :
  apply_policy_rules float_of_str str_of cs monthly_rent
  = Ok (appr, excl, total_approved) ->
  with_reason "Paid/Not overdue" appr = []
  /\ length (with_reason "Paid/Not overdue" excl)
     = length (List.filter settled cs).
Proof.
  intros (st & Hrun & -> & ->)%apply_Ok.
  destruct (run_paid _ _ _ _ Hrun) as (na & ne & Ha & He & Hp & Hl).
  cbn in Ha, He. by subst na ne.
Qed.

End Reasons.

(** ** The ledger text *)

Section LedgerText.
Import PyStr LedgerReview LedgerSpec.

Lemma digit_not_dollar c : is_digit c = true -> c <> "$"%char.
Proof.
  destruct c as [[] [] [] [] [] [] [] []]; try discriminate; done.
Qed.

Lemma digit_not_space c : is_digit c = true -> is_space c = false.
Proof.
  destruct c as [[] [] [] [] [] [] [] []]; try discriminate; done.
Qed.

Lemma take_digits_head n c s :
  is_digit c = true ->
  exists d r, take_digits (S n) (String c s) = (String c d, r).
Proof.
  intros Hc. cbn. rewrite Hc. destruct (take_digits n s). eauto.
Qed.

Lemma take_digits_nonempty n s d r :
  take_digits n s = (d, r) -> is_empty d = false ->
  exists c s' d', s = String c s' /\ d = String c d' /\ is_digit c = true.
Proof.
  destruct n as [|n]; [cbn; intros [= <- <-] Hd; discriminate Hd|].
  destruct s as [|c s']; [cbn; intros [= <- <-] Hd; discriminate Hd|].
  cbn. destruct (is_digit c) eqn:E; [|intros [= <- <-] Hd; discriminate Hd].
  destruct (take_digits n s') as [d' r']. intros [= <- <-] _.
  by exists c, s', d'.
Qed.

Lemma has_digit_app a b : has_digit (a ++ b) = has_digit a || has_digit b.
Proof.
  induction a as [|c a IH]; [done|].
  rewrite str_app_cons. cbn. by rewrite IH, orb_assoc.
Qed.

Lemma money_at_digit c s :
  is_digit c = true -> exists m, money_at (String c s) = Some m.
Proof.
  intros Hc. unfold money_at.
  destruct (ascii_dec c "$") as [->|Hne]; [discriminate|].
  assert ((match String c s with
           | String "$"%char r => ("$", r)
           | _ => (EmptyString, String c s)
           end) = (EmptyString, String c s)) as ->.
  { destruct c as [[] [] [] [] [] [] [] []]; try done. }
  rewrite (digit_not_space _ Hc).
  destruct (take_digits_head 2 c s Hc) as (d & r & ->). cbn.
  destruct (take_groups r). eauto.
Qed.

Lemma money_at_has_digit s m :
  money_at s = Some m -> has_digit s = true /\ has_digit m = true.
Proof.
  unfold money_at.
  set (p1r1 := match s with
               | String "$"%char r => ("$", r)
               | _ => (EmptyString, s)
               end).
  assert (s = p1r1.1 ++ p1r1.2) as Hs1.
  { subst p1r1. destruct s as [|c r]; [done|].
    destruct c as [[] [] [] [] [] [] [] []]; done. }
  destruct p1r1 as [p1 r1]. cbn in Hs1.
  set (p2r2 := match r1 with
               | String c r =>
                   if is_space c then (String c EmptyString, r)
                   else (EmptyString, r1)
               | EmptyString => (EmptyString, r1)
               end).
  assert (r1 = p2r2.1 ++ p2r2.2) as Hs2.
  { subst p2r2. destruct r1 as [|c r]; [done|]. by destruct (is_space c). }
  destruct p2r2 as [p2 r2]. cbn in Hs2.
  destruct (take_digits 3 r2) as [d r3] eqn:Ed.
  destruct (is_empty d) eqn:Ee; [done|].
  destruct (take_digits_nonempty _ _ _ _ Ed Ee) as (c & s' & d' & -> & -> & Hc).
  destruct (take_groups r3) as [g r4]. intros [= <-].
  subst s r1. rewrite !has_digit_app. cbn. rewrite Hc.
  by rewrite !orb_true_r.
Qed.

Lemma search_money_some line : forall m,
  _search_money line = Some m ->
  has_digit m = true /\ has_digit line = true.
Proof.
  induction line as [|c s IH]; intros m; cbn [_search_money].
  - destruct (money_at "") eqn:E; [|done].
    intros [= <-]. by apply money_at_has_digit in E as [? ?].
  - destruct (money_at (String c s)) eqn:E.
    + intros [= <-]. by apply money_at_has_digit in E as [? ?].
    + intros H. destruct (IH _ H) as [Hm Hs]. split; [done|].
      cbn. by rewrite Hs, orb_true_r.
Qed.

Lemma search_money_digit line :
  has_digit line = true -> exists m, _search_money line = Some m.
Proof.
  induction line as [|c s IH]; [done|]. cbn [has_digit _search_money].
  intros H. destruct (money_at (String c s)) eqn:E; [eauto|].
  apply orb_true_iff in H as [Hc|Hs]; [|by apply IH].
  destruct (money_at_digit c s Hc) as [m Hm]. congruence.
Qed.

(** X9.  The currency pattern sees any digit.  [_MONEY] matches in a line
    exactly when the line has a digit, and the text it returns has one: a
    date or a unit number corroborates a hint as an amount does. *)
Theorem money_is_any_digit (line : string) :
  has_money line = has_digit line
  /\ (forall m, _search_money line = Some m -> has_digit m = true).
Proof.
  split; [|intros m Hm; by apply (search_money_some line)].
  unfold has_money. destruct (_search_money line) as [m|] eqn:E.
  - destruct (search_money_some _ _ E) as [Hm ->]. by destruct m.
  - destruct (has_digit line) eqn:Ed; [|done].
    destruct (search_money_digit _ Ed) as [m Hm]. congruence.
Qed.

Lemma all_space_collapse b s : all_space (collapse_ws b s) = all_space s.
Proof.
  revert b. induction s as [|c s IH]; intros b; [done|]. cbn.
  destruct (is_space c) eqn:E; [|cbn; by rewrite E].
  destruct b; cbn; by rewrite IH.
Qed.

Lemma strip_empty s : strip s = "" -> all_space s = true.
Proof.
  intros E. destruct (strip_split s) as (w1 & w2 & Hs & Hw1 & Hw2).
  rewrite Hs, E, !all_space_app, Hw1, Hw2. done.
Qed.

Lemma all_space_lstrip s : all_space s = true -> lstrip s = "".
Proof.
  induction s as [|c s IH]; [done|]. cbn.
  intros [Hc Hs]%andb_true_iff. rewrite Hc. auto.
Qed.

Lemma all_space_strip s : all_space s = true -> strip s = "".
Proof. intros H. unfold strip. by rewrite (all_space_lstrip _ H). Qed.

Lemma ledger_lines_nonblank text line :
  line ∈ ledger_lines text -> all_space line = false.
Proof.
  unfold ledger_lines.
  intros (raw & -> & Hin)%list_elem_of_fmap.
  apply list_elem_of_In, filter_In in Hin as [_ Hne].
  destruct (all_space (strip raw)) eqn:E; [|done].
  destruct (strip_split raw) as (w1 & w2 & Hs & Hw1 & Hw2).
  assert (all_space raw = true) as Hraw
    by (rewrite Hs, !all_space_app, Hw1, Hw2, E; done).
  by rewrite (all_space_strip _ Hraw) in Hne.
Qed.

Lemma normalize_nonblank s :
  all_space s = false -> _normalize_text s <> "".
Proof.
  intros Hs E. apply strip_empty in E.
  rewrite all_space_collapse in E. congruence.
Qed.

Lemma evidence_line_found needles lines line :
  evidence_line needles lines = Some line ->
  line ∈ lines /\ mentions needles line = true.
Proof.
  unfold evidence_line.
  destruct (List.find (corroborated needles) lines) as [l|] eqn:E.
  - intros [= <-]. apply find_some in E as [Hin Hc].
    split; [by apply list_elem_of_In | by apply corroborated_mentions].
  - intros H. apply find_some in H as [Hin Hc].
    split; [by apply list_elem_of_In | done].
Qed.

(** X10.  Evidence goes with the flag.  For rent, and likewise for SDI,
    the evidence string is empty exactly when the flag is false; when the
    flag is true it is the normalized text of one of the non-blank lines,
    a line that contains a hint phrase. *)
Theorem evidence_iff_flag (ledger_text lease_start_date : option string) :
  let lines := ledger_lines (default EmptyString ledger_text) in
  let d := extract_ledger_flags ledger_text lease_start_date in
  (exists b ev,
     d !! "first_month_rent_paid" = Some (VBool b)
     /\ d !! "first_month_rent_evidence" = Some (VStr ev)
     /\ (b = true <-> ev <> "")
     /\ (b = true ->
         exists line, line ∈ lines /\ _line_matches line RENT_HINTS = true
                      /\ ev = _normalize_text line))
  /\ (exists b ev,
        d !! "first_month_sdi_premium_paid" = Some (VBool b)
        /\ d !! "first_month_sdi_premium_paid_evidence" = Some (VStr ev)
        /\ (b = true <-> ev <> "")
        /\ (b = true ->
            exists line, line ∈ lines /\ _line_matches line SDI_HINTS = true
                         /\ ev = _normalize_text line)).
Proof.
  intros lines d.
  assert (forall needles,
            let r := evidence_line needles lines in
            (found r = true <-> evidence r <> "")
            /\ (found r = true ->
                exists line, line ∈ lines
                             /\ _line_matches line needles = true
                             /\ evidence r = _normalize_text line)) as Hev.
  { intros needles r. subst r.
    destruct (evidence_line needles lines) as [line|] eqn:E; cbn.
    - apply evidence_line_found in E as [Hin Hm]. split.
      + split; [|done]. intros _.
        apply normalize_nonblank. by apply (ledger_lines_nonblank _ _ Hin).
      + intros _. by exists line.
    - split; [split|]; done. }
  unfold d, extract_ledger_flags. rewrite scan_two_phase. fold lines.
  unfold flags_dict, two_phase. cbv zeta.
  cbn [rent_paid rent_ev sdi_paid sdi_ev].
  split.
  - exists (found (evidence_line RENT_HINTS lines)),
      (evidence (evidence_line RENT_HINTS lines)).
    split_and!; try apply Hev.
    + rewrite !lookup_insert_ne by done. by rewrite lookup_insert_eq.
    + rewrite !lookup_insert_ne by done. by rewrite lookup_insert_eq.
  - exists (found (evidence_line SDI_HINTS lines)),
      (evidence (evidence_line SDI_HINTS lines)).
    split_and!; try apply Hev.
    + rewrite !lookup_insert_ne by done. by rewrite lookup_insert_eq.
    + by rewrite lookup_insert_eq.
Qed.

End LedgerText.

(** ** Documents and the review *)

Section Documents.
Import LedgerReview LedgerSpec Review.

Lemma detect_lookup (input_filenames : list string)
    (k : string) (b : bool) :
  detect_documents_present input_filenames !! k = Some b
  <-> k ∈ (REQUIRED_FILES ++ OPTIONAL_FILES)%list
      /\ (b = true
          <-> exists n, n ∈ input_filenames
                        /\ PyStr.strip (PyStr.lower n) = k).
Proof.
  unfold detect_documents_present. cbv zeta.
  rewrite <- elem_of_list_to_map.
  2:{ apply (bool_decide_unpack _). by vm_compute. }
  rewrite list_elem_of_fmap. split.
  - intros (k' & [= -> ->] & Hk). split; [done|].
    rewrite bool_decide_eq_true, elem_of_list_to_set, list_elem_of_fmap.
    split; intros (n & Hn & Hin); exists n; done.
  - intros (Hk & Hb). exists k. split; [|done]. f_equal.
    apply eq_true_iff_eq. rewrite Hb.
    rewrite bool_decide_eq_true, elem_of_list_to_set, list_elem_of_fmap.
    split; intros (n & Hn & Hin); exists n; done.
Qed.

(** X11.  Documents are matched by name, whole.  The presence map has the
    four required and the two optional kinds for keys and no other; a kind
    is present exactly when one of the submitted names, lower-cased and
    trimmed, is that kind: a name that only contains it does not count. *)
Theorem documents_matched_exactly (input_filenames : list string)
    (k : string) (b : bool) :
  detect_documents_present input_filenames !! k = Some b
  <-> k ∈ (REQUIRED_FILES ++ OPTIONAL_FILES)%list
      /\ (b = true
          <-> exists n, n ∈ input_filenames
                        /\ PyStr.strip (PyStr.lower n) = k).
Proof. apply detect_lookup. Qed.

Lemma gate_details (docs : gmap string bool) (ledger : gmap string pyval) :
  let missing :=
    PyStr.sorted (List.filter (absent docs) REQ_DOCS) in
  let approved :=
    (length missing =? 0)%nat && flag ledger "first_month_rent_paid"
    && flag ledger "first_month_sdi_premium_paid" in
  let details := (validate_gate docs ledger).2 in
  (validate_gate docs ledger).1 = approved
  /\ details !! "Status"
     = Some (VStr (if approved then "Approved" else "Declined"))
  /\ details !! "Missing documents" = Some (VList (VStr <$> missing))
  /\ details !! "First Month Paid"
     = Some (VBool (flag ledger "first_month_rent_paid"))
  /\ details !! "First Month SDI Premium Paid"
     = Some (VBool (flag ledger "first_month_sdi_premium_paid")).
Proof.
  intros missing approved details.
  unfold details, approved, missing, validate_gate. cbv zeta. cbn [fst snd].
  split_and!; done.
Qed.

Lemma join_strings sep (l : list string) :
  join sep (VList (VStr <$> l)) = Some (String.concat sep l).
Proof.
  unfold join. assert (mapM as_str (VStr <$> l) = Some l) as ->; [|done].
  induction l as [|x l IH]; [done|]. cbn. by rewrite IH.
Qed.

Lemma concat_head sep c x l :
  exists r, String.concat sep (String c x :: l) = String c r.
Proof.
  destruct l as [|y l]; cbn [String.concat]; [eauto|].
  rewrite str_app_cons. eauto.
Qed.

Lemma decision_summary_gate (docs : gmap string bool)
    (ledger : gmap string pyval) :
  let approved := (validate_gate docs ledger).1 in
  let details := (validate_gate docs ledger).2 in
  exists s,
    decision_summary details = Some s
    /\ s <> "One or more approval conditions were not met."
    /\ (approved = true
        <-> s = "All required documents are present. "
                ++ "First-month rent and SDI premium were confirmed in the "
                ++ "tenant ledger.")
    /\ (approved = false ->
        exists c r, s = String c r /\ (c = "M" \/ c = "F")%char).
Proof.
  intros approved details.
  destruct (gate_details docs ledger) as (Ha & Hst & Hm & Hr & Hs).
  cbv zeta in Ha, Hst, Hm, Hr, Hs. fold details in Hst, Hm, Hr, Hs.
  fold approved in Ha.
  set (missing := PyStr.sorted (List.filter (absent docs) REQ_DOCS)) in *.
  unfold decision_summary, getitem. rewrite Hst, Hm, Hr, Hs.
  cbn [mbind option_bind].
  rewrite <- Ha.
  destruct approved eqn:Eap.
  - cbn. eexists. split_and!; [reflexivity|..]; try done.
  - cbn [eq_str String.eqb].
    change (eq_str (VStr "Declined") "Approved") with false.
    cbn iota.
    symmetry in Ha. rewrite !andb_false_iff in Ha.
    destruct missing as [|m ms] eqn:Em.
    + cbn [fmap list_fmap truthy mbind option_bind].
      destruct Ha as [[Ha|Ha]|Ha]; [done|..].
      * rewrite Ha. cbn. eexists. split_and!; [reflexivity|..]; try done.
        -- by destruct (flag ledger "first_month_sdi_premium_paid").
        -- split; [done|].
           by destruct (flag ledger "first_month_sdi_premium_paid").
        -- intros _. destruct (flag ledger "first_month_sdi_premium_paid");
             cbn; eauto.
      * rewrite Ha.
        destruct (flag ledger "first_month_rent_paid"); cbn;
          eexists; split_and!; try reflexivity; try done; eauto.
    + change (truthy (VList (VStr <$> m :: ms))) with true. cbn iota.
      rewrite join_strings. cbn [fmap option_fmap option_map mbind option_bind].
      set (r2 := if negb (truthy (VBool (flag ledger "first_month_rent_paid")))
                 then ["First-month rent not found in ledger."] else []).
      set (r3 := if negb (truthy (VBool (flag ledger
                                           "first_month_sdi_premium_paid")))
                 then ["First-month SDI premium not found in ledger."] else []).
      cbn [app].
      destruct (concat_head " " "M"
                  ("issing required file(s): " ++ String.concat ", " (m :: ms))
                  (r2 ++ r3)) as [r Hc].
      eexists. split; [reflexivity|].
      change ("Missing required file(s): " ++ String.concat ", " (m :: ms))
        with (String "M" ("issing required file(s): "
                          ++ String.concat ", " (m :: ms))).
      rewrite Hc. split_and!; try done. eauto.
Qed.

(** X12.  The generic summary is never given.  On the details of the
    gate, the summary is the sentence of approval exactly when the gate
    approves; otherwise it is made of the reasons found, of which there is
    always one, and is never "One or more approval conditions were not
    met."  No key is missing: the summary is always produced. *)
Theorem summary_names_a_reason (docs : gmap string bool)
    (ledger : gmap string pyval) :
  let approved := (validate_gate docs ledger).1 in
  let details := (validate_gate docs ledger).2 in
  exists s,
    decision_summary details = Some s
    /\ s <> "One or more approval conditions were not met."
    /\ (approved = true
        <-> s = "All required documents are present. "
                ++ "First-month rent and SDI premium were confirmed in the "
                ++ "tenant ledger.")
    /\ (approved = false ->
        exists c r, s = String c r /\ (c = "M" \/ c = "F")%char).
Proof. apply decision_summary_gate. Qed.

Lemma flag_flags_dict st :
  flag (flags_dict st) "first_month_rent_paid" = rent_paid st
  /\ flag (flags_dict st) "first_month_sdi_premium_paid" = sdi_paid st.
Proof.
  unfold flag, get, flags_dict. split.
  - rewrite !lookup_insert_ne by done. by rewrite lookup_insert_eq.
  - rewrite !lookup_insert_ne by done. by rewrite lookup_insert_eq.
Qed.

(** X13.  The review, end to end.  [review_inputs_and_format_output]
    always returns, and approves exactly when each of the four required
    kinds is the lower-cased, trimmed form of a submitted name and the
    ledger text has a non-blank line with a rent hint phrase and one with
    an SDI hint phrase. *)
Theorem review_decision (str_of : pyval -> string)
    (input_filenames : list string)
    (tenant_ledger_text tenant_ledger_pdf_bytes lease_start_date
       : option string) :
  let lines :=
    PyStr.splitlines (default EmptyString tenant_ledger_text) in
  exists approved details formatted,
    review_inputs_and_format_output str_of input_filenames
      tenant_ledger_text tenant_ledger_pdf_bytes lease_start_date
    = Some (approved, details, formatted)
    /\ (approved = true
        <-> (forall d, d ∈ REQUIRED_FILES ->
               exists n, n ∈ input_filenames
                         /\ PyStr.strip (PyStr.lower n) = d)
            /\ (exists line k,
                  line ∈ lines /\ PyStr.strip line ≠ ""
                  /\ k ∈ RENT_HINTS
                  /\ PyStr.contains k (PyStr.lower line) = true)
            /\ (exists line k,
                  line ∈ lines /\ PyStr.strip line ≠ ""
                  /\ k ∈ SDI_HINTS
                  /\ PyStr.contains k (PyStr.lower line) = true)).
Proof.
  intros lines. unfold review_inputs_and_format_output. cbv zeta.
  set (docs := detect_documents_present input_filenames).
  set (text := default EmptyString tenant_ledger_text).
  set (ledger := extract_ledger_flags (Some text) lease_start_date).
  destruct (decision_summary_gate docs ledger) as (s & Hs & _).
  destruct (gate_details docs ledger) as (Ha & _).
  destruct (gate_missing docs) as (_ & _ & Hlen).
  cbv zeta in Hs, Ha, Hlen.
  destruct (validate_gate docs ledger) as [approved details] eqn:Eg.
  cbn [fst snd] in Hs, Ha. rewrite Hs. cbn [mbind option_bind].
  exists approved, details, (format_gate_result str_of details s).
  split; [done|].
  rewrite Ha, !andb_true_iff, Hlen.
  unfold ledger.
  change (extract_ledger_flags (Some text) lease_start_date)
    with (flags_dict (scan (ledger_lines text))).
  destruct (flag_flags_dict (scan (ledger_lines text))) as [-> ->].
  rewrite scan_two_phase. unfold two_phase. cbv zeta.
  cbn [rent_paid sdi_paid]. rewrite !found_evidence_line.
  rewrite !mentions_lines by done. fold lines.
  assert ((forall d, d ∈ Rules.REQ_DOCS -> docs !! d = Some true)
          <-> (forall d, d ∈ REQUIRED_FILES ->
                 exists n, n ∈ input_filenames
                           /\ PyStr.strip (PyStr.lower n) = d)) as ->;
    [|tauto].
  split; intros H d Hd.
  - apply (detect_lookup input_filenames d true); [by apply H | done].
  - apply detect_lookup. split; [|by split; [intros _; apply H|]].
    apply elem_of_app. by left.
Qed.

End Documents.

(** ** The adjudication *)

Section Adjudication.
Import Adjudicate.
Variable float_of_str : string -> option Q.
Variable str_of : pyval -> string.
Local Open Scope Q_scope.

(** X14.  What makes a payout final.  [payout_readiness] is ready exactly
    when nothing is missing; "deposit_amount" is missing when the deposit
    is absent or 0, "move_out_date" when the date is absent, and
    "jurisdiction" when the jurisdiction, or the lease state if the
    jurisdiction is absent or empty, is absent or empty.  The missing
    fields come in that order, each once. *)
Theorem readiness_fields (payload : AdjudicateRequest) :
  let r := payout_readiness payload in
  (ready r = true <-> missing r = [])
  /\ ("deposit_amount" ∈ missing r
      <-> deposit_amount payload = None
          \/ exists q, deposit_amount payload = Some q /\ q == 0)
  /\ ("move_out_date" ∈ missing r <-> move_out_date payload = None)
  /\ ("jurisdiction" ∈ missing r
      <-> effective_jurisdiction r = None
          \/ effective_jurisdiction r = Some EmptyString)
  /\ effective_jurisdiction r
     = match jurisdiction payload with
       | Some (String c s) => Some (String c s)
       | _ => lease_state payload
       end
  /\ missing r `sublist_of` REQUIRED_FOR_FINAL.
Proof.
  intros r. subst r. unfold payout_readiness. cbv zeta.
  set (ej := str_or (jurisdiction payload) (lease_state payload)).
  assert (ej = match jurisdiction payload with
               | Some (String c s) => Some (String c s)
               | _ => lease_state payload
               end) as Hej.
  { subst ej. unfold str_or. by destruct (jurisdiction payload) as [[|]|]. }
  cbn [ready missing effective_jurisdiction].
  assert (negb (truthy (from_option VNum VNone (deposit_amount payload)))
          = true
          <-> deposit_amount payload = None
              \/ exists q, deposit_amount payload = Some q /\ q == 0) as Hd.
  { destruct (deposit_amount payload) as [q|]; cbn.
    - rewrite negb_involutive, Qeq_bool_iff. split.
      + intros H. right. by exists q.
      + by intros [|(q' & [= <-] & H)].
    - split; [by left|done]. }
  assert (negb (bool_decide (is_Some (move_out_date payload))) = true
          <-> move_out_date payload = None) as Hm.
  { destruct (move_out_date payload); cbn; split; done. }
  assert (negb (truthy (opt_str ej)) = true
          <-> ej = None \/ ej = Some EmptyString) as Hj.
  { destruct ej as [[|c s]|]; cbn; split; auto; try done.
    by intros [|]. }
  destruct (negb (truthy (from_option VNum VNone (deposit_amount payload))));
    destruct (negb (bool_decide (is_Some (move_out_date payload))));
    destruct (negb (truthy (opt_str ej))); cbn;
    rewrite <- Hd, <- Hm, <- Hj; clear Hd Hm Hj;
    split_and!;
    try exact Hej;
    try (by repeat constructor);
    try (split; [done | intros _; by repeat constructor]);
    try (split; [|done]; intros H; exfalso;
         repeat (apply elem_of_cons in H as [H|H]; [discriminate H|]);
         by apply elem_of_nil in H).
Qed.

Lemma charge_dict_well_formed (c : ChargeItem) :
  Rules.well_formed float_of_str (charge_dict c) = true.
Proof.
  unfold Rules.well_formed, charge_dict, get_none, get.
  rewrite !lookup_insert_ne by done. rewrite !lookup_insert_eq.
  repeat (rewrite lookup_insert_ne by done; rewrite ?lookup_insert_eq).
  cbn. unfold Rules.amount_ok, py_or. cbn.
  destruct (description c), (wear c); cbn;
    try destruct (PyStr.is_empty _); by destruct (Qeq_bool (amount c) 0).
Qed.

Lemma round2_idem (x : Q) : round2 (round2 x) == round2 x.
Proof.
  assert (round2 x == round_half_even (x * 100) # 100) as E
    by (unfold round2; apply Qred_correct).
  rewrite (round2_comp _ _ E), E. apply round2_cents.
Qed.

Lemma ready_missing (payload : AdjudicateRequest) :
  ready (payout_readiness payload) = true ->
  missing (payout_readiness payload) = [].
Proof.
  unfold payout_readiness. cbv zeta. cbn [ready missing].
  intros H%Nat.eqb_eq. by apply length_zero_iff_nil.
Qed.

Lemma adjudicate_cases (payload : AdjudicateRequest) :
  let ok :=
    (Rules.validate_gate (documents_dict (documents_present payload))
       (ledger_dict (ledger_checks payload))).1 in
  let rd := payout_readiness payload in
  exists r appr excl total,
    adjudicate float_of_str str_of payload = Ok r
    /\ Rules.apply_policy_rules float_of_str str_of
         (charge_dict <$> charges payload) (monthly_rent payload)
       = Ok (appr, excl, total)
    /\ final_payout_available r = ok && ready rd
    /\ Assessment_Status (template r)
       = (if ok then "Approved" else "Declined")%string
    /\ Approved_Charges (template r) = (if ok then appr else [])
    /\ Excluded_Charges (template r) = (if ok then excl else [])
    /\ Total_Approved_Charges (template r) = (if ok then total else 0)
    /\ Final_Payout_Based_on_Coverage (template r)
       = (if ok && ready rd
          then Rules.finalize_payout total (Some (max_benefit payload))
          else 0)
    /\ missing_fields r = (if ok then missing rd else [])
    /\ jurisdiction_used r
       = (if ok && ready rd then Some (effective_jurisdiction rd) else None).
Proof.
  intros ok rd.
  assert (Forall (fun c => Rules.well_formed float_of_str c = true)
            (charge_dict <$> charges payload)) as Hwf.
  { apply Forall_fmap, Forall_forall. intros c _.
    apply charge_dict_well_formed. }
  destruct (run_well_formed float_of_str str_of (monthly_rent payload)
              _ Rules.init Hwf) as [st Hrun].
  pose proof (apply_run float_of_str str_of _ _ _ Hrun) as Happly.
  pose proof (ready_missing payload) as Hrm. fold rd in Hrm.
  unfold adjudicate. subst ok. fold rd.
  destruct (Rules.validate_gate _ _) as [ok v]. cbn [fst].
  destruct ok; cbn [negb andb].
  - rewrite Happly. cbn [mbind result_bind].
    destruct (ready rd) eqn:Er; cbn [negb]; [rewrite (Hrm eq_refl)|];
      eexists _, _, _, _; (split; [reflexivity|]); (split; [reflexivity|]);
      cbn; split_and!; done.
  - eexists _, _, _, _. split; [reflexivity|]. split; [exact Happly|].
    cbn. split_and!; done.
Qed.

(** X15.  The three outcomes.  On a validated request [adjudicate] always
    returns.  A final payout is available exactly when the gate passes and
    the request is ready.  When the gate fails the response is "Declined"
    with no charge, zero totals and no missing field, whatever the charges
    and the readiness.  When it passes the charges are those of
    [apply_policy_rules], the missing fields those of [payout_readiness],
    and the payout is [finalize_payout] of the total when ready, otherwise
    0; the jurisdiction used is reported only with a final payout. *)
Theorem adjudication_outcomes (payload : AdjudicateRequest) :
  let ok :=
    (Rules.validate_gate (documents_dict (documents_present payload))
       (ledger_dict (ledger_checks payload))).1 in
  let rd := payout_readiness payload in
  exists r appr excl total,
    adjudicate float_of_str str_of payload = Ok r
    /\ Rules.apply_policy_rules float_of_str str_of
         (charge_dict <$> charges payload) (monthly_rent payload)
       = Ok (appr, excl, total)
    /\ final_payout_available r = ok && ready rd
    /\ Assessment_Status (template r)
       = (if ok then "Approved" else "Declined")%string
    /\ Approved_Charges (template r) = (if ok then appr else [])
    /\ Excluded_Charges (template r) = (if ok then excl else [])
    /\ Total_Approved_Charges (template r) = (if ok then total else 0)
    /\ Final_Payout_Based_on_Coverage (template r)
       = (if ok && ready rd
          then Rules.finalize_payout total (Some (max_benefit payload))
          else 0)
    /\ missing_fields r = (if ok then missing rd else [])
    /\ jurisdiction_used r
       = (if ok && ready rd then Some (effective_jurisdiction rd) else None).
Proof. apply adjudicate_cases. Qed.

Lemma apply_total cs rent appr excl total :
  Rules.apply_policy_rules float_of_str str_of cs rent
  = Ok (appr, excl, total) ->
  total = round2 (sum_amounts appr).
Proof.
  unfold Rules.apply_policy_rules. intros H.
  apply bind_Ok in H as (st & _ & H).
  cbv [mret result_ret] in H. by simplify_eq.
Qed.

(** X16.  The payout is capped twice.  In a response of [adjudicate] the
    final payout is 0 when no final payout is available; when one is, it
    exceeds neither the total of approved charges nor the max benefit
    rounded to cents. *)
Theorem final_payout_bounded (payload : AdjudicateRequest) (r : response) :
  adjudicate float_of_str str_of payload = Ok r ->
  (final_payout_available r = false ->
   Final_Payout_Based_on_Coverage (template r) = 0)
  /\ (final_payout_available r = true ->
      Final_Payout_Based_on_Coverage (template r)
      <= Total_Approved_Charges (template r)
      /\ Final_Payout_Based_on_Coverage (template r)
         <= round2 (max_benefit payload)).
Proof.
  intros Hr.
  destruct (adjudicate_cases payload)
    as (r' & appr & excl & total & Hr' & Happly & Hav & _ & _ & _ & Htot
        & Hfin & _).
  cbv zeta in Hav, Htot, Hfin. rewrite Hr in Hr'. simplify_eq.
  rewrite Hav, Hfin, Htot. split.
  - by intros ->.
  - intros Hb. rewrite Hb. apply andb_true_iff in Hb as [-> _].
    unfold Rules.finalize_payout.
    assert (Rules.or_zero (Some (max_benefit payload))
            == max_benefit payload) as Hz.
    { cbn. destruct (Qeq_bool (max_benefit payload) 0) eqn:E; [|reflexivity].
      apply Qeq_bool_iff in E. by rewrite E. }
    split.
    + pose proof (apply_total _ _ _ _ _ Happly) as Ht.
      apply Qle_trans with (round2 total); [apply round2_mono; minmax_lra|].
      rewrite Ht. apply Qle_lteq. right. apply round2_idem.
    + apply round2_mono. minmax_lra.
Qed.

End Adjudication.

(** ** The fallback parse *)

Section Tokens.
Import PyStr LedgerReview Extract.
Local Open Scope Q_scope.

Lemma contains_char_cons c a s :
  contains (String c "") (String a s)
  = Ascii.eqb c a || contains (String c "") s.
Proof.
  cbn. destruct (ascii_dec c a) as [->|Hne].
  - rewrite Ascii.eqb_refl. by destruct s.
  - apply Ascii.eqb_neq in Hne. by rewrite Hne.
Qed.

Lemma contains_char_app c a b :
  contains (String c "") (a ++ b)
  = contains (String c "") a || contains (String c "") b.
Proof.
  induction a as [|x a IH]; [done|].
  by rewrite str_app_cons, !contains_char_cons, IH, orb_assoc.
Qed.

Lemma contains_char_slide c before x :
  contains (String c "") before = false ->
  Ascii.eqb c x = false ->
  contains (String c "") (slide before x) = false.
Proof.
  intros Hb Hx. unfold slide.
  assert (contains (String c "") (before ++ String x "") = false) as Ha.
  { rewrite contains_char_app, Hb, contains_char_cons, Hx. done. }
  destruct before as [|p [|q [|r before]]]; try exact Ha.
  rewrite !contains_char_cons in Hb. rewrite !contains_char_cons, Hx.
  apply orb_false_iff in Hb as [_ Hb]. apply orb_false_iff in Hb as [-> _].
  done.
Qed.

Lemma take_digits_split n : forall s d r,
  take_digits n s = (d, r) -> s = d ++ r.
Proof.
  induction n as [|n IH]; intros s d r; [by intros [= <- <-]|].
  destruct s as [|c s]; [by intros [= <- <-]|]. cbn.
  destruct (is_digit c); [|by intros [= <- <-]].
  destruct (take_digits n s) as [d' r'] eqn:E. intros [= <- <-].
  by rewrite str_app_cons, <- (IH _ _ _ E).
Qed.

Lemma take_groups_split_fuel n : forall s g r,
  (String.length s <= n)%nat -> take_groups s = (g, r) -> s = g ++ r.
Proof.
  induction n as [|n IH]; intros s g r Hn.
  { destruct s; [by intros [= <- <-] | cbn in Hn; lia]. }
  destruct s as [|c [|a [|b [|d s]]]]; try (by intros [= <- <-]);
    [destruct c as [[] [] [] [] [] [] [] []]; by intros [= <- <-] ..|].
  destruct (ascii_dec c ",") as [->|Hne].
  - cbn. destruct (is_digit a && is_digit b && is_digit d);
      [|by intros [= <- <-]].
    destruct (take_groups s) as [g' r'] eqn:E. intros [= <- <-].
    rewrite !str_app_cons. do 4 f_equal. apply IH; [cbn in Hn; lia | done].
  - assert (take_groups (String c (String a (String b (String d s))))
            = ("", String c (String a (String b (String d s))))) as ->.
    { destruct c as [[] [] [] [] [] [] [] []]; done. }
    by intros [= <- <-].
Qed.

Lemma take_groups_split s g r : take_groups s = (g, r) -> s = g ++ r.
Proof. by apply (take_groups_split_fuel (String.length s)). Qed.

Lemma take_cents_split s : exists r, s = take_cents s ++ r.
Proof.
  destruct s as [|c [|a [|b s]]]; [by exists ""| | |].
  - exists (String c ""). by destruct c as [[] [] [] [] [] [] [] []].
  - exists (String c (String a "")).
    by destruct c as [[] [] [] [] [] [] [] []].
  - destruct (ascii_dec c ".") as [->|Hne].
    + cbn. destruct (is_digit a && is_digit b); [by exists s | eauto].
    + exists (String c (String a (String b s))).
      destruct c as [[] [] [] [] [] [] [] []]; done.
Qed.

Lemma money_token_prefix s token :
  money_token_at s = Some token -> exists r, s = token ++ r.
Proof.
  unfold money_token_at.
  destruct (take_digits 3 s) as [d r] eqn:Ed.
  destruct (is_empty d); [done|].
  destruct (take_groups r) as [g r'] eqn:Eg. intros [= <-].
  destruct (take_cents_split r') as [r'' Hr].
  exists r''. rewrite (take_digits_split _ _ _ _ Ed).
  rewrite (take_groups_split _ _ _ Eg). rewrite Hr at 1.
  by rewrite !str_app_assoc.
Qed.

Lemma finditer_unmarked s : forall skip before,
  contains "$" before = false ->
  contains "$" s = false ->
  contains "." s = false ->
  Forall (fun m => amount_of_match m = None) (finditer skip before s).
Proof.
  induction s as [|c s IH]; intros skip before Hb Hd Hp; [constructor|].
  rewrite contains_char_cons in Hd, Hp.
  apply orb_false_iff in Hd as [Hc Hd]. apply orb_false_iff in Hp as [Hc' Hp].
  pose proof (contains_char_slide _ _ _ Hb Hc) as Hs.
  cbn [finditer]. destruct skip as [|k]; [|by apply IH].
  destruct (money_token_at (String c s)) as [token|] eqn:E; [|by apply IH].
  constructor; [|by apply IH].
  destruct (money_token_prefix _ _ E) as [r Hr].
  assert (contains "." token = false) as Ht.
  { assert (contains "." (token ++ r) = false) as Hor
      by (rewrite <- Hr, contains_char_cons, Hc', Hp; done).
    rewrite contains_char_app in Hor. by apply orb_false_iff in Hor as [? _]. }
  unfold amount_of_match. rewrite Ht.
  rewrite contains_char_app, Hb, contains_char_cons, Hc. done.
Qed.

Lemma amount_of_match_pos m v : amount_of_match m = Some v -> 0 < v.
Proof.
  unfold amount_of_match. destruct m as [w token].
  destruct (negb _); [done|].
  destruct (Decimal.float_of_str _) as [val|]; [|done].
  destruct (Qle_bool val 0) eqn:E; [done|]. intros [= <-].
  apply Qnot_le_lt. intros Hle. apply Qle_bool_iff in Hle. congruence.
Qed.

Lemma iter_amounts_pos line :
  Forall (fun v => 0 < v) (_iter_amounts_money_only line).
Proof.
  unfold _iter_amounts_money_only. apply Forall_forall. intros v Hv.
  apply list_elem_of_omap in Hv as (m & _ & Hm).
  by apply amount_of_match_pos in Hm.
Qed.

(** X17.  Plain numbers are not money.  Every amount
    [_iter_amounts_money_only] yields is positive, and a line with no "$"
    and no "." yields none, whatever digits it has. *)
Theorem amounts_need_a_marker (line : string) :
  Forall (fun v => 0 < v) (_iter_amounts_money_only line)
  /\ (contains "$" line = false -> contains "." line = false ->
      _iter_amounts_money_only line = []).
Proof.
  split; [apply iter_amounts_pos|]. intros Hd Hp.
  unfold _iter_amounts_money_only.
  pose proof (finditer_unmarked line 0 "" eq_refl Hd Hp) as H.
  induction H as [|m l Hm _ IH]; [done|]. cbn. by rewrite Hm.
Qed.

Lemma digit_not_dot c : is_digit c = true -> Ascii.eqb c "." = false.
Proof.
  destruct c as [[] [] [] [] [] [] [] []]; try discriminate; done.
Qed.

Lemma digit_val_range c :
  is_digit c = true -> (0 <= Decimal.digit_val c <= 9)%Z.
Proof.
  destruct c as [[] [] [] [] [] [] [] []]; try discriminate;
    by vm_compute.
Qed.

Lemma take_digits_digits n : forall s d r,
  take_digits n s = (d, r) ->
  Decimal.all_digits d = true /\ (String.length d <= n)%nat.
Proof.
  induction n as [|n IH]; intros s d r; [intros [= <- <-]; cbn; by split|].
  destruct s as [|c s]; [intros [= <- <-]; cbn; split; [done | lia]|].
  cbn [take_digits]. destruct (is_digit c) eqn:Ec;
    [|intros [= <- <-]; cbn; split; [done | lia]].
  destruct (take_digits n s) as [d' r'] eqn:E. intros [= <- <-].
  destruct (IH _ _ _ E) as [Hd Hl]. cbn. rewrite Ec, Hd. split; [done | lia].
Qed.

Lemma take_groups_no_comma r :
  contains "," r = false -> take_groups r = ("", r).
Proof.
  destruct r as [|c r]; [done|]. rewrite contains_char_cons.
  intros [Hc _]%orb_false_iff.
  destruct c as [[] [] [] [] [] [] [] []]; try done.
Qed.

Lemma take_cents_shape r :
  take_cents r = ""
  \/ exists x y, take_cents r = String "." (String x (String y ""))
                 /\ is_digit x = true /\ is_digit y = true.
Proof.
  destruct r as [|c [|a [|b r]]]; [by left| | |];
    [left; by destruct c as [[] [] [] [] [] [] [] []] ..|].
  destruct (ascii_dec c ".") as [->|Hne].
  - cbn. destruct (is_digit a) eqn:Ea; [|by left].
    destruct (is_digit b) eqn:Eb; [|by left]. right. by exists a, b.
  - left. destruct c as [[] [] [] [] [] [] [] []]; done.
Qed.

Lemma remove_commas_id s : contains "," s = false -> remove_commas s = s.
Proof.
  induction s as [|c s IH]; [done|]. rewrite contains_char_cons.
  intros [Hc Hs]%orb_false_iff. cbn. rewrite Ascii.eqb_sym, Hc.
  by rewrite IH.
Qed.

Lemma strip_tight s : tight s = true -> strip s = s.
Proof.
  intros (c & k & d & k' & -> & Hc & Hr & Hd)%tight_inv.
  unfold strip. cbn [lstrip]. rewrite Hc. unfold rstrip. rewrite Hr.
  cbn [lstrip]. rewrite Hd, <- Hr. apply str_rev_involutive.
Qed.

Lemma float_of_digits c s :
  is_digit c = true -> tight (String c s) = true ->
  Decimal.float_of_str (String c s) = Decimal.unsigned (String c s).
Proof.
  intros Hc Ht. unfold Decimal.float_of_str. rewrite (strip_tight _ Ht).
  destruct c as [[] [] [] [] [] [] [] []]; try discriminate; done.
Qed.

Lemma split_dot_digits d : forall rest,
  Decimal.all_digits d = true ->
  Decimal.split_dot (d ++ String "." rest) = (d, Some rest)
  /\ Decimal.split_dot d = (d, None).
Proof.
  induction d as [|c d IH]; intros rest; [done|].
  cbn [Decimal.all_digits]. intros [Hc Hd]%andb_true_iff.
  rewrite str_app_cons. cbn [Decimal.split_dot].
  rewrite (digit_not_dot _ Hc).
  destruct (IH rest Hd) as [-> ->]. done.
Qed.

Lemma token_value_bound d cents v :
  Decimal.all_digits d = true -> is_empty d = false ->
  (String.length d <= 3)%nat ->
  (cents = ""
   \/ exists x y, cents = String "." (String x (String y ""))
                  /\ is_digit x = true /\ is_digit y = true) ->
  Decimal.float_of_str (d ++ cents) = Some v -> v < 1000.
Proof.
  intros Hd He Hl Hc.
  assert (0 <= Decimal.digits_val 0 d <= 999)%Z as Hv.
  { destruct d as [|a [|b [|c [|e d]]]]; [done| | | |cbn in Hl; lia];
      cbn [Decimal.all_digits] in Hd; cbn [Decimal.digits_val];
      repeat (apply andb_true_iff in Hd as [?%digit_val_range Hd]); lia. }
  assert (exists a d', d = String a d' /\ is_digit a = true)
    as (a & d' & -> & Ha).
  { destruct d as [|a d']; [done|]. cbn in Hd.
    apply andb_true_iff in Hd as [? _]. eauto. }
  assert (tight (String a d' ++ cents) = true) as Ht.
  { destruct Hc as [->|(x & y & -> & Hx & Hy)].
    - rewrite str_app_nil_r. clear Hv He.
      destruct d' as [|b [|c [|e d']]]; [| | |cbn in Hl; lia];
        cbn [Decimal.all_digits] in Hd;
        repeat (apply andb_true_iff in Hd as [?%digit_not_space Hd]);
        unfold tight; cbn; by repeat match goal with
                                     | H : is_space _ = false |- _ =>
                                         rewrite H; clear H
                                     end.
    - pose proof (digit_not_space _ Hy) as Hy'.
      pose proof (digit_not_space _ Ha) as Ha'.
      unfold tight. rewrite str_app_cons, str_rev_cons, str_rev_app.
      cbn. rewrite !str_app_cons. by rewrite Ha', Hy'. }
  rewrite str_app_cons in Ht |- *. rewrite (float_of_digits _ _ Ha Ht).
  rewrite <- str_app_cons. unfold Decimal.unsigned.
  destruct Hc as [->|(x & y & -> & Hx & Hy)].
  - rewrite str_app_nil_r.
    destruct (split_dot_digits _ "" Hd) as [_ ->]. rewrite Hd.
    cbn [is_empty negb orb].
    generalize dependent (Decimal.digits_val 0 (String a d')).
    intros i Hi [= <-]. unfold Qlt. cbn. lia.
  - destruct (split_dot_digits _ (String x (String y "")) Hd) as [-> _].
    rewrite Hd. cbn [Decimal.all_digits is_empty]. rewrite Hx, Hy.
    cbn [andb orb negb].
    generalize dependent (Decimal.digits_val 0 (String a d')).
    intros i Hi [= <-].
    apply digit_val_range in Hx, Hy.
    assert (inject_Z i <= 999) as H1 by (unfold Qle; cbn; lia).
    cbn [Decimal.digits_val String.length].
    change (10 ^ Z.of_nat 2)%Z with 100%Z.
    set (f := (10 * (10 * 0 + Decimal.digit_val x) + Decimal.digit_val y)%Z).
    assert (0 <= f <= 99)%Z as Hf by (subst f; lia).
    assert (inject_Z f <= 99) as H2 by (unfold Qle; cbn; lia).
    assert (inject_Z f / inject_Z 100 == inject_Z f * (1 # 100)) as ->
      by (unfold Qdiv; reflexivity).
    lra.
Qed.

Lemma finditer_no_comma s : forall skip before,
  contains "," s = false ->
  Forall (fun m => forall v, amount_of_match m = Some v -> v < 1000)
    (finditer skip before s).
Proof.
  induction s as [|c s IH]; intros skip before Hs; [constructor|].
  pose proof Hs as Hs'. rewrite contains_char_cons in Hs'.
  apply orb_false_iff in Hs' as [_ Hs'].
  cbn [finditer]. destruct skip as [|k]; [|by apply IH].
  destruct (money_token_at (String c s)) as [token|] eqn:E; [|by apply IH].
  constructor; [|by apply IH].
  intros v. unfold amount_of_match. destruct (negb _); [done|].
  destruct (money_token_prefix _ _ E) as [rest Hrest].
  assert (contains "," token = false) as Htok.
  { rewrite Hrest, contains_char_app in Hs.
    by apply orb_false_iff in Hs as [? _]. }
  rewrite (remove_commas_id _ Htok).
  destruct (Decimal.float_of_str token) as [val|] eqn:Ef; [|done].
  destruct (Qle_bool val 0); [done|]. intros [= <-].
  revert E. unfold money_token_at.
  destruct (take_digits 3 (String c s)) as [d r] eqn:Ed.
  destruct (is_empty d) eqn:Ee; [done|].
  assert (contains "," r = false) as Hr.
  { rewrite (take_digits_split _ _ _ _ Ed), contains_char_app in Hs.
    by apply orb_false_iff in Hs as [_ ?]. }
  rewrite (take_groups_no_comma _ Hr). intros [= <-].
  destruct (take_digits_digits _ _ _ _ Ed) as [Hd Hl].
  apply (token_value_bound d (take_cents r) val Hd Ee Hl
           (take_cents_shape r) Ef).
Qed.

(** X18.  Digits are read three at a time.  On a line without a comma
    every amount [_iter_amounts_money_only] yields is below 1000: of a
    longer run of digits the pattern matches the first three, and the
    rest is matched apart. *)
Theorem amounts_without_comma (line : string) :
  contains "," line = false ->
  Forall (fun v => v < 1000) (_iter_amounts_money_only line).
Proof.
  intros Hs. unfold _iter_amounts_money_only. apply Forall_forall.
  intros v (m & Hm & Hv)%list_elem_of_omap.
  pose proof (finditer_no_comma line 0 "" Hs) as H.
  rewrite Forall_forall in H. by apply (H m).
Qed.

End Tokens.

Section FallbackParse.
Import PyStr Extract.
Variable float_of_str : string -> option Q.
Variable str_of : pyval -> string.
Local Open Scope Q_scope.

(** [c] is the charge of an amount of the line [raw_line] of the document
    [d]. *)
Local Abbreviation from_line d raw_line c :=
  (let line := strip raw_line in
   contains "deposit" (lower line) = false
   /\ exists a wear,
        a ∈ _iter_amounts_money_only line
        /\ wear ∈ [VStr "normal"; VStr "beyond"; VNone]
        /\ c = fallback_charge (_guess_category line) line wear d.1 a).

Lemma fallback_line_charges filename (text : string) st raw_line c :
  c ∈ fallback_charges (fallback_line filename st raw_line) ->
  c ∈ fallback_charges st \/ from_line (filename, text) raw_line c.
Proof.
  unfold fallback_line. cbv zeta.
  destruct (is_empty (strip raw_line)); [by left|].
  destruct (contains "deposit" (lower (strip raw_line))) eqn:Ed.
  - destruct (_iter_amounts_money_only (strip raw_line)) as [|a amts];
      [|destruct (deposit_amount st)];
      try destruct (contains "one month" _ && contains "rent" _);
      cbn [fallback_charges]; by left.
  - destruct (_iter_amounts_money_only (strip raw_line)) as [|a amts] eqn:Ea;
      [by left|].
    cbn [fallback_charges]. rewrite elem_of_app.
    intros [H|H]; [by left|]. right. split; [done|].
    apply list_elem_of_fmap in H as (a' & -> & Ha').
    exists a'. eexists. split; [done|]. split; [|reflexivity].
    destruct (contains "normal wear" _); [by left|].
    destruct (any_in _ _); [right; by left | right; right; by left].
Qed.

Lemma fallback_lines_charges (d : string * string) lines : forall st c,
  c ∈ fallback_charges (fold_left (fallback_line d.1) lines st) ->
  c ∈ fallback_charges st
  \/ exists raw_line, raw_line ∈ lines /\ from_line d raw_line c.
Proof.
  induction lines as [|l lines IH]; intros st c; cbn [fold_left];
    [by left|].
  intros [H|(raw & Hin & H)]%IH.
  - apply (fallback_line_charges d.1 d.2) in H as [H|H]; [by left|].
    right. exists l. split; [by left|]. by destruct d.
  - right. exists raw. split; [by right | done].
Qed.

Lemma fallback_docs_charges docs : forall st c,
  c ∈ fallback_charges
        (fold_left
           (fun st d => fold_left (fallback_line d.1) (splitlines d.2) st)
           docs st) ->
  c ∈ fallback_charges st
  \/ exists d raw_line,
       d ∈ docs /\ raw_line ∈ splitlines d.2 /\ from_line d raw_line c.
Proof.
  induction docs as [|d docs IH]; intros st c; cbn [fold_left]; [by left|].
  intros [H|(d' & raw & Hd & Hin & H)]%IH.
  - apply fallback_lines_charges in H as [H|(raw & Hin & H)]; [by left|].
    right. exists d, raw. split; [by left | done].
  - right. exists d', raw. split; [by right | done].
Qed.

Lemma fallback_charge_fields cat line wear filename a :
  let c := fallback_charge cat line wear filename a in
  c !! "category" = Some (VStr cat)
  /\ c !! "description" = Some (VStr (slice_to 140 line))
  /\ c !! "amount" = Some (VNum a)
  /\ c !! "status" = Some (VStr "unpaid")
  /\ c !! "wear" = Some wear
  /\ c !! "source" = Some (VStr filename).
Proof.
  cbv zeta. unfold fallback_charge. cbn [list_to_map foldr uncurry].
  split_and!;
    repeat (rewrite lookup_insert_ne by done); by rewrite lookup_insert_eq.
Qed.

(** X19.  Where a fallback charge comes from.  Each charge of the
    fallback parse stands for one amount of one line of one document: the
    line, trimmed, does not mention a deposit; the amount is one
    [_iter_amounts_money_only] yields on it, and positive; the category is
    [_guess_category] of the line, the description its first 140
    characters, the status "unpaid" and the source the document's name. *)
Theorem fallback_charge_origin (docs : list (string * string))
    (c : gmap string pyval) :
  c ∈ fallback_charges (fallback_parse docs) ->
  exists d raw_line a,
    d ∈ docs /\ raw_line ∈ splitlines d.2
    /\ let line := strip raw_line in
       contains "deposit" (lower line) = false
       /\ a ∈ _iter_amounts_money_only line /\ 0 < a
       /\ c !! "category" = Some (VStr (_guess_category line))
       /\ c !! "description" = Some (VStr (slice_to 140 line))
       /\ c !! "amount" = Some (VNum a)
       /\ c !! "status" = Some (VStr "unpaid")
       /\ c !! "source" = Some (VStr d.1).
Proof.
  unfold fallback_parse.
  intros [H|(d & raw & Hd & Hin & Hdep & a & wear & Ha & Hw & ->)]
    %fallback_docs_charges; [by apply elem_of_nil in H|].
  exists d, raw, a. split; [done|]. split; [done|]. cbv zeta.
  destruct (fallback_charge_fields (_guess_category (strip raw)) (strip raw)
              wear d.1 a) as (? & ? & ? & ? & _ & ?).
  split_and!; try done.
  pose proof (iter_amounts_pos (strip raw)) as Hpos.
  rewrite Forall_forall in Hpos. by apply Hpos.
Qed.

Lemma fallback_charge_well_formed cat line wear filename a :
  wear ∈ [VStr "normal"; VStr "beyond"; VNone] ->
  Rules.well_formed float_of_str (fallback_charge cat line wear filename a)
  = true
  /\ Rules.include_only_unpaid (fallback_charge cat line wear filename a)
     = Ok true.
Proof.
  intros Hw.
  destruct (fallback_charge_fields cat line wear filename a)
    as (Hc & Hd & Ha & Hs & Hwear & _). cbv zeta in *.
  unfold Rules.well_formed, Rules.include_only_unpaid, get_none, get.
  rewrite Hc, Hd, Ha, Hs, Hwear. cbn.
  split; [|reflexivity].
  assert (Rules.str_or_falsy wear = true) as ->.
  { repeat (apply elem_of_cons in Hw as [->|Hw]; [done|]).
    by apply elem_of_nil in Hw. }
  unfold Rules.amount_ok, py_or. cbn. by destruct (Qeq_bool a 0).
Qed.

Lemma fallback_charges_well_formed docs :
  Forall (fun c => Rules.well_formed float_of_str c = true
                   /\ Rules.include_only_unpaid c = Ok true)
    (fallback_charges (fallback_parse docs)).
Proof.
  apply Forall_forall. intros c.
  unfold fallback_parse.
  intros [H|(d & raw & Hd & Hin & Hdep & a & wear & Ha & Hw & ->)]
    %fallback_docs_charges; [by apply elem_of_nil in H|].
  by apply fallback_charge_well_formed.
Qed.

(** X20.  The rules accept the fallback charges.  On the charges the
    fallback parse returns, at most 200, [apply_policy_rules] returns
    whatever the monthly rent, and every one of them is dispatched as an
    unpaid charge. *)
Theorem fallback_charges_accepted (docs : list (string * string))
    (monthly_rent : Q) :
  (length (charges_fallback docs) <= 200)%nat
  /\ Forall (fun c => Rules.include_only_unpaid c = Ok true)
       (charges_fallback docs)
  /\ exists appr excl total_approved,
       Rules.apply_policy_rules float_of_str str_of (charges_fallback docs)
         monthly_rent
       = Ok (appr, excl, total_approved).
Proof.
  pose proof (fallback_charges_well_formed docs) as H.
  apply (Forall_take _ 200%nat) in H. fold (charges_fallback docs) in H.
  split; [unfold charges_fallback; rewrite length_take; lia|].
  split; [eapply Forall_impl; [exact H|]; by intros c [_ ?]|].
  assert (Forall (fun c => Rules.well_formed float_of_str c = true)
            (charges_fallback docs)) as Hwf
    by (eapply Forall_impl; [exact H|]; by intros c [? _]).
  destruct (run_well_formed float_of_str str_of monthly_rent _ Rules.init
              Hwf) as [st Hst].
  unfold Rules.apply_policy_rules. rewrite Hst. cbn. eauto.
Qed.

(** A line that leaves the deposit as it is: not a deposit line, or one
    with no amount and no mention of one month of rent. *)
Local Abbreviation quiet raw_line :=
  (let line := strip raw_line in
   let lw := lower line in
   contains "deposit" lw = true ->
   _iter_amounts_money_only line = []
   /\ contains "one month" lw && contains "rent" lw = false).

(** The values the deposit takes. *)
Local Abbreviation deposit_value v :=
  (v = VNone \/ (exists a, v = VNum a /\ 0 < a)
   \/ v = VStr "ONE_MONTH_RENT").

Lemma fallback_line_deposit filename st raw_line :
  let st' := fallback_line filename st raw_line in
  (deposit_amount st' = VNone
   <-> deposit_amount st = VNone /\ quiet raw_line)
  /\ (deposit_value (deposit_amount st) ->
      deposit_value (deposit_amount st')).
Proof.
  cbv zeta. unfold fallback_line. cbv zeta.
  destruct (is_empty (strip raw_line)) eqn:Ee.
  { destruct (strip raw_line); [|done]. split; [|done].
    split; [|by intros [? _]]. intros H. split; [done|]. by cbn. }
  destruct (contains "deposit" (lower (strip raw_line))) eqn:Ed.
  - pose proof (iter_amounts_pos (strip raw_line)) as Hpos.
    destruct (_iter_amounts_money_only (strip raw_line)) as [|a amts].
    + destruct (contains "one month" _ && contains "rent" _);
        cbn [deposit_amount].
      * split; [|by right; right]. split; [done|].
        intros [_ H]. by destruct (H eq_refl).
      * split; [|done]. split; [by intros ->|by intros [? _]].
    + apply Forall_cons in Hpos as [Ha _].
      destruct (deposit_amount st) eqn:Est;
        try destruct (contains "one month" _ && contains "rent" _);
        cbn [deposit_amount]; rewrite ?Est;
        (split; [split; [done|intros [? H]; try done;
                         by destruct (H eq_refl)]|]);
        intros H; first [exact H | by right; right | right; left; eauto].
  - destruct (_iter_amounts_money_only (strip raw_line)) as [|a amts];
      cbn [deposit_amount];
      (split; [|done]); (split; [by intros ->|by intros [? _]]).
Qed.

Lemma fallback_lines_deposit filename lines : forall st,
  let st' := fold_left (fallback_line filename) lines st in
  (deposit_amount st' = VNone
   <-> deposit_amount st = VNone
       /\ forall raw_line, raw_line ∈ lines -> quiet raw_line)
  /\ (deposit_value (deposit_amount st) ->
      deposit_value (deposit_amount st')).
Proof.
  induction lines as [|l lines IH]; intros st; cbv zeta; cbn [fold_left].
  { split; [|done]. split; [|by intros [? _]]. intros H. split; [done|].
    by intros raw Hin%elem_of_nil. }
  destruct (IH (fallback_line filename st l)) as [IH1 IH2].
  destruct (fallback_line_deposit filename st l) as [H1 H2].
  cbv zeta in IH1, IH2, H1, H2. split; [|tauto].
  rewrite IH1, H1. split.
  - intros [[Hst Hl] Hall]. split; [done|].
    intros raw [->|Hin]%elem_of_cons; [exact Hl | by apply Hall].
  - intros [Hst Hall]. split; [split; [done|]|].
    + apply Hall. by left.
    + intros raw Hin. apply Hall. by right.
Qed.

Lemma fallback_docs_deposit docs : forall st,
  let st' :=
    fold_left
      (fun st d => fold_left (fallback_line d.1) (splitlines d.2) st)
      docs st in
  (deposit_amount st' = VNone
   <-> deposit_amount st = VNone
       /\ forall d raw_line,
            d ∈ docs -> raw_line ∈ splitlines d.2 -> quiet raw_line)
  /\ (deposit_value (deposit_amount st) ->
      deposit_value (deposit_amount st')).
Proof.
  induction docs as [|d docs IH]; intros st; cbv zeta; cbn [fold_left].
  { split; [|done]. split; [|by intros [? _]]. intros H. split; [done|].
    by intros d raw Hin%elem_of_nil. }
  destruct (IH (fold_left (fallback_line d.1) (splitlines d.2) st))
    as [IH1 IH2].
  destruct (fallback_lines_deposit d.1 (splitlines d.2) st) as [H1 H2].
  cbv zeta in IH1, IH2, H1, H2. split; [|tauto].
  rewrite IH1, H1. split.
  - intros [[Hst Hl] Hall]. split; [done|].
    intros d' raw [->|Hin]%elem_of_cons; [apply Hl | by apply Hall].
  - intros [Hst Hall]. split; [split; [done|]|].
    + intros raw Hin. apply (Hall d); [by left | done].
    + intros d' raw Hin. apply Hall. by right.
Qed.

(** X21.  The deposit of the fallback parse.  It is [None], a positive
    amount or "ONE_MONTH_RENT", and it is [None] exactly when every line
    that mentions a deposit has no amount and does not mention both
    "one month" and "rent". *)
Theorem fallback_deposit_unset (docs : list (string * string)) :
  let dep := deposit_amount (fallback_parse docs) in
  (dep = VNone \/ (exists a, dep = VNum a /\ 0 < a)
   \/ dep = VStr "ONE_MONTH_RENT")
  /\ (dep = VNone
      <-> forall d raw_line,
            d ∈ docs -> raw_line ∈ splitlines d.2 ->
            let line := strip raw_line in
            let lw := lower line in
            contains "deposit" lw = true ->
            _iter_amounts_money_only line = []
            /\ contains "one month" lw && contains "rent" lw = false).
Proof.
  cbv zeta. unfold fallback_parse.
  destruct (fallback_docs_deposit docs (Fallback [] VNone)) as [H1 H2].
  cbv zeta in H1, H2. cbn [deposit_amount] in H1, H2.
  split; [apply H2; by left|]. rewrite H1. split; [by intros [_ ?]|done].
Qed.

Lemma rekey_is_rekey desc :
  Rules._is_rekey str_of "rekey" (VStr desc) = true.
Proof.
  unfold Rules._is_rekey, Rules.REKEY_SYNONYMS, any_in. cbv zeta.
  cbn [existsb Rules.fmt]. apply orb_true_iff. left.
  apply contains_app. exists "", (lower (" " ++ desc)).
  by rewrite lower_app.
Qed.


End FallbackParse.

(** ** Instances *)

Section Instances2.
Import Examples Cases Adjudicate Extract.
Local Open Scope Q_scope.

Local Abbreviation apply_rules :=
  (Rules.apply_policy_rules Decimal.float_of_str Decimal.str_of).

Lemma yard_work_result :
  apply_rules [mow; trim; worn_yard] 1000
  = Ok ([(VStr "Landscaping – mow", 300, "Capped at $500");
         (VStr "Landscaping – hedges", 200, "Capped at $500")],
        [(VStr "hedges", 150, "Over $500 cap");
         (VStr "yard sweep", 80, "Normal wear and tear")],
        500).
Proof. by vm_compute. Qed.


(** The same three charges give two approved and two excluded tuples. *)
Lemma tuples_per_charge_witness :
  exists appr excl total_approved,
    apply_rules [mow; trim; worn_yard] 1000
    = Ok (appr, excl, total_approved)
    /\ (length appr <= 3)%nat /\ (length excl <= 3)%nat
    /\ (3 <= length appr + length excl)%nat.
Proof.
  eexists _, _, _. split; [exact yard_work_result|].
  exact (tuples_per_charge Decimal.float_of_str Decimal.str_of
           [mow; trim; worn_yard] 1000 _ _ _ yard_work_result).
Defined.

(** The same three charges: 300 and 200 are approved under the cap. *)
Lemma cap_on_every_list_witness :
  positive
    (with_reason "Capped at $500"
       [(VStr "Landscaping – mow", 300, "Capped at $500");
        (VStr "Landscaping – hedges", 200, "Capped at $500")])
  /\ sum_amounts
       (with_reason "Capped at $500"
          [(VStr "Landscaping – mow", 300, "Capped at $500");
           (VStr "Landscaping – hedges", 200, "Capped at $500")])
     <= 500.
Proof.
  exact (cap_on_every_list Decimal.float_of_str Decimal.str_of
           [mow; trim; worn_yard] 1000 _ _ _ yard_work_result).
Defined.

(** The decisions on the first charge open those on the three. *)
Lemma decisions_are_final_witness :
  exists appr1 excl1 total1,
    apply_rules [mow] 1000 = Ok (appr1, excl1, total1)
    /\ appr1 `prefix_of`
         [(VStr "Landscaping – mow", 300, "Capped at $500");
          (VStr "Landscaping – hedges", 200, "Capped at $500")]
    /\ excl1 `prefix_of`
         [(VStr "hedges", 150, "Over $500 cap");
          (VStr "yard sweep", 80, "Normal wear and tear")].
Proof.
  exact (decisions_are_final Decimal.float_of_str Decimal.str_of
           [mow] [trim; worn_yard] 1000 _ _ _ yard_work_result).
Defined.

(** A paid charge and a charge without status: both excluded as paid. *)
Lemma paid_charges_excluded_witness :
  apply_rules [paid_cleaning; no_status] 1000
  = Ok ([], zip_with paid_entry [paid_cleaning; no_status] [90; 455 # 10], 0).
Proof.
  apply (paid_charges_excluded Decimal.float_of_str Decimal.str_of).
  - repeat constructor.
  - repeat constructor.
Defined.


(** A charge filed as unpaid_rent whose description speaks of a lock
    change is approved as a rekey and leaves the rent cap unused. *)
Lemma rekey_synonym_wins_witness :
  Rules.process_charge Decimal.float_of_str Decimal.str_of 1000 Rules.init
    rent_lock_change
  = Ok (Rules.Acc
          (Rules.approved Rules.init
           ++ [(Rules.label Decimal.str_of "Rekey"
                  (Rules.charge_desc rent_lock_change), 180,
                "Move-out rekey")])
          (Rules.excluded Rules.init) (Rules.landscaping_used Rules.init)
          (Rules.rent_used Rules.init)).
Proof.
  apply (rekey_synonym_wins Decimal.float_of_str Decimal.str_of 1000
           Rules.init rent_lock_change "unpaid_rent" 180 EmptyString);
    by vm_compute.
Defined.

(** A complete request with 580 approved and a max benefit of 500. *)
Lemma final_payout_bounded_witness :
  exists r,
    adjudicate Decimal.float_of_str Decimal.str_of request = Ok r
    /\ (final_payout_available r = false ->
        Final_Payout_Based_on_Coverage (template r) = 0)
    /\ (final_payout_available r = true ->
        Final_Payout_Based_on_Coverage (template r)
        <= Total_Approved_Charges (template r)
        /\ Final_Payout_Based_on_Coverage (template r) <= round2 500).
Proof.
  eexists. split; [by vm_compute|].
  apply (final_payout_bounded Decimal.float_of_str Decimal.str_of request).
  by vm_compute.
Defined.

(** "$1500.00" is read as 150: the pattern stops after three digits. *)
Lemma amounts_without_comma_witness :
  _iter_amounts_money_only "Carpet $1500.00" = [150]
  /\ Forall (fun v => v < 1000) (_iter_amounts_money_only "Carpet $1500.00").
Proof.
  split; [by vm_compute|].
  apply (amounts_without_comma "Carpet $1500.00"). by vm_compute.
Defined.

Lemma statement_charges :
  fallback_charges (fallback_parse [("statement.pdf", statement)])
  = [rekey_line].
Proof. by vm_compute. Qed.

(** The statement gives one charge, for its second line: the first is a
    deposit line and the third has a number but no amount. *)
Lemma fallback_charge_origin_witness :
  exists d raw_line a,
    d ∈ [("statement.pdf", statement)]
    /\ raw_line ∈ PyStr.splitlines d.2
    /\ let line := PyStr.strip raw_line in
       PyStr.contains "deposit" (PyStr.lower line) = false
       /\ a ∈ _iter_amounts_money_only line /\ 0 < a
       /\ rekey_line !! "category" = Some (VStr (_guess_category line))
       /\ rekey_line !! "description" = Some (VStr (slice_to 140 line))
       /\ rekey_line !! "amount" = Some (VNum a)
       /\ rekey_line !! "status" = Some (VStr "unpaid")
       /\ rekey_line !! "source" = Some (VStr d.1).
Proof.
  apply (fallback_charge_origin [("statement.pdf", statement)] rekey_line).
  rewrite statement_charges. by left.
Defined.


(** A paid charge and an unpaid one: one tuple excluded as paid. *)
Lemma paid_reason_marks_paid_witness :
  with_reason "Paid/Not overdue"
    [(VStr "Landscaping – mow", 300, "Capped at $500")] = []
  /\ length (with_reason "Paid/Not overdue"
               [(VStr "move-out clean", 90, "Paid/Not overdue")])
     = length (List.filter settled [paid_cleaning; mow]).
Proof.
  apply (paid_reason_marks_paid Decimal.float_of_str Decimal.str_of
           [paid_cleaning; mow] 1000 _ _ 300).
  by vm_compute.
Defined.

End Instances2.
